(** * dlls/ntdll/sysdeps.c: system-dependent scheduler support

    A shallow embedding of the thread lifecycle code of [sysdeps.c]:
    the temporary stack pool, the current-thread registrar, the startup
    routine, the spawner with its build variants, the stack switcher with
    its per-architecture bodies, graceful exit and abort, and the errno
    indirection.

    The C file is one text with many preprocessor branches; the embedding
    keeps the branches: every definition takes the build configuration
    [config] and follows the [#if] chains of the source in their order.
    Calls that leave the file (libc, the host thread library, the server
    and signal code of ntdll) are recorded as events of a trace; what they
    answer comes from a [host] record. *)

From Stdlib Require Import ZArith List Bool Lia.
Import ListNotations.
Open Scope Z_scope.

Set Implicit Arguments.

(* ================================================================== *)
(** ** Build configuration *)

(** The preprocessor symbols the file tests. *)
Record config := mkConfig {
  def_i386 : bool;          (* __i386__ *)
  def_powerpc : bool;       (* __powerpc__ *)
  def_sparc : bool;         (* __sparc__ *)
  def_GNUC : bool;          (* __GNUC__ *)
  def_MSC_VER : bool;       (* _MSC_VER *)
  def_APPLE : bool;         (* __APPLE__ *)
  def_linux : bool;         (* __linux__ *)
  HAVE_NPTL : bool;
  HAVE_CLONE : bool;
  HAVE_RFORK : bool;
  HAVE__LWP_CREATE : bool;
  HAVE_VALGRIND_MEMCHECK_H : bool
}.

(* ================================================================== *)
(** ** Data *)

(** [struct thread_cleanup_info]. *)
Record thread_cleanup_info := mkInfo {
  info_stack_base : Z;
  info_stack_size : Z;
  info_status : Z
}.

(** The fields of the TEB that this file reads or writes ([thread.h] is
    not part of the file).  [startup] is the entry function pointer. *)
Record TEB := mkTEB {
  teb_sel : Z;
  stack_base : Z;
  stack_low : Z;
  stack_top : Z;
  wait_fd0 : Z;
  wait_fd1 : Z;
  reply_fd : Z;
  request_fd : Z;
  pthread_data : Z;
  thread_errno : Z;
  thread_h_errno : Z;
  startup : Z
}.

Definition set_stack_base (v : Z) (t : TEB) : TEB :=
  mkTEB (teb_sel t) v (stack_low t) (stack_top t) (wait_fd0 t) (wait_fd1 t)
        (reply_fd t) (request_fd t) (pthread_data t) (thread_errno t)
        (thread_h_errno t) (startup t).

Definition set_stack_low (v : Z) (t : TEB) : TEB :=
  mkTEB (teb_sel t) (stack_base t) v (stack_top t) (wait_fd0 t) (wait_fd1 t)
        (reply_fd t) (request_fd t) (pthread_data t) (thread_errno t)
        (thread_h_errno t) (startup t).

Definition set_stack_top (v : Z) (t : TEB) : TEB :=
  mkTEB (teb_sel t) (stack_base t) (stack_low t) v (wait_fd0 t) (wait_fd1 t)
        (reply_fd t) (request_fd t) (pthread_data t) (thread_errno t)
        (thread_h_errno t) (startup t).

Definition set_pthread_data (v : Z) (t : TEB) : TEB :=
  mkTEB (teb_sel t) (stack_base t) (stack_low t) (stack_top t) (wait_fd0 t)
        (wait_fd1 t) (reply_fd t) (request_fd t) v (thread_errno t)
        (thread_h_errno t) (startup t).

Definition set_thread_errno (v : Z) (t : TEB) : TEB :=
  mkTEB (teb_sel t) (stack_base t) (stack_low t) (stack_top t) (wait_fd0 t)
        (wait_fd1 t) (reply_fd t) (request_fd t) (pthread_data t) v
        (thread_h_errno t) (startup t).

Definition set_thread_h_errno (v : Z) (t : TEB) : TEB :=
  mkTEB (teb_sel t) (stack_base t) (stack_low t) (stack_top t) (wait_fd0 t)
        (wait_fd1 t) (reply_fd t) (request_fd t) (pthread_data t)
        (thread_errno t) v (startup t).

(** The two functions [errno_location_ptr] and [h_errno_location_ptr]
    can point to. *)
Inductive errno_fn :=
| default_errno_location_fn
| default_h_errno_location_fn
| thread_errno_location_fn
| thread_h_errno_location_fn.

(** An [int *] as the accessors return it: the two function-local
    statics, or a cell inside the TEB at a given address. *)
Inductive int_ptr :=
| addr_static_errno
| addr_static_h_errno
| addr_thread_errno (teb : Z)
| addr_thread_h_errno (teb : Z).

(** What is private to an execution unit: its stack pointer and the place
    the registrar keeps the current TEB in (the base and selector of
    [%fs] on i386, [r13] or [r2] on PowerPC, the LWP private pointer).
    The stack pointer moves where the assembly of the file moves it; the
    frames the compiler makes for the C code are not counted, so that
    within C code it stands for the stack the unit is on. *)
Record regs := mkRegs {
  r_sp : Z;
  r_fs_sel : Z;
  r_fs_base : Z;
  r_r2 : Z;
  r_r13 : Z;
  r_lwp_private : Z
}.

(** The registers of the unit that runs, and the memory all units share,
    the file's statics among it. *)
Record world := mkWorld {
  w_regs : regs;
  w_tebs : Z -> TEB;                       (* control blocks by address *)
  w_infos : Z -> thread_cleanup_info;      (* cleanup-info objects by address *)
  w_static_errno : Z;
  w_static_h_errno : Z;
  w_next_temp_stack : Z;                   (* static LONG next_temp_stack *)
  w_teb_to_free : Z;                       (* static TEB *teb_to_free *)
  w_errno_location_ptr : errno_fn;
  w_h_errno_location_ptr : errno_fn
}.

Definition with_regs (r : regs) (w : world) : world :=
  mkWorld r (w_tebs w) (w_infos w) (w_static_errno w) (w_static_h_errno w)
          (w_next_temp_stack w) (w_teb_to_free w) (w_errno_location_ptr w)
          (w_h_errno_location_ptr w).

Definition with_tebs (m : Z -> TEB) (w : world) : world :=
  mkWorld (w_regs w) m (w_infos w) (w_static_errno w) (w_static_h_errno w)
          (w_next_temp_stack w) (w_teb_to_free w) (w_errno_location_ptr w)
          (w_h_errno_location_ptr w).

Definition with_infos (m : Z -> thread_cleanup_info) (w : world) : world :=
  mkWorld (w_regs w) (w_tebs w) m (w_static_errno w) (w_static_h_errno w)
          (w_next_temp_stack w) (w_teb_to_free w) (w_errno_location_ptr w)
          (w_h_errno_location_ptr w).

Definition with_static_errno (v : Z) (w : world) : world :=
  mkWorld (w_regs w) (w_tebs w) (w_infos w) v (w_static_h_errno w)
          (w_next_temp_stack w) (w_teb_to_free w) (w_errno_location_ptr w)
          (w_h_errno_location_ptr w).

Definition with_static_h_errno (v : Z) (w : world) : world :=
  mkWorld (w_regs w) (w_tebs w) (w_infos w) (w_static_errno w) v
          (w_next_temp_stack w) (w_teb_to_free w) (w_errno_location_ptr w)
          (w_h_errno_location_ptr w).

Definition with_next_temp_stack (v : Z) (w : world) : world :=
  mkWorld (w_regs w) (w_tebs w) (w_infos w) (w_static_errno w)
          (w_static_h_errno w) v (w_teb_to_free w) (w_errno_location_ptr w)
          (w_h_errno_location_ptr w).

Definition with_teb_to_free (v : Z) (w : world) : world :=
  mkWorld (w_regs w) (w_tebs w) (w_infos w) (w_static_errno w)
          (w_static_h_errno w) (w_next_temp_stack w) v (w_errno_location_ptr w)
          (w_h_errno_location_ptr w).

Definition with_errno_location_ptr (e : errno_fn) (w : world) : world :=
  mkWorld (w_regs w) (w_tebs w) (w_infos w) (w_static_errno w)
          (w_static_h_errno w) (w_next_temp_stack w) (w_teb_to_free w) e
          (w_h_errno_location_ptr w).

Definition with_h_errno_location_ptr (h : errno_fn) (w : world) : world :=
  mkWorld (w_regs w) (w_tebs w) (w_infos w) (w_static_errno w)
          (w_static_h_errno w) (w_next_temp_stack w) (w_teb_to_free w)
          (w_errno_location_ptr w) h.

(** Update of a store at one address. *)
Definition upd {A : Type} (m : Z -> A) (k : Z) (v : A) : Z -> A :=
  fun k' => if Z.eqb k' k then v else m k'.

(** The statics as the loader leaves them, around given registers and
    memory contents. *)
Definition at_load (r : regs) (tebs : Z -> TEB)
  (infos : Z -> thread_cleanup_info) : world :=
  mkWorld r tebs infos 0 0 0 0 default_errno_location_fn
          default_h_errno_location_fn.

(** Reading and writing an [int] through a pointer the accessors gave. *)
Definition load_int (p : int_ptr) (w : world) : Z :=
  match p with
  | addr_static_errno => w_static_errno w
  | addr_static_h_errno => w_static_h_errno w
  | addr_thread_errno teb => thread_errno (w_tebs w teb)
  | addr_thread_h_errno teb => thread_h_errno (w_tebs w teb)
  end.

Definition store_int (p : int_ptr) (v : Z) (w : world) : world :=
  match p with
  | addr_static_errno => with_static_errno v w
  | addr_static_h_errno => with_static_h_errno v w
  | addr_thread_errno teb =>
      with_tebs (upd (w_tebs w) teb (set_thread_errno v (w_tebs w teb))) w
  | addr_thread_h_errno teb =>
      with_tebs (upd (w_tebs w) teb (set_thread_h_errno v (w_tebs w teb))) w
  end.

(* ================================================================== *)
(** ** Events *)

(** The functions of the file, for the call markers of a trace. *)
Inductive fn :=
| F_SYSDEPS_SetCurThread
| F_get_temp_stack
| F_cleanup_thread
| F_SYSDEPS_StartThread
| F_SYSDEPS_SpawnThread
| F_SYSDEPS_SwitchToThreadStack
| F_SYSDEPS_ExitThread
| F_SYSDEPS_AbortThread
| F_writejump
| F_SYSDEPS_InitErrno
| F_outside (addr : Z).   (* a function that is not of this file *)

Inductive ldt_flag := WINE_LDT_FLAGS_DATA | WINE_LDT_FLAGS_32BIT.
Inductive mem_flag := MEM_RELEASE | MEM_SYSTEM.
Inductive clone_flag := CLONE_VM | CLONE_FS | CLONE_FILES | SIGCHLD.
Inductive rfork_flag := RFPROC | RFMEM.
Inductive prot_flag := PROT_READ | PROT_EXEC | PROT_WRITE.
Inductive symbol := sym___errno_location | sym___h_errno_location.

(** One event per call that leaves the file, with the arguments passed,
    plus markers: the entry of each function of the file, the store and
    the load of the cleanup-info, and the stack pointer a function is
    entered with by the stack switcher. *)
Inductive event :=
| Enter (f : fn)
| Ev_wine_ldt_init_fs (sel base limit : Z) (flags : list ldt_flag)
| Ev_lwp_setprivate (teb : Z)
| Ev_pthread_self
| Ev_SIGNAL_Init
| Ev_CLIENT_InitThread
| Ev_startup (entry : Z)
| Ev_SIGNAL_Block
| Ev_SIGNAL_Reset
| Ev_close (fd : Z)
| Ev_pthread_exit (status : Z)
| Ev_lwp_exit
| Ev_exit (status : Z)
| Ev_munmap (base size : Z)
| Ev_wine_get_fs
| Ev_wine_ldt_free_fs (sel : Z)
| Ev_NtQueryVirtualMemory (addr : Z)
| Ev_NtFreeVirtualMemory (base : Z) (flags : list mem_flag)
| Ev_pthread_join (handle : Z)
| Ev_interlocked_xchg_ptr (new old : Z)
| Ev_interlocked_xchg_add (old : Z)
| Ev_TRACE
| Ev_FIXME
| Ev_pthread_attr_init
| Ev_pthread_attr_setstack (base size : Z)
| Ev_pthread_create (arg : Z)
| Ev_clone (stack arg : Z) (flags : list clone_flag)
| Ev_rfork (flags : list rfork_flag)
| Ev_lwp_makecontext (arg base size : Z)
| Ev_lwp_create
| Ev_wine_dlsym (s : symbol)
| Ev_mprotect (page : Z) (prot : list prot_flag)
| Ev_write_opcode (at_addr : Z)     (* addr[0] = 0xe9 *)
| Ev_write_jump (at_addr : Z) (dest : errno_fn)
                                    (* the four bytes at addr+1: the
                                       distance to dest *)
| Ev_SIGSEGV (addr : Z)             (* the store that starts at addr is
                                      refused by the page protection *)
| Ev_VALGRIND_DISCARD_TRANSLATIONS (addr : Z)
| Ev_store_info (ptr : Z)           (* the fields of info are assigned *)
| Ev_load_info (ptr : Z)            (* *(struct thread_cleanup_info * )ptr *)
| Ev_run_on_stack (f : fn) (sp : Z) (* f is entered with this stack pointer *)
| Ev_int3
| Ev_ta1.

(* ================================================================== *)
(** ** The monad of the embedding *)

(** How control can be lost for good. *)
Inductive stop :=
| ThreadExit                 (* pthread_exit, _lwp_exit: this unit only *)
| ProcessExit (status : Z)   (* _exit *)
| Breakpoint                 (* int $3, ta 0x01 *)
| SpinForever                (* while(1); *)
| Elsewhere.                 (* control went to code that is not the callee *)

(** A statement either falls through to the next one, returns from the
    enclosing function, or never gives control back. *)
Inductive outcome (R A : Type) :=
| Next (a : A)
| Return (r : R)
| Stop (s : stop).

Arguments Next {R A} a.
Arguments Return {R A} r.
Arguments Stop {R A} s.

Record result (R A : Type) := mkResult {
  trace : list event;
  final : world;
  out : outcome R A
}.

Definition M (R A : Type) := world -> result R A.

Definition ret {R A} (a : A) : M R A := fun w => mkResult [] w (Next a).

Definition bind {R A B} (m : M R A) (k : A -> M R B) : M R B :=
  fun w =>
    let r := m w in
    match out r with
    | Next a =>
        let r' := k a (final r) in
        mkResult (trace r ++ trace r') (final r') (out r')
    | Return v => mkResult (trace r) (final r) (Return v)
    | Stop s => mkResult (trace r) (final r) (Stop s)
    end.

Declare Scope sys_scope.
Delimit Scope sys_scope with sys.
Notation "x <- m ;; k" := (bind m (fun x => k))
  (at level 61, m at next level, right associativity) : sys_scope.
Notation "m ;; k" := (bind m (fun _ => k))
  (at level 61, right associativity) : sys_scope.
Open Scope sys_scope.

Definition emit {R} (e : event) : M R unit := fun w => mkResult [e] w (Next tt).
Definition read {R A} (f : world -> A) : M R A := fun w => mkResult [] w (Next (f w)).
Definition modify {R} (f : world -> world) : M R unit :=
  fun w => mkResult [] (f w) (Next tt).
Definition return_ {R A} (v : R) : M R A := fun w => mkResult [] w (Return v).
Definition halt {R A} (s : stop) : M R A := fun w => mkResult [] w (Stop s).
Definition when {R} (b : bool) (m : M R unit) : M R unit := if b then m else ret tt.

(** Calling a [void] function of the file: both falling off its end and
    its [return] continue after the call. *)
Definition call {R} (body : M unit unit) : M R unit :=
  fun w =>
    let r := body w in
    mkResult (trace r) (final r)
      match out r with
      | Next _ | Return _ => Next tt
      | Stop s => Stop s
      end.

(** A branch to a function that does not set the return address
    ([bctr]): when the function returns, it returns to the caller of
    the function that branched. *)
Definition tail_jump {A} (body : M unit unit) : M unit A :=
  fun w =>
    let r := body w in
    mkResult (trace r) (final r)
      match out r with
      | Next _ | Return _ => Return tt
      | Stop s => Stop s
      end.

(** Whether a function, run as a whole, gives control back to its caller. *)
Definition comes_back {R A} (o : outcome R A) : bool :=
  match o with
  | Next _ | Return _ => true
  | Stop _ => false
  end.

(* ================================================================== *)
(** ** The host *)

(** [MEMORY_BASIC_INFORMATION], the two fields read. *)
Record meminfo := mkMeminfo { AllocationBase : Z; RegionSize : Z }.

(** What [rfork] leaves in the caller: the value of [%edx], which the
    code tests, and whether a child was created. *)
Record rfork_result := mkRfork { rfork_edx : Z; rfork_created : bool }.

(** What the code gets from outside the file: the answers of the calls
    that leave it, and the addresses the compiler and linker chose. *)
Record host := mkHost {
  h_pthread_self : Z;
  h_pthread_create : Z;                 (* 0 or an error number *)
  h_clone : Z;                          (* pid, or negative *)
  h_rfork : rfork_result;
  h_lwp_create : Z;                     (* 0 or an error number *)
  h_query : Z -> meminfo;               (* NtQueryVirtualMemory *)
  h_startup : Z -> world -> option world; (* the entry function: None when
                                             it never returns *)
  h_dlsym : symbol -> Z;
  h_pagesize : Z;
  h_temp_stacks : Z;                    (* address of temp_stacks *)
  h_info_offset : Z;                    (* the automatic variable info of
                                           SYSDEPS_ExitThread lies this far
                                           below the stack pointer the
                                           function is entered with *)
  h_free : Z -> Z;                      (* NtFreeVirtualMemory: the base it
                                           writes back through the pointer
                                           it is given, for the base found
                                           there *)
  h_mprotect : Z;                       (* what the first mprotect of
                                           writejump answers, 0 or -1; the
                                           code does not look at it *)
  h_writable : Z -> bool                (* whether the byte at an address
                                           can be written as the loader
                                           mapped it *)
}.

(** Wrap-around of the C integer types used. *)
Definition wrap_unsigned (x : Z) : Z := x mod 2 ^ 32.
Definition wrap_signed (x : Z) : Z := (x + 2 ^ 31) mod 2 ^ 32 - 2 ^ 31.

Definition TEMP_STACK_SIZE : Z := 1024.
Definition NB_TEMP_STACKS : Z := 8.

(* ================================================================== *)
(** ** The functions of the file *)

Section Sysdeps.

Variable cfg : config.
Variable hst : host.

(** *** Calls that leave the file *)

Definition set_regs {R} (f : regs -> regs) : M R unit :=
  modify (fun w => with_regs (f (w_regs w)) w).

Definition set_sp {R} (v : Z) : M R unit :=
  set_regs (fun r => mkRegs v (r_fs_sel r) (r_fs_base r) (r_r2 r) (r_r13 r)
                            (r_lwp_private r)).

Definition set_teb {R} (teb : Z) (f : TEB -> TEB) : M R unit :=
  modify (fun w => with_tebs (upd (w_tebs w) teb (f (w_tebs w teb))) w).

Definition get_teb {R} (teb : Z) : M R TEB := read (fun w => w_tebs w teb).

(** [wine_ldt_init_fs( sel, &entry )] installs the entry and loads [%fs]. *)
Definition wine_ldt_init_fs {R} (sel base limit : Z) (flags : list ldt_flag)
  : M R unit :=
  emit (Ev_wine_ldt_init_fs sel base limit flags) ;;
  set_regs (fun r => mkRegs (r_sp r) sel base (r_r2 r) (r_r13 r)
                            (r_lwp_private r)).

Definition _lwp_setprivate {R} (teb : Z) : M R unit :=
  emit (Ev_lwp_setprivate teb) ;;
  set_regs (fun r => mkRegs (r_sp r) (r_fs_sel r) (r_fs_base r) (r_r2 r)
                            (r_r13 r) teb).

Definition pthread_self {R} : M R Z :=
  emit Ev_pthread_self ;; ret (h_pthread_self hst).

Definition wine_get_fs {R} : M R Z :=
  emit Ev_wine_get_fs ;; read (fun w => r_fs_sel (w_regs w)).

Definition close {R} (fd : Z) : M R unit := emit (Ev_close fd).

(** The three calls that end the unit or the process never come back. *)
Definition pthread_exit {R A} (status : Z) : M R A :=
  emit (Ev_pthread_exit status) ;; halt ThreadExit.

Definition _lwp_exit {R A} : M R A := emit Ev_lwp_exit ;; halt ThreadExit.

Definition _exit {R A} (status : Z) : M R A :=
  emit (Ev_exit status) ;; halt (ProcessExit status).

(** [interlocked_xchg_add( &next_temp_stack, 1 )]: one atomic step that
    yields the old value of the LONG and stores the sum. *)
Definition interlocked_xchg_add_next_temp_stack {R} (incr : Z) : M R Z :=
  old <- read w_next_temp_stack ;;
  modify (with_next_temp_stack (wrap_signed (old + incr))) ;;
  emit (Ev_interlocked_xchg_add old) ;;
  ret old.

(** [interlocked_xchg_ptr( &teb_to_free, val )]: one atomic step that
    stores [val] and yields what was there. *)
Definition interlocked_xchg_ptr_teb_to_free {R} (val : Z) : M R Z :=
  old <- read w_teb_to_free ;;
  modify (with_teb_to_free val) ;;
  emit (Ev_interlocked_xchg_ptr val old) ;;
  ret old.

(** *** NtCurrentTeb *)

(** The [#if] chain at the end of the file; its last branch is [#error].
    On i386 the instruction loads the word at [%fs:0x18], the field of
    the TEB that holds the TEB's own address (thread.h, which is not part
    of the file, declares it).  The record [TEB] has no such field and
    no function of this file writes it: [self a] is that word of the
    block at [a]. *)
Definition NtCurrentTeb_reads (self : Z -> Z) (r : regs) : option Z :=
  if def_i386 cfg && def_GNUC cfg then Some (self (r_fs_base r))
  else if def_i386 cfg && def_MSC_VER cfg then Some (self (r_fs_base r))
  else if HAVE__LWP_CREATE cfg then Some (r_lwp_private r)
  else if def_powerpc cfg then
    if def_APPLE cfg then Some (r_r13 r) else Some (r_r2 r)
  else None.  (* #error *)

(** The functions of the file are run on memory in which every TEB
    holds its own address in that field, as the allocator of TEBs leaves
    it: there the word at [%fs:0x18] is the base of the segment. *)
Definition registrar (r : regs) : option Z :=
  NtCurrentTeb_reads (fun a => a) r.

Definition NtCurrentTeb {R} : M R Z :=
  fun w =>
    match registrar (w_regs w) with
    | Some teb => mkResult [] w (Next teb)
    | None => mkResult [] w (Stop Elsewhere)   (* no such build *)
    end.

(** *** SYSDEPS_SetCurThread *)

Definition SYSDEPS_SetCurThread (teb : Z) : M unit unit :=
  emit (Enter F_SYSDEPS_SetCurThread) ;;
  (if def_i386 cfg then
     t <- get_teb teb ;;
     wine_ldt_init_fs (teb_sel t) teb 4095
                      [WINE_LDT_FLAGS_DATA; WINE_LDT_FLAGS_32BIT]
   else if def_powerpc cfg then
     if def_APPLE cfg then
       set_regs (fun r => mkRegs (r_sp r) (r_fs_sel r) (r_fs_base r) (r_r2 r)
                                 teb (r_lwp_private r))
     else
       set_regs (fun r => mkRegs (r_sp r) (r_fs_sel r) (r_fs_base r) teb
                                 (r_r13 r) (r_lwp_private r))
   else if HAVE__LWP_CREATE cfg then _lwp_setprivate teb
   else ret tt) ;;
  when (HAVE_NPTL cfg)
       (self <- pthread_self ;; set_teb teb (set_pthread_data self)).

(** *** get_temp_stack *)

Definition get_temp_stack {R} : M R Z :=
  emit (Enter F_get_temp_stack) ;;
  old <- interlocked_xchg_add_next_temp_stack 1 ;;
  let next := wrap_unsigned old in
  ret (h_temp_stacks hst + (next mod NB_TEMP_STACKS) * TEMP_STACK_SIZE).

(** *** cleanup_thread *)

Definition cleanup_thread (ptr : Z) : M unit unit :=
  emit (Enter F_cleanup_thread) ;;
  emit (Ev_load_info ptr) ;;
  info <- read (fun w => w_infos w ptr) ;;
  (* munmap takes a size_t: the int is converted, to 32 bits on the
     builds the file is written for *)
  emit (Ev_munmap (info_stack_base info) (wrap_unsigned (info_stack_size info))) ;;
  sel <- wine_get_fs ;;
  emit (Ev_wine_ldt_free_fs sel) ;;
  when (HAVE__LWP_CREATE cfg) _lwp_exit ;;
  _exit (info_status info).

(** *** SYSDEPS_AbortThread *)

Definition SYSDEPS_AbortThread (status : Z) : M unit unit :=
  emit (Enter F_SYSDEPS_AbortThread) ;;
  emit Ev_SIGNAL_Block ;;
  (teb <- NtCurrentTeb ;; t <- get_teb teb ;; close (wait_fd0 t)) ;;
  (teb <- NtCurrentTeb ;; t <- get_teb teb ;; close (wait_fd1 t)) ;;
  (teb <- NtCurrentTeb ;; t <- get_teb teb ;; close (reply_fd t)) ;;
  (teb <- NtCurrentTeb ;; t <- get_teb teb ;; close (request_fd t)) ;;
  when (HAVE_NPTL cfg) (pthread_exit status) ;;
  emit Ev_SIGNAL_Reset ;;
  when (HAVE__LWP_CREATE cfg) _lwp_exit ;;
  _exit status.   (* for (;;) _exit( status ); *)

(** *** SYSDEPS_SwitchToThreadStack *)

Inductive switcher :=
| sw_i386_gnuc
| sw_i386_msvc
| sw_sparc_gnuc
| sw_powerpc_apple
| sw_powerpc_gnuc
| sw_generic.

(** The [#if] chain that selects the body; on i386 with neither compiler
    the function is declared and not defined. *)
Definition select_switcher : option switcher :=
  if def_i386 cfg then
    if def_GNUC cfg then Some sw_i386_gnuc
    else if def_MSC_VER cfg then Some sw_i386_msvc
    else None
  else if def_sparc cfg && def_GNUC cfg then Some sw_sparc_gnuc
  else if def_powerpc cfg && def_APPLE cfg then Some sw_powerpc_apple
  else if def_powerpc cfg && def_GNUC cfg then Some sw_powerpc_gnuc
  else Some sw_generic.

(** Entering [f] with the stack pointer as it is now. *)
Definition enter_on_stack {R} (f : fn) : M R unit :=
  sp <- read (fun w => r_sp (w_regs w)) ;; emit (Ev_run_on_stack f sp).

Definition switch_body (v : switcher) (f : fn) (func : Z -> M unit unit)
  (arg : Z) : M unit unit :=
  match v with
  | sw_i386_gnuc =>
      (* movl 4(%esp),%ecx ; movl 8(%esp),%edx *)
      (* .byte 0x64 ; movl 0x04,%esp      teb->stack_top *)
      fs <- read (fun w => r_fs_base (w_regs w)) ;;
      t <- get_teb fs ;;
      set_sp (stack_top t) ;;
      (* pushl %edx *)
      sp <- read (fun w => r_sp (w_regs w)) ;; set_sp (sp - 4) ;;
      (* xorl %ebp,%ebp *)
      (* call *%ecx *)
      sp <- read (fun w => r_sp (w_regs w)) ;; set_sp (sp - 4) ;;
      enter_on_stack f ;;
      call (func arg) ;;
      sp <- read (fun w => r_sp (w_regs w)) ;; set_sp (sp + 4) ;;
      (* int $3 *)
      emit Ev_int3 ;; halt Breakpoint
  | sw_i386_msvc =>
      (* mov ecx, 4[esp] ; mov edx, 8[esp] *)
      (* mov fs:[0x04], esp *)
      fs <- read (fun w => r_fs_base (w_regs w)) ;;
      sp <- read (fun w => r_sp (w_regs w)) ;;
      set_teb fs (set_stack_top sp) ;;
      (* push edx *)
      set_sp (sp - 4) ;;
      (* xor ebp, ebp *)
      (* call [ecx]: the target is the word stored at func, not func *)
      sp <- read (fun w => r_sp (w_regs w)) ;; set_sp (sp - 4) ;;
      @halt unit unit Elsewhere ;;
      (* int 3 *)
      emit Ev_int3 ;; halt Breakpoint
  | sw_sparc_gnuc =>
      (* mov %o0, %l0 ; call NtCurrentTeb ; mov %o1, %l1 *)
      teb <- NtCurrentTeb ;;
      (* ld [%o0+4], %sp      teb->stack_top *)
      t <- get_teb teb ;;
      set_sp (stack_top t) ;;
      (* call %l0 ; mov %l1, %o0 *)
      enter_on_stack f ;;
      call (func arg) ;;
      (* ta 0x01 *)
      emit Ev_ta1 ;; halt Breakpoint
  | sw_powerpc_apple | sw_powerpc_gnuc =>
      (* stw r1, 0x4(r13)     teb->stack_top *)
      r13 <- read (fun w => r_r13 (w_regs w)) ;;
      sp <- read (fun w => r_sp (w_regs w)) ;;
      set_teb r13 (set_stack_top sp) ;;
      (* mr r12,r3 ; mtctr r12 ; mr r3,r4 *)
      (* bctr: branch to func; the link register still holds the return
         address of SYSDEPS_SwitchToThreadStack's caller *)
      enter_on_stack f ;;
      @tail_jump unit (func arg) ;;
      (* b _SYSDEPS_SwitchToThreadStack+24, commented as a loop *)
      halt SpinForever
  | sw_generic =>
      enter_on_stack f ;;
      call (func arg) ;;
      halt SpinForever   (* while(1); *)
  end.

Definition SYSDEPS_SwitchToThreadStack (f : fn) (func : Z -> M unit unit)
  (arg : Z) : M unit unit :=
  emit (Enter F_SYSDEPS_SwitchToThreadStack) ;;
  match select_switcher with
  | Some v => switch_body v f func arg
  | None => halt Elsewhere   (* no definition: no such build *)
  end.

(** *** SYSDEPS_ExitThread *)

Definition SYSDEPS_ExitThread (status : Z) : M unit unit :=
  emit (Enter F_SYSDEPS_ExitThread) ;;
  teb <- NtCurrentTeb ;;
  if HAVE_NPTL cfg then
    free_teb <- interlocked_xchg_ptr_teb_to_free teb ;;
    when (negb (free_teb =? 0))
         (emit Ev_TRACE ;;
          ft <- get_teb free_teb ;;
          emit (Ev_pthread_join (pthread_data ft)) ;;
          ft <- get_teb free_teb ;;
          emit (Ev_wine_ldt_free_fs (teb_sel ft)) ;;
          ft <- get_teb free_teb ;;
          emit (Ev_NtFreeVirtualMemory (stack_base ft) [MEM_RELEASE])) ;;
    emit Ev_SIGNAL_Block ;;
    call (SYSDEPS_AbortThread status)
  else
    sp0 <- read (fun w => r_sp (w_regs w)) ;;
    let info_addr := sp0 - h_info_offset hst in   (* &info *)
    t <- get_teb teb ;;
    emit (Ev_NtQueryVirtualMemory (stack_top t)) ;;
    let meminfo := h_query hst (stack_top t) in
    emit (Ev_store_info info_addr) ;;
    modify (fun w => with_infos
      (upd (w_infos w) info_addr
           (mkInfo (AllocationBase meminfo)
                   (wrap_signed (RegionSize meminfo
                                 + (stack_top t - AllocationBase meminfo)))
                   status)) w) ;;
    emit Ev_SIGNAL_Block ;;
    t <- get_teb teb ;;
    emit (Ev_NtFreeVirtualMemory (stack_base t) [MEM_RELEASE; MEM_SYSTEM]) ;;
    (* the call is given &teb->stack_base and writes the base back *)
    set_teb teb (set_stack_base (h_free hst (stack_base t))) ;;
    t <- get_teb teb ;; close (wait_fd0 t) ;;
    t <- get_teb teb ;; close (wait_fd1 t) ;;
    t <- get_teb teb ;; close (reply_fd t) ;;
    t <- get_teb teb ;; close (request_fd t) ;;
    emit Ev_SIGNAL_Reset ;;
    slot <- get_temp_stack ;;
    set_teb teb (set_stack_low slot) ;;
    t <- get_teb teb ;;
    set_teb teb (set_stack_top (stack_low t + TEMP_STACK_SIZE)) ;;
    call (SYSDEPS_SwitchToThreadStack F_cleanup_thread cleanup_thread info_addr).

(** *** SYSDEPS_StartThread *)

Definition SYSDEPS_StartThread (teb : Z) : M unit unit :=
  emit (Enter F_SYSDEPS_StartThread) ;;
  call (SYSDEPS_SetCurThread teb) ;;
  emit Ev_SIGNAL_Init ;;
  emit Ev_CLIENT_InitThread ;;
  t <- get_teb teb ;;
  emit (Ev_startup (startup t)) ;;
  (fun w => match h_startup hst (startup t) w with
            | Some w' => mkResult [] w' (Next tt)
            | None => mkResult [] w (Stop Elsewhere)
            end) ;;
  call (SYSDEPS_ExitThread 0).   (* should never get here *)

(** *** SYSDEPS_SpawnThread *)

Definition SYSDEPS_SpawnThread (teb : Z) : M Z unit :=
  emit (Enter F_SYSDEPS_SpawnThread) ;;
  (if HAVE_NPTL cfg then
     emit Ev_pthread_attr_init ;;
     t <- get_teb teb ;;
     emit (Ev_pthread_attr_setstack (stack_base t) (stack_top t - stack_base t)) ;;
     emit (Ev_pthread_create teb) ;;
     (if negb (h_pthread_create hst =? 0) then return_ (-1) else ret tt) ;;
     return_ 0
   else if HAVE_CLONE cfg then
     t <- get_teb teb ;;
     emit (Ev_clone (stack_top t) teb [CLONE_VM; CLONE_FS; CLONE_FILES; SIGCHLD]) ;;
     (if h_clone hst <? 0 then return_ (-1) else ret tt) ;;
     return_ 0
   else if HAVE_RFORK cfg then
     (* sp = teb->stack_top; *--sp = teb; *--sp = 0;
        *--sp = SYSDEPS_StartThread *)
     t <- get_teb teb ;;
     let sp := stack_top t - 12 in
     (* pushl flags ; pushl $0 ; movl SYS_rfork,%eax ; lcall 7:0 *)
     emit (Ev_rfork [RFPROC; RFMEM]) ;;
     (* cmpl $0,%edx ; je 1f *)
     (if rfork_edx (h_rfork hst) =? 0 then
        (* 1: addl $8,%esp *)
        ret tt
      else
        (* movl sp,%esp ; ret: into SYSDEPS_StartThread, whose return
           address on the new stack is 0 *)
        set_sp (sp + 4) ;;
        enter_on_stack F_SYSDEPS_StartThread ;;
        call (SYSDEPS_StartThread teb) ;;
        halt Elsewhere) ;;
     return_ 0
   else if HAVE__LWP_CREATE cfg then
     t <- get_teb teb ;;
     emit (Ev_lwp_makecontext teb (stack_base t) (stack_top t - stack_base t)) ;;
     emit Ev_lwp_create ;;
     (if negb (h_lwp_create hst =? 0) then return_ (-1) else ret tt) ;;
     return_ 0
   else ret tt) ;;
  emit Ev_FIXME ;;
  return_ (-1).

(** *** The errno indirection (compiled without HAVE_NPTL) *)

Definition run_errno_fn {R} (f : errno_fn) : M R int_ptr :=
  match f with
  | default_errno_location_fn => ret addr_static_errno
  | default_h_errno_location_fn => ret addr_static_h_errno
  | thread_errno_location_fn =>
      teb <- NtCurrentTeb ;; ret (addr_thread_errno teb)
  | thread_h_errno_location_fn =>
      teb <- NtCurrentTeb ;; ret (addr_thread_h_errno teb)
  end.

Definition __errno_location : M int_ptr int_ptr :=
  f <- read w_errno_location_ptr ;; run_errno_fn f.   (* Linux *)
Definition __error : M int_ptr int_ptr :=
  f <- read w_errno_location_ptr ;; run_errno_fn f.   (* FreeBSD *)
Definition __errno : M int_ptr int_ptr :=
  f <- read w_errno_location_ptr ;; run_errno_fn f.   (* NetBSD *)
Definition ___errno : M int_ptr int_ptr :=
  f <- read w_errno_location_ptr ;; run_errno_fn f.   (* Solaris *)
Definition __thr_errno : M int_ptr int_ptr :=
  f <- read w_errno_location_ptr ;; run_errno_fn f.   (* UnixWare *)

Definition __h_errno_location : M int_ptr int_ptr :=
  f <- read w_h_errno_location_ptr ;; run_errno_fn f.

(** The accessors hand the pointer back to their caller. *)
Definition returned {R} (r : result R R) : option R :=
  match out r with
  | Next a => Some a
  | Return a => Some a
  | Stop _ => None
  end.

(** Whether a store to the [n] bytes from [a] goes through: each byte
    lies in the page that the first [mprotect] opened (the page that
    starts at [page], when the call succeeded) or could be written
    before. *)
Definition store_ok (page a : Z) (n : nat) : bool :=
  forallb (fun b => (h_mprotect hst =? 0) && (page <=? b)
                    && (b <? page + h_pagesize hst)
                    || h_writable hst b)
          (map (fun i => a + Z.of_nat i) (seq 0 n)).

(** A store into the code of the C library: refused, it raises SIGSEGV
    and control leaves the function. *)
Definition store_code {R} (page a : Z) (n : nat) (e : event) : M R unit :=
  if store_ok page a n then emit e
  else emit (Ev_SIGSEGV a) ;; halt Elsewhere.

Definition writejump (s : symbol) (dest : errno_fn) : M unit unit :=
  emit (Enter F_writejump) ;;
  emit (Ev_wine_dlsym s) ;;
  let addr := h_dlsym hst s in
  (if addr =? 0 then return_ tt else ret tt) ;;
  let page := Z.land (wrap_unsigned addr)
                     (wrap_unsigned (Z.lnot (h_pagesize hst - 1))) in
  (* the length given to mprotect is 5, counted from the page start *)
  emit (Ev_mprotect page [PROT_READ; PROT_EXEC; PROT_WRITE]) ;;
  (* addr[0] = 0xe9 *)
  store_code page addr 1 (Ev_write_opcode addr) ;;
  (* the int at addr+1 = dest - (addr + 5) *)
  store_code page (addr + 1) 4 (Ev_write_jump addr dest) ;;
  emit (Ev_mprotect page [PROT_READ; PROT_EXEC]) ;;
  when (HAVE_VALGRIND_MEMCHECK_H cfg)
       (emit (Ev_VALGRIND_DISCARD_TRANSLATIONS addr)).

Definition SYSDEPS_InitErrno : M unit unit :=
  emit (Enter F_SYSDEPS_InitErrno) ;;
  when (negb (HAVE_NPTL cfg))
       (modify (with_errno_location_ptr thread_errno_location_fn) ;;
        modify (with_h_errno_location_ptr thread_h_errno_location_fn) ;;
        when (def_linux cfg && def_i386 cfg)
             (call (writejump sym___errno_location thread_errno_location_fn) ;;
              call (writejump sym___h_errno_location thread_h_errno_location_fn))).

End Sysdeps.

(* ================================================================== *)
(** ** The temporary stack pool over many calls *)

(** The world after [n] calls of [get_temp_stack], made one after the
    other by any units: each call is one atomic step on the shared
    counter, so calls of several units happen in some order. *)
Fixpoint after_calls (hst : host) (n : nat) (w : world) : world :=
  match n with
  | O => w
  | S k => final (@get_temp_stack hst unit (after_calls hst k w))
  end.

(** What call number [n] (from zero) returns. *)
Definition nth_temp_stack (hst : host) (n : nat) (w : world) : option Z :=
  match out (@get_temp_stack hst unit (after_calls hst n w)) with
  | Next a => Some a
  | _ => None
  end.

(** The address of slot [i], [temp_stacks[i]]. *)
Definition temp_stack_slot (hst : host) (i : Z) : Z :=
  h_temp_stacks hst + i * TEMP_STACK_SIZE.

(* ================================================================== *)
(** ** Teardowns side by side on the temporary stacks *)

(** A teardown takes its temporary stack by one call of
    [get_temp_stack] and runs on it until it has ended.  The code keeps
    no record of either; the list of the teardowns in progress below is
    kept beside the code, to speak about them. *)
Inductive teardown_event :=
| td_take (id : nat)      (* teardown [id] calls get_temp_stack *)
| td_end (id : nat).      (* teardown [id] has ended *)

(** The shared memory, the number of calls made so far, and the
    teardowns in progress, each with the number of its call and the
    stack it was given. *)
Record pool := mkPool {
  pool_world : world;
  pool_calls : nat;
  pool_live : list (nat * (nat * Z))
}.

Definition pool_start (w : world) : pool := mkPool w 0 [].

Definition pool_step (hst : host) (e : teardown_event) (p : pool) : pool :=
  match e with
  | td_take id =>
      let r := @get_temp_stack hst unit (pool_world p) in
      match out r with
      | Next a =>
          mkPool (final r) (S (pool_calls p))
                 ((id, (pool_calls p, a)) :: pool_live p)
      | _ => mkPool (final r) (S (pool_calls p)) (pool_live p)
      end
  | td_end id =>
      mkPool (pool_world p) (pool_calls p)
             (filter (fun x => negb (Nat.eqb (fst x) id)) (pool_live p))
  end.

Fixpoint pool_run (hst : host) (es : list teardown_event) (p : pool) : pool :=
  match es with
  | [] => p
  | e :: es' => pool_run hst es' (pool_step hst e p)
  end.

(** The largest number of teardowns in progress at one time in a run. *)
Fixpoint most_in_progress (hst : host) (es : list teardown_event) (p : pool)
  : nat :=
  match es with
  | [] => length (pool_live p)
  | e :: es' =>
      Nat.max (length (pool_live p)) (most_in_progress hst es' (pool_step hst e p))
  end.

(** One teardown that lasts, seven short ones that come and go one
    after the other, and then one more. *)
Definition long_teardown_run : list teardown_event :=
  td_take 0
  :: flat_map (fun i => [td_take i; td_end i]) (seq 1 7)
  ++ [td_take 8].

(* ================================================================== *)
(** ** Units exiting side by side (builds with HAVE_NPTL) *)

Section Handoff.

Variable cfg : config.
Variable hst : host.

(** Where a unit is in its life.  A unit inside SYSDEPS_ExitThread
    holds the pointer it got out of [teb_to_free] and the calls it has
    still to make. *)
Inductive phase :=
| Running
| Exiting (free_teb : Z) (rest : list event)
| Aborting (rest : list event)
| Exited (graceful : bool).

(** A unit, with what became of its backend handle, its [%fs] selector
    and its stack. *)
Record unit_state := mkUnit {
  u_phase : phase;
  u_joined : bool;
  u_fs_freed : bool;
  u_stack_freed : bool
}.

(** Units are named by the address of their TEB. *)
Record system := mkSystem {
  sys_shared : world;
  sys_units : Z -> unit_state
}.

Definition set_phase (p : phase) (u : unit_state) : unit_state :=
  mkUnit p (u_joined u) (u_fs_freed u) (u_stack_freed u).

(** The registers of the unit whose TEB is at [teb], once
    SYSDEPS_SetCurThread has run on it. *)
Definition unit_regs (teb : Z) : regs := mkRegs 0 0 teb teb teb teb.

(** The calls of a trace that follow the exchange on [teb_to_free]. *)
Fixpoint after_xchg (tr : list event) : list event :=
  match tr with
  | [] => []
  | Ev_interlocked_xchg_ptr _ _ :: tl => tl
  | _ :: tl => after_xchg tl
  end.

(** [pthread_join] blocks until the joined unit has ended. *)
Definition enabled (us : Z -> unit_state) (free_teb : Z) (e : event) : bool :=
  match e with
  | Ev_pthread_join _ =>
      match u_phase (us free_teb) with
      | Exited _ => true
      | _ => false
      end
  | _ => true
  end.

(** What a call does to the unit whose TEB is [free_teb]. *)
Definition reclaim (us : Z -> unit_state) (free_teb : Z) (e : event)
  : Z -> unit_state :=
  let u := us free_teb in
  match e with
  | Ev_pthread_join _ =>
      upd us free_teb (mkUnit (u_phase u) true (u_fs_freed u) (u_stack_freed u))
  | Ev_wine_ldt_free_fs _ =>
      upd us free_teb (mkUnit (u_phase u) (u_joined u) true (u_stack_freed u))
  | Ev_NtFreeVirtualMemory _ _ =>
      upd us free_teb (mkUnit (u_phase u) (u_joined u) (u_fs_freed u) true)
  | _ => us
  end.

(** The phase of a unit after it made the call [e]. *)
Definition advance (graceful : bool) (continue : phase) (e : event) : phase :=
  match e with
  | Ev_pthread_exit _ => Exited graceful
  | _ => continue
  end.

Inductive step : system -> system -> Prop :=
| step_exit_begin (s : system) (teb status : Z) :
    teb <> 0 ->
    u_phase (sys_units s teb) = Running ->
    let r := SYSDEPS_ExitThread cfg hst status
               (with_regs (unit_regs teb) (sys_shared s)) in
    step s (mkSystem (final r)
              (upd (sys_units s) teb
                 (set_phase (Exiting (w_teb_to_free (sys_shared s))
                                     (after_xchg (trace r)))
                            (sys_units s teb))))
| step_exit_call (s : system) (teb free_teb : Z) (e : event) (rest : list event) :
    u_phase (sys_units s teb) = Exiting free_teb (e :: rest) ->
    enabled (sys_units s) free_teb e = true ->
    let us := reclaim (sys_units s) free_teb e in
    step s (mkSystem (sys_shared s)
              (upd us teb
                 (set_phase (advance true (Exiting free_teb rest) e) (us teb))))
| step_abort_begin (s : system) (teb status : Z) :
    teb <> 0 ->
    u_phase (sys_units s teb) = Running ->
    let r := SYSDEPS_AbortThread cfg status
               (with_regs (unit_regs teb) (sys_shared s)) in
    step s (mkSystem (sys_shared s)
              (upd (sys_units s) teb
                 (set_phase (Aborting (trace r)) (sys_units s teb))))
| step_abort_call (s : system) (teb : Z) (e : event) (rest : list event) :
    u_phase (sys_units s teb) = Aborting (e :: rest) ->
    step s (mkSystem (sys_shared s)
              (upd (sys_units s) teb
                 (set_phase (advance false (Aborting rest) e)
                            (sys_units s teb)))).

(** A system at its start: every unit runs, nothing was exchanged into
    [teb_to_free] yet. *)
Definition initial (s : system) : Prop :=
  w_teb_to_free (sys_shared s) = 0 /\
  forall teb, sys_units s teb = mkUnit Running false false false.

Inductive reachable : system -> Prop :=
| reachable_initial s : initial s -> reachable s
| reachable_step s s' : reachable s -> step s s' -> reachable s'.

(** A schedule names, move by move, the unit that acts next. *)
Inductive move :=
| Begin_exit (teb status : Z)
| Begin_abort (teb status : Z)
| Next_call (teb : Z).

(** The steps as a function: the state after a move, when the move is
    possible. *)
Definition play1 (m : move) (s : system) : option system :=
  match m with
  | Begin_exit teb status =>
      if teb =? 0 then None
      else
        match u_phase (sys_units s teb) with
        | Running =>
            let r := SYSDEPS_ExitThread cfg hst status
                       (with_regs (unit_regs teb) (sys_shared s)) in
            Some (mkSystem (final r)
                    (upd (sys_units s) teb
                       (set_phase (Exiting (w_teb_to_free (sys_shared s))
                                           (after_xchg (trace r)))
                                  (sys_units s teb))))
        | _ => None
        end
  | Begin_abort teb status =>
      if teb =? 0 then None
      else
        match u_phase (sys_units s teb) with
        | Running =>
            let r := SYSDEPS_AbortThread cfg status
                       (with_regs (unit_regs teb) (sys_shared s)) in
            Some (mkSystem (sys_shared s)
                    (upd (sys_units s) teb
                       (set_phase (Aborting (trace r)) (sys_units s teb))))
        | _ => None
        end
  | Next_call teb =>
      match u_phase (sys_units s teb) with
      | Exiting free_teb (e :: rest) =>
          if enabled (sys_units s) free_teb e then
            let us := reclaim (sys_units s) free_teb e in
            Some (mkSystem (sys_shared s)
                    (upd us teb
                       (set_phase (advance true (Exiting free_teb rest) e)
                                  (us teb))))
          else None
      | Aborting (e :: rest) =>
          Some (mkSystem (sys_shared s)
                  (upd (sys_units s) teb
                     (set_phase (advance false (Aborting rest) e)
                                (sys_units s teb))))
      | _ => None
      end
  end.

Fixpoint play (ms : list move) (s : system) : option system :=
  match ms with
  | [] => Some s
  | m :: ms' =>
      match play1 m s with
      | Some s' => play ms' s'
      | None => None
      end
  end.

(** The unit ended through SYSDEPS_ExitThread and one of its handle,
    selector and stack is still unreclaimed. *)
Definition exited_unreclaimed (s : system) (teb : Z) : Prop :=
  u_phase (sys_units s teb) = Exited true /\
  u_joined (sys_units s teb) && u_fs_freed (sys_units s teb)
    && u_stack_freed (sys_units s teb) = false.

End Handoff.

(* ================================================================== *)
(** ** Classes of events, and builds and worlds to run the code on *)

(** The calls that give a stack region back. *)
Definition releases_stack (e : event) : bool :=
  match e with
  | Ev_NtFreeVirtualMemory _ _ | Ev_munmap _ _ => true
  | _ => false
  end.

(** The four steps of the startup routine. *)
Definition is_startup_step (e : event) : bool :=
  match e with
  | Enter F_SYSDEPS_SetCurThread | Ev_SIGNAL_Init | Ev_CLIENT_InitThread
  | Ev_startup _ => true
  | _ => false
  end.

(** The calls that end the whole process. *)
Definition is_exit (e : event) : bool :=
  match e with
  | Ev_exit _ => true
  | _ => false
  end.

(** The calls that create a unit. *)
Definition is_creation (e : event) : bool :=
  match e with
  | Ev_pthread_create _ | Ev_clone _ _ _ | Ev_rfork _ | Ev_lwp_create => true
  | _ => false
  end.

(** Linux on i386 with gcc: threads made with clone. *)
Definition linux_clone_build : config :=
  mkConfig true false false true false false true false true false false false.

(** Linux on i386 with gcc and the native thread library. *)
Definition linux_nptl_build : config :=
  mkConfig true false false true false false true true true false false false.

(** FreeBSD on i386 with gcc: threads made with rfork. *)
Definition freebsd_rfork_build : config :=
  mkConfig true false false true false false false false false true false false.

(** Solaris on sparc with a compiler other than gcc: LWPs, and the
    generic body of the stack switcher. *)
Definition solaris_lwp_build : config :=
  mkConfig false false true false false false false false false false true false.

(** Linux on PowerPC with gcc. *)
Definition linux_powerpc_build : config :=
  mkConfig false true false true false false true false true false false false.

(** Windows on i386 with the Microsoft compiler: no backend. *)
Definition msvc_build : config :=
  mkConfig true false false false true false false false false false false false.

(** Darwin on PowerPC. *)
Definition darwin_powerpc_build : config :=
  mkConfig false true false true false true false false false false false false.

(** PowerPC with gcc on a system that has [_lwp_create] (NetBSD,
    Solaris). *)
Definition powerpc_lwp_build : config :=
  mkConfig false true false true false false false false false false true false.

(** A thread whose stack is the 4096 bytes from 0x20000, with its TEB at
    0x30000. *)
Definition example_teb : TEB :=
  mkTEB 7 131072 131072 135168 10 11 12 13 0 0 0 4198400.

Definition example_regs : regs := mkRegs 135000 7 196608 196608 196608 196608.

Definition example_world : world :=
  at_load example_regs (fun _ => example_teb) (fun _ => mkInfo 0 0 0).

(** Memory that holds the TEB of that thread at 0x30000 and zeroes
    everywhere else, with the stack pointer in the thread's stack and
    nothing in the other registers: the state in which a thread made by
    [_lwp_create] starts, its private pointer being the NULL that
    SYSDEPS_SpawnThread hands to [_lwp_makecontext]. *)
Definition lone_teb_world : world :=
  at_load (mkRegs 135000 0 0 0 0 0)
          (fun a => if a =? 196608 then example_teb
                    else mkTEB 0 0 0 0 0 0 0 0 0 0 0 0)
          (fun _ => mkInfo 0 0 0).

(** A host on which every creation call fails, whose entry functions
    return, and which links [temp_stacks] at 0x80000. *)
Definition failing_host : host :=
  mkHost 99 11 (-1) (mkRfork 0 false) 11
         (fun _ => mkMeminfo 131072 2048)
         (fun _ w => Some w)
         (fun _ => 0) 4096 524288 40
         (fun a => a) 0 (fun _ => false).

(** The same host with every creation call succeeding. *)
Definition working_host : host :=
  mkHost 99 0 4242 (mkRfork 0 true) 0
         (fun _ => mkMeminfo 131072 2048)
         (fun _ w => Some w)
         (fun _ => 0) 4096 524288 40
         (fun a => a) 0 (fun _ => false).

(** A function that returns at once, to hand to the stack switcher. *)
Definition returns_at_once (arg : Z) : M unit unit := ret tt.

(* ================================================================== *)
(** ** The calls of the two exit paths, written out *)

(** What SYSDEPS_ExitThread does with the TEB [free_teb], of contents
    [ft], that it got out of [teb_to_free]. *)
Definition handoff_calls (free_teb : Z) (ft : TEB) : list event :=
  if free_teb =? 0 then []
  else [Ev_TRACE; Ev_pthread_join (pthread_data ft);
        Ev_wine_ldt_free_fs (teb_sel ft);
        Ev_NtFreeVirtualMemory (stack_base ft) [MEM_RELEASE]].

(** The calls of SYSDEPS_AbortThread on a unit whose TEB has the
    contents [t]. *)
Definition abort_calls (cfg : config) (t : TEB) (status : Z) : list event :=
  [Enter F_SYSDEPS_AbortThread; Ev_SIGNAL_Block;
   Ev_close (wait_fd0 t); Ev_close (wait_fd1 t);
   Ev_close (reply_fd t); Ev_close (request_fd t)]
  ++ (if HAVE_NPTL cfg then [Ev_pthread_exit status]
      else Ev_SIGNAL_Reset ::
           (if HAVE__LWP_CREATE cfg then [Ev_lwp_exit] else [Ev_exit status])).

(** The stack pointer the function is entered with, by the body of the
    stack switcher, when the TEB has [top] for [stack_top] and the
    switcher is entered at [old_sp]. *)
Definition cleanup_sp (v : switcher) (top old_sp : Z) : Z :=
  match v with
  | sw_i386_gnuc => top - 8
  | sw_sparc_gnuc => top
  | _ => old_sp
  end.

(** The bodies that load the stack pointer from the TEB. *)
Definition loads_stack_pointer (v : switcher) : bool :=
  match v with
  | sw_i386_gnuc | sw_sparc_gnuc => true
  | _ => false
  end.

(** The calls of SYSDEPS_ExitThread without HAVE_NPTL, from its entry
    to the invocation of the stack switcher. *)
Definition detach_calls (t : TEB) (info_addr counter : Z) : list event :=
  [Enter F_SYSDEPS_ExitThread; Ev_NtQueryVirtualMemory (stack_top t);
   Ev_store_info info_addr; Ev_SIGNAL_Block;
   Ev_NtFreeVirtualMemory (stack_base t) [MEM_RELEASE; MEM_SYSTEM];
   Ev_close (wait_fd0 t); Ev_close (wait_fd1 t);
   Ev_close (reply_fd t); Ev_close (request_fd t);
   Ev_SIGNAL_Reset;
   Enter F_get_temp_stack; Ev_interlocked_xchg_add counter;
   Enter F_SYSDEPS_SwitchToThreadStack].

(** The calls of [cleanup_thread], entered at [sp] with the pointer
    [ptr] to the value [info]. *)
Definition cleanup_calls (cfg : config) (sp ptr : Z) (info : thread_cleanup_info)
  (fs : Z) : list event :=
  [Ev_run_on_stack F_cleanup_thread sp;
   Enter F_cleanup_thread; Ev_load_info ptr;
   Ev_munmap (info_stack_base info) (wrap_unsigned (info_stack_size info));
   Ev_wine_get_fs; Ev_wine_ldt_free_fs fs]
  ++ (if HAVE__LWP_CREATE cfg then [Ev_lwp_exit]
      else [Ev_exit (info_status info)]).

(** The value SYSDEPS_ExitThread gives to [info]. *)
Definition built_info (hst : host) (t : TEB) (status : Z) : thread_cleanup_info :=
  let mi := h_query hst (stack_top t) in
  mkInfo (AllocationBase mi)
         (wrap_signed (RegionSize mi + (stack_top t - AllocationBase mi)))
         status.

(* ================================================================== *)
(** ** The errno accessors, together *)

(** [__errno_location] and its aliases for the other platforms. *)
Definition errno_accessors (cfg : config) : list (M int_ptr int_ptr) :=
  [__errno_location cfg; __error cfg; __errno cfg; ___errno cfg;
   __thr_errno cfg].

(** A unit with the registers [r] looks at the memory of [w]. *)
Definition seen_by (r : regs) (w : world) : world := with_regs r w.

(* ================================================================== *)
(** ** The order in which exiting units are reclaimed *)

Section HandoffOrder.

Variable cfg : config.

(** The calls a unit makes after the exchange gave it [free_teb], of
    contents [ft], when its own TEB has the contents [t]. *)
Definition calls_after_xchg (free_teb : Z) (ft t : TEB) (status : Z)
  : list event :=
  handoff_calls free_teb ft ++ Ev_SIGNAL_Block :: abort_calls cfg t status.

(** What became of a unit's handle, selector and stack. *)
Definition flags_of (u : unit_state) : bool * bool * bool :=
  (u_joined u, u_fs_freed u, u_stack_freed u).

(** A unit [teb] in SYSDEPS_ExitThread or past it, and the unit [prev]
    that was in [teb_to_free] before it: [teb] is some number [k] of
    calls after its exchange, and of [prev] exactly that is reclaimed
    which the first [k] calls reclaim; [teb] has joined [prev], or has
    ended, only if [prev] has ended. *)
Definition link (us : Z -> unit_state) (teb prev : Z) : Prop :=
  match u_phase (us teb) with
  | Exiting free_teb rest =>
      free_teb = prev
      /\ exists ft t status k,
           rest = skipn k (calls_after_xchg prev ft t status)
           /\ rest <> []
           /\ (prev <> 0 ->
               flags_of (us prev) = ((2 <=? k)%nat, (3 <=? k)%nat, (4 <=? k)%nat)
               /\ ((2 <= k)%nat -> u_phase (us prev) = Exited true))
  | Exited true =>
      prev <> 0 ->
      flags_of (us prev) = (true, true, true)
      /\ u_phase (us prev) = Exited true
  | _ => False
  end.

(** The units that made the exchange, the latest first: each is linked
    to the one that made it just before. *)
Definition chain (us : Z -> unit_state) (l : list Z) : Prop :=
  forall i teb, nth_error l i = Some teb ->
                teb <> 0 /\ link us teb (nth (S i) l 0).

(** A unit that has not made the exchange. *)
Definition outside (u : unit_state) : Prop :=
  flags_of u = (false, false, false)
  /\ match u_phase u with
     | Running | Aborting _ | Exited false => True
     | _ => False
     end.

Definition handoff_inv (s : system) : Prop :=
  exists l : list Z,
    NoDup l
    /\ w_teb_to_free (sys_shared s) = hd 0 l
    /\ chain (sys_units s) l
    /\ flags_of (sys_units s (hd 0 l)) = (false, false, false)
    /\ (forall teb, ~ In teb l -> outside (sys_units s teb)).

End HandoffOrder.

(** What a call of the exiting unit makes of the three flags of the unit
    it reclaims. *)
Definition new_flags (e : event) (f : bool * bool * bool) : bool * bool * bool :=
  match e, f with
  | Ev_pthread_join _, (_, b, c) => (true, b, c)
  | Ev_wine_ldt_free_fs _, (a, _, c) => (a, true, c)
  | Ev_NtFreeVirtualMemory _ _, (a, b, _) => (a, b, true)
  | _, _ => f
  end.

Definition is_join (e : event) : bool :=
  match e with Ev_pthread_join _ => true | _ => false end.

Definition is_pthread_exit (e : event) : bool :=
  match e with Ev_pthread_exit _ => true | _ => false end.

(** A system of two units on the Linux build with the native thread
    library, and two steps of it: the unit at 0x30000 begins
    SYSDEPS_ExitThread, then the unit at 0x31000 does. *)
Definition example_system : system :=
  mkSystem example_world (fun _ => mkUnit Running false false false).

(** The unit at 0x30000 exits and ends; then the unit at 0x31000 begins
    to exit and makes its first two calls, up to the join. *)
Definition example_schedule : list move :=
  Begin_exit 196608 0 :: repeat (Next_call 196608) 8
  ++ [Begin_exit 200704 0; Next_call 200704; Next_call 200704].

Definition example_system_1 : system :=
  let r := SYSDEPS_ExitThread linux_nptl_build working_host 0
             (with_regs (unit_regs 196608) (sys_shared example_system)) in
  mkSystem (final r)
    (upd (sys_units example_system) 196608
       (set_phase (Exiting (w_teb_to_free (sys_shared example_system))
                           (after_xchg (trace r)))
                  (sys_units example_system 196608))).

Definition example_system_2 : system :=
  let r := SYSDEPS_ExitThread linux_nptl_build working_host 0
             (with_regs (unit_regs 200704) (sys_shared example_system_1)) in
  mkSystem (final r)
    (upd (sys_units example_system_1) 200704
       (set_phase (Exiting (w_teb_to_free (sys_shared example_system_1))
                           (after_xchg (trace r)))
                  (sys_units example_system_1 200704))).

(* ================================================================== *)
(** ** A result with one more event in front *)

Definition cons_event {R A} (e : event) (r : result R A) : result R A :=
  mkResult (e :: trace r) (final r) (out r).

(* ================================================================== *)
(** ** Three properties of a piece of code *)

(** None of its calls is in the class [p]. *)
Definition quiet {R A} (p : event -> bool) (m : M R A) : Prop :=
  forall w, filter p (trace (m w)) = [].

(** It does not execute a [return]. *)
Definition falls {R A} (m : M R A) : Prop :=
  forall w, match out (m w) with Return _ => False | _ => True end.

(** It never gives control back. *)
Definition stuck {R A} (m : M R A) : Prop :=
  forall w, comes_back (out (m w)) = false.

(* ================================================================== *)
(** ** SYSDEPS_GetUnixTid *)

(** The function tests one more configuration symbol, HAVE__LWP_SELF,
    and asks the kernel for the id; the symbol and the two answers are
    taken beside [config] and [host]. *)
Record tid_host := mkTidHost {
  HAVE__LWP_SELF : bool;
  h_lwp_self : Z;          (* what _lwp_self() answers *)
  h_gettid_eax : Z         (* %eax after int $0x80 with SYS_gettid in %eax *)
}.

Definition SYSDEPS_GetUnixTid (cfg : config) (th : tid_host) : Z :=
  if HAVE__LWP_SELF th then wrap_signed (h_lwp_self th)
  else if def_linux cfg && def_i386 cfg then
    let ret := wrap_signed (h_gettid_eax th) in     (* int ret *)
    let ret := if ret <? 0 then -1 else ret in
    ret
  else -1.

(* ================================================================== *)
(** ** The two [#if] chains of the registrar, side by side *)

(** The builds on which SYSDEPS_SetCurThread writes the place that
    NtCurrentTeb reads: [%fs] on i386 with one of the two compilers, the
    register on PowerPC unless HAVE__LWP_CREATE sends NtCurrentTeb to the
    LWP private pointer, the LWP private pointer elsewhere. *)
Definition registrar_agrees (cfg : config) : bool :=
  if def_i386 cfg then def_GNUC cfg || def_MSC_VER cfg
  else if def_powerpc cfg then negb (HAVE__LWP_CREATE cfg)
  else HAVE__LWP_CREATE cfg.

(** The registers SYSDEPS_SetCurThread leaves, from the registers [r] it
    found and the selector [sel] of the TEB. *)
Definition registered (cfg : config) (teb sel : Z) (r : regs) : regs :=
  if def_i386 cfg then
    mkRegs (r_sp r) sel teb (r_r2 r) (r_r13 r) (r_lwp_private r)
  else if def_powerpc cfg then
    if def_APPLE cfg then
      mkRegs (r_sp r) (r_fs_sel r) (r_fs_base r) (r_r2 r) teb (r_lwp_private r)
    else
      mkRegs (r_sp r) (r_fs_sel r) (r_fs_base r) teb (r_r13 r) (r_lwp_private r)
  else if HAVE__LWP_CREATE cfg then
    mkRegs (r_sp r) (r_fs_sel r) (r_fs_base r) (r_r2 r) (r_r13 r) teb
  else r.

(** Registers with nothing in them, and a world around them. *)
Definition blank_regs : regs := mkRegs 0 0 0 0 0 0.

Definition blank_world : world :=
  at_load blank_regs (fun _ => example_teb) (fun _ => mkInfo 0 0 0).

(** The calls on the [%fs] selector. *)
Definition is_fs_call (e : event) : bool :=
  match e with
  | Ev_wine_ldt_init_fs _ _ _ _ | Ev_wine_get_fs | Ev_wine_ldt_free_fs _ => true
  | _ => false
  end.

(** The state after [example_schedule]. *)
Definition example_system_3 : system :=
  match play linux_nptl_build working_host example_schedule example_system with
  | Some s => s
  | None => example_system
  end.

(** A unit that went into SYSDEPS_ExitThread: it is in it, or has ended
    through it. *)
Definition in_graceful_exit (u : unit_state) : Prop :=
  match u_phase u with
  | Exiting _ _ | Exited true => True
  | _ => False
  end.

(* ================================================================== *)
(** ** The calls of [writejump], written out *)

(** The address [writejump] hands to [mprotect] for the code at [addr]:
    [(unsigned int)addr & ~(getpagesize()-1)]. *)
Definition page_of (hst : host) (addr : Z) : Z :=
  Z.land (wrap_unsigned addr) (wrap_unsigned (Z.lnot (h_pagesize hst - 1))).

(** The calls of [writejump( s, dest )], up to the store that is
    refused when there is one. *)
Definition patch_calls (cfg : config) (hst : host) (s : symbol) (dest : errno_fn)
  : list event :=
  let addr := h_dlsym hst s in
  let page := page_of hst addr in
  Enter F_writejump :: Ev_wine_dlsym s
  :: (if addr =? 0 then []
      else Ev_mprotect page [PROT_READ; PROT_EXEC; PROT_WRITE]
           :: (if negb (store_ok hst page addr 1) then [Ev_SIGSEGV addr]
               else Ev_write_opcode addr
                    :: (if negb (store_ok hst page (addr + 1) 4)
                        then [Ev_SIGSEGV (addr + 1)]
                        else [Ev_write_jump addr dest;
                              Ev_mprotect page [PROT_READ; PROT_EXEC]]
                             ++ (if HAVE_VALGRIND_MEMCHECK_H cfg
                                 then [Ev_VALGRIND_DISCARD_TRANSLATIONS addr]
                                 else [])))).

(** Whether [writejump( s, ... )] comes back to its caller: the symbol
    is not found, or both stores go through. *)
Definition patch_done (hst : host) (s : symbol) : bool :=
  let addr := h_dlsym hst s in
  (addr =? 0)
  || store_ok hst (page_of hst addr) addr 1
     && store_ok hst (page_of hst addr) (addr + 1) 4.

(** A host that finds [__errno_location] at 0x8049ffe, two bytes below
    the end of a page, and does not find [__h_errno_location]; its
    [mprotect] succeeds, and no page of the C library can be written as
    it is mapped. *)
Definition patching_host : host :=
  mkHost 99 0 4242 (mkRfork 0 true) 0
         (fun _ => mkMeminfo 131072 2048)
         (fun _ w => Some w)
         (fun s => match s with
                   | sym___errno_location => 134520830
                   | sym___h_errno_location => 0
                   end)
         4096 524288 40
         (fun a => a) 0 (fun _ => false).

(* ================================================================== *)
(** * Properties *)

Lemma upd_same {A : Type} (m : Z -> A) k v : upd m k v k = v.
Proof. unfold upd. now rewrite Z.eqb_refl. Qed.

Lemma upd_other {A : Type} (m : Z -> A) k v k' : k' <> k -> upd m k v k' = m k'.
Proof. unfold upd. intros H. apply Z.eqb_neq in H. now rewrite H. Qed.

(** ** The temporary stack pool *)

Lemma wrap_unsigned_signed x : wrap_unsigned (wrap_signed x) = wrap_unsigned x.
Proof.
  unfold wrap_unsigned, wrap_signed.
  rewrite Zminus_mod, Zmod_mod, <- Zminus_mod.
  replace (x + 2 ^ 31 - 2 ^ 31) with x by lia. reflexivity.
Qed.

Lemma get_temp_stack_run hst (w : world) :
  @get_temp_stack hst unit w =
  mkResult [Enter F_get_temp_stack; Ev_interlocked_xchg_add (w_next_temp_stack w)]
           (with_next_temp_stack (wrap_signed (w_next_temp_stack w + 1)) w)
           (Next (temp_stack_slot hst
                    (wrap_unsigned (w_next_temp_stack w) mod NB_TEMP_STACKS))).
Proof. reflexivity. Qed.

Lemma counter_after_calls hst n w :
  wrap_unsigned (w_next_temp_stack (after_calls hst n w)) =
  wrap_unsigned (w_next_temp_stack w + Z.of_nat n).
Proof.
  induction n as [|n IH].
  - simpl. now rewrite Z.add_0_r.
  - cbn [after_calls]. rewrite get_temp_stack_run. cbn [final w_next_temp_stack with_next_temp_stack].
    rewrite wrap_unsigned_signed. unfold wrap_unsigned in *.
    rewrite Zplus_mod, IH, <- Zplus_mod. f_equal. lia.
Qed.

Lemma nth_temp_stack_eq hst n w :
  nth_temp_stack hst n w =
  Some (temp_stack_slot hst ((w_next_temp_stack w + Z.of_nat n) mod NB_TEMP_STACKS)).
Proof.
  unfold nth_temp_stack. rewrite get_temp_stack_run. cbn [out].
  rewrite counter_after_calls. unfold wrap_unsigned, NB_TEMP_STACKS.
  rewrite Z.mod_mod_divide; [reflexivity |].
  exists (2 ^ 29). reflexivity.
Qed.

(** Round-robin reuse: the call NB_TEMP_STACKS later returns the same
    slot again, whether or not the earlier teardown is over. *)
Lemma temp_stack_reused hst (n : nat) w :
  nth_temp_stack hst (n + Z.to_nat NB_TEMP_STACKS) w = nth_temp_stack hst n w.
Proof.
  rewrite !nth_temp_stack_eq. unfold NB_TEMP_STACKS. do 2 f_equal.
  rewrite Nat2Z.inj_add. change (Z.of_nat (Z.to_nat 8)) with (1 * 8).
  rewrite Z.add_assoc. apply Z_mod_plus_full.
Qed.

(** Along a run, the memory is the one after as many calls as were
    made, and every teardown in progress holds the stack its call
    returned. *)
Lemma pool_run_inv hst w0 es :
  forall p,
    pool_world p = after_calls hst (pool_calls p) w0 ->
    (forall id k a, In (id, (k, a)) (pool_live p) ->
                    nth_temp_stack hst k w0 = Some a) ->
    forall id k a, In (id, (k, a)) (pool_live (pool_run hst es p)) ->
                   nth_temp_stack hst k w0 = Some a.
Proof.
  induction es as [|e es IH]; intros p Hw Hl; [exact Hl|].
  cbn [pool_run]. apply IH; destruct e as [id | id]; cbn [pool_step].
  - rewrite get_temp_stack_run. cbn [out final pool_world pool_calls].
    rewrite Hw. reflexivity.
  - exact Hw.
  - rewrite get_temp_stack_run. cbn [out final pool_live pool_calls].
    intros id' k a [E | Hin]; [|now apply (Hl id')].
    injection E as _ <- <-. unfold nth_temp_stack. rewrite <- Hw.
    now rewrite get_temp_stack_run.
  - cbn [pool_live]. intros id' k a Hin. apply filter_In in Hin.
    apply (Hl id'). tauto.
Qed.

(** C3, as the code has it. Call number [n], counted from zero, of
    [get_temp_stack] returns the address of slot [n mod 8]; the slot is
    chosen by one fetch-and-add on the shared counter followed by the
    reduction modulo NB_TEMP_STACKS; a call changes nothing but the
    counter, which it increments: no slot is ever marked free.  Two calls
    fewer than NB_TEMP_STACKS apart return different slots, and the call
    NB_TEMP_STACKS later returns the slot again, whether or not the
    teardown that took it has ended: two teardowns that are in progress
    at the same time run on the same slot exactly when the numbers of
    their calls are congruent modulo NB_TEMP_STACKS. *)
Theorem get_temp_stack_round_robin (hst : host) :
  (forall (n : nat) (w : world),
      w_next_temp_stack w = 0 ->
      nth_temp_stack hst n w
      = Some (temp_stack_slot hst (Z.of_nat n mod NB_TEMP_STACKS)))
  /\ (forall (w : world),
         trace (@get_temp_stack hst unit w)
         = [Enter F_get_temp_stack; Ev_interlocked_xchg_add (w_next_temp_stack w)]
         /\ out (@get_temp_stack hst unit w)
            = Next (temp_stack_slot hst
                      (wrap_unsigned (w_next_temp_stack w) mod NB_TEMP_STACKS))
         /\ final (@get_temp_stack hst unit w)
            = with_next_temp_stack (wrap_signed (w_next_temp_stack w + 1)) w)
  /\ (forall (i j : nat) (w : world),
         (i < j)%nat -> (j < i + Z.to_nat NB_TEMP_STACKS)%nat ->
         nth_temp_stack hst i w <> nth_temp_stack hst j w)
  /\ (forall (n : nat) (w : world),
         nth_temp_stack hst (n + Z.to_nat NB_TEMP_STACKS) w
         = nth_temp_stack hst n w)
  /\ (forall (es : list teardown_event) (w : world) id1 k1 a id2 k2 b,
         In (id1, (k1, a)) (pool_live (pool_run hst es (pool_start w))) ->
         In (id2, (k2, b)) (pool_live (pool_run hst es (pool_start w))) ->
         (a = b
          <-> Z.of_nat k1 mod NB_TEMP_STACKS = Z.of_nat k2 mod NB_TEMP_STACKS)).
Proof.
  split; [|split; [|split; [|split]]].
  - intros n w H0. rewrite nth_temp_stack_eq, H0. reflexivity.
  - intros w. rewrite get_temp_stack_run. repeat split.
  - intros i j w Hij Hji. rewrite !nth_temp_stack_eq.
    unfold temp_stack_slot, NB_TEMP_STACKS, TEMP_STACK_SIZE in *.
    intros Heq. injection Heq as Heq.
    assert (Hj : Z.of_nat j < Z.of_nat i + 8) by lia.
    assert (Hi : Z.of_nat i < Z.of_nat j) by lia.
    revert Heq. generalize (w_next_temp_stack w). intros c Heq.
    Z.div_mod_to_equations. lia.
  - intros n w. apply temp_stack_reused.
  - intros es w id1 k1 a id2 k2 b H1 H2.
    assert (Hinv : forall id k x,
               In (id, (k, x)) (pool_live (pool_run hst es (pool_start w))) ->
               nth_temp_stack hst k w = Some x).
    { apply pool_run_inv; [reflexivity | intros ? ? ? []]. }
    pose proof (Hinv _ _ _ H1) as E1. pose proof (Hinv _ _ _ H2) as E2.
    rewrite nth_temp_stack_eq in E1, E2.
    injection E1 as <-. injection E2 as <-.
    unfold temp_stack_slot, NB_TEMP_STACKS, TEMP_STACK_SIZE.
    generalize (w_next_temp_stack w). intros c.
    split; intros E; Z.div_mod_to_equations; lia.
Qed.

Lemma get_temp_stack_round_robin_witness :
  nth_temp_stack working_host 11 example_world
  = Some (temp_stack_slot working_host 3)
  /\ nth_temp_stack working_host 3 example_world
     <> nth_temp_stack working_host 10 example_world
  /\ nth_temp_stack working_host 11 example_world
     = nth_temp_stack working_host 3 example_world.
Proof.
  destruct (get_temp_stack_round_robin working_host) as (H1 & _ & H3 & H4 & _).
  split; [|split].
  - apply (H1 11%nat example_world). reflexivity.
  - apply (H3 3%nat 10%nat example_world); unfold NB_TEMP_STACKS; simpl; lia.
  - apply (H4 3%nat example_world).
Defined.

(** Against C3 as stated: one teardown takes slot 0 and lasts; seven
    others take the slots 1 to 7 and end, one after the other; the next
    one is given slot 0 again.  Never more than two teardowns are in
    progress, fewer than NB_TEMP_STACKS, and the two that are in
    progress at the end run on the same temporary stack. *)
Lemma two_teardowns_in_progress_share_a_stack :
  most_in_progress working_host long_teardown_run (pool_start example_world)
  = 2%nat
  /\ (2 < Z.to_nat NB_TEMP_STACKS)%nat
  /\ pool_live (pool_run working_host long_teardown_run (pool_start example_world))
     = [(8%nat, (8%nat, temp_stack_slot working_host 0));
        (0%nat, (0%nat, temp_stack_slot working_host 0))].
Proof. vm_compute. repeat split. lia. Qed.

(** ** Reasoning about pieces of code *)

Section Combinators.

Context {R A B : Type}.

Lemma quiet_ret p (a : A) : quiet p (@ret R A a).
Proof. intros w. reflexivity. Qed.

Lemma quiet_read p (f : world -> A) : quiet p (@read R A f).
Proof. intros w. reflexivity. Qed.

Lemma quiet_modify p f : quiet p (@modify R f).
Proof. intros w. reflexivity. Qed.

Lemma quiet_return p (v : R) : quiet p (@return_ R A v).
Proof. intros w. reflexivity. Qed.

Lemma quiet_halt p s : quiet p (@halt R A s).
Proof. intros w. reflexivity. Qed.

Lemma quiet_emit p e : p e = false -> quiet p (@emit R e).
Proof. intros H w. simpl. now rewrite H. Qed.

Lemma quiet_bind p (m : M R A) (k : A -> M R B) :
  quiet p m -> (forall a, quiet p (k a)) -> quiet p (bind m k).
Proof.
  intros Hm Hk w. unfold bind. specialize (Hm w).
  destruct (out (m w)); cbn [trace]; auto.
  rewrite filter_app, Hm. apply Hk.
Qed.

Lemma falls_ret (a : A) : falls (@ret R A a).
Proof. intros w. exact I. Qed.

Lemma falls_read (f : world -> A) : falls (@read R A f).
Proof. intros w. exact I. Qed.

Lemma falls_modify f : falls (@modify R f).
Proof. intros w. exact I. Qed.

Lemma falls_emit e : falls (@emit R e).
Proof. intros w. exact I. Qed.

Lemma falls_halt s : falls (@halt R A s).
Proof. intros w. exact I. Qed.

Lemma falls_bind (m : M R A) (k : A -> M R B) :
  falls m -> (forall a, falls (k a)) -> falls (bind m k).
Proof.
  intros Hm Hk w. unfold bind. specialize (Hm w).
  destruct (out (m w)); cbn [out]; auto. apply Hk.
Qed.

Lemma stuck_halt s : stuck (@halt R A s).
Proof. intros w. reflexivity. Qed.

Lemma stuck_bind_l (m : M R A) (k : A -> M R B) : stuck m -> stuck (bind m k).
Proof.
  intros Hm w. unfold bind. specialize (Hm w).
  destruct (out (m w)); cbn [out] in *; auto; discriminate.
Qed.

Lemma stuck_bind_r (m : M R A) (k : A -> M R B) :
  falls m -> (forall a, stuck (k a)) -> stuck (bind m k).
Proof.
  intros Hm Hk w. unfold bind. specialize (Hm w).
  destruct (out (m w)); cbn [out] in *; auto. apply Hk. contradiction.
Qed.

End Combinators.

Lemma quiet_when {R} p b (m : M R unit) : quiet p m -> quiet p (when b m).
Proof. destruct b; [auto | intros _ w; reflexivity]. Qed.

Lemma quiet_call {R} p (m : M unit unit) : quiet p m -> quiet p (@call R m).
Proof. intros H w. apply H. Qed.

Lemma quiet_tail_jump {A} p (m : M unit unit) : quiet p m -> quiet p (@tail_jump A m).
Proof. intros H w. apply H. Qed.

Lemma quiet_NtCurrentTeb {R} cfg p : quiet p (@NtCurrentTeb cfg R).
Proof. intros w. unfold NtCurrentTeb. destruct (registrar cfg (w_regs w)); reflexivity. Qed.

Lemma falls_when {R} b (m : M R unit) : falls m -> falls (when b m).
Proof. destruct b; [auto | intros _ w; exact I]. Qed.

Lemma falls_call {R} (m : M unit unit) : falls (@call R m).
Proof. intros w. unfold call. cbn [out]. destruct (out (m w)); exact I. Qed.

Lemma falls_NtCurrentTeb {R} cfg : falls (@NtCurrentTeb cfg R).
Proof. intros w. unfold NtCurrentTeb. destruct (registrar cfg (w_regs w)); exact I. Qed.

Lemma stuck_call {R} (m : M unit unit) : stuck m -> stuck (@call R m).
Proof.
  intros H w. unfold call. cbn [out]. specialize (H w).
  destruct (out (m w)); auto.
Qed.

Lemma stuck_tail_jump {A} (m : M unit unit) : stuck m -> stuck (@tail_jump A m).
Proof.
  intros H w. unfold tail_jump. cbn [out]. specialize (H w).
  destruct (out (m w)); auto; discriminate.
Qed.

Ltac quiet_tac :=
  repeat first
    [ progress intros
    | apply quiet_bind | apply quiet_when | apply quiet_call
    | apply quiet_tail_jump | apply quiet_NtCurrentTeb
    | apply quiet_ret | apply quiet_read | apply quiet_modify
    | apply quiet_return | apply quiet_halt
    | apply quiet_emit; reflexivity
    | match goal with
      | |- quiet _ (if ?b then _ else _) => destruct b
      | |- quiet _ (match ?b with _ => _ end) => destruct b
      end ].

Ltac falls_tac :=
  repeat first
    [ progress intros
    | apply falls_bind | apply falls_when | apply falls_call
    | apply falls_NtCurrentTeb
    | apply falls_ret | apply falls_read | apply falls_modify
    | apply falls_emit | apply falls_halt
    | match goal with
      | |- falls (if ?b then _ else _) => destruct b
      end ].

(** Stepping over a statement that falls through, to show that what
    follows never gives control back. *)
Ltac skip_stmt := apply stuck_bind_r; [solve [falls_tac] | intro].

(** ** Running a piece of code by rewriting *)

Lemma result_eta {R A} (r : result R A) : mkResult (trace r) (final r) (out r) = r.
Proof. now destruct r. Qed.

Section Equations.

Context {R A B C : Type}.

Lemma bind_emit e (k : unit -> M R B) w : bind (emit e) k w = cons_event e (k tt w).
Proof. reflexivity. Qed.

Lemma bind_read (f : world -> A) (k : A -> M R B) w : bind (read f) k w = k (f w) w.
Proof. unfold bind, read. cbn. apply result_eta. Qed.

Lemma bind_modify f (k : unit -> M R B) w : bind (modify f) k w = k tt (f w).
Proof. unfold bind, modify. cbn. apply result_eta. Qed.

Lemma bind_ret (a : A) (k : A -> M R B) w : bind (ret a) k w = k a w.
Proof. unfold bind, ret. cbn. apply result_eta. Qed.

Lemma bind_halt s (k : A -> M R B) w : bind (halt s) k w = mkResult [] w (Stop s).
Proof. reflexivity. Qed.

Lemma bind_return v (k : A -> M R B) w : bind (return_ v) k w = mkResult [] w (Return v).
Proof. reflexivity. Qed.

Lemma bind_assoc (m : M R A) (k1 : A -> M R B) (k2 : B -> M R C) w :
  bind (bind m k1) k2 w = bind m (fun a => bind (k1 a) k2) w.
Proof.
  unfold bind. destruct (m w) as [tr w1 [a|v|s]]; cbn; try reflexivity.
  destruct (k1 a w1) as [tr1 w2 [b|v|s]]; cbn; try reflexivity.
  now rewrite app_assoc.
Qed.

Lemma bind_NtCurrentTeb cfg (k : Z -> M R B) w teb :
  registrar cfg (w_regs w) = Some teb -> bind (NtCurrentTeb cfg) k w = k teb w.
Proof.
  intros H. unfold bind, NtCurrentTeb. rewrite H. cbn. apply result_eta.
Qed.

End Equations.

Lemma NtCurrentTeb_run cfg R (w : world) teb :
  registrar cfg (w_regs w) = Some teb ->
  @NtCurrentTeb cfg R w = mkResult [] w (Next teb).
Proof. intros H. unfold NtCurrentTeb. now rewrite H. Qed.

(** Projections of a world that was just written to. *)
Ltac world_simpl :=
  cbn [w_regs w_tebs w_infos w_static_errno w_static_h_errno w_next_temp_stack
       w_teb_to_free w_errno_location_ptr w_h_errno_location_ptr
       with_regs with_tebs with_infos with_static_errno with_static_h_errno
       with_next_temp_stack with_teb_to_free with_errno_location_ptr
       with_h_errno_location_ptr
       r_sp r_fs_sel r_fs_base r_r2 r_r13 r_lwp_private];
  rewrite ?upd_same.

(** One step of a run; [H] says what the registrar holds. *)
Ltac run_step H :=
  first
    [ rewrite bind_assoc
    | rewrite bind_emit
    | rewrite bind_read
    | rewrite bind_modify
    | rewrite bind_ret
    | rewrite bind_halt
    | rewrite bind_return
    | erewrite bind_NtCurrentTeb by exact H ];
  cbv beta; world_simpl.

Ltac run H := repeat run_step H.

(** ** The end of a unit: [cleanup_thread] and SYSDEPS_AbortThread *)

Lemma stuck_pthread_exit {R A} st : stuck (@pthread_exit R A st).
Proof. intros w. reflexivity. Qed.

Lemma stuck__lwp_exit {R A} : stuck (@_lwp_exit R A).
Proof. intros w. reflexivity. Qed.

Lemma stuck__exit {R A} st : stuck (@_exit R A st).
Proof. intros w. reflexivity. Qed.

Lemma cleanup_thread_run cfg ptr w :
  cleanup_thread cfg ptr w =
  mkResult
    ([Enter F_cleanup_thread; Ev_load_info ptr;
      Ev_munmap (info_stack_base (w_infos w ptr)) (wrap_unsigned (info_stack_size (w_infos w ptr)));
      Ev_wine_get_fs; Ev_wine_ldt_free_fs (r_fs_sel (w_regs w))]
     ++ (if HAVE__LWP_CREATE cfg then [Ev_lwp_exit]
         else [Ev_exit (info_status (w_infos w ptr))]))
    w
    (Stop (if HAVE__LWP_CREATE cfg then ThreadExit
           else ProcessExit (info_status (w_infos w ptr)))).
Proof.
  unfold cleanup_thread, wine_get_fs, _lwp_exit, _exit.
  destruct (HAVE__LWP_CREATE cfg); unfold when; run I; reflexivity.
Qed.

Lemma stuck_cleanup_thread cfg ptr : stuck (cleanup_thread cfg ptr).
Proof. intros w. rewrite cleanup_thread_run. reflexivity. Qed.

Lemma abort_run cfg status w teb :
  registrar cfg (w_regs w) = Some teb ->
  SYSDEPS_AbortThread cfg status w =
  mkResult
    ([Enter F_SYSDEPS_AbortThread; Ev_SIGNAL_Block;
      Ev_close (wait_fd0 (w_tebs w teb)); Ev_close (wait_fd1 (w_tebs w teb));
      Ev_close (reply_fd (w_tebs w teb)); Ev_close (request_fd (w_tebs w teb))]
     ++ (if HAVE_NPTL cfg then [Ev_pthread_exit status]
         else Ev_SIGNAL_Reset ::
              (if HAVE__LWP_CREATE cfg then [Ev_lwp_exit] else [Ev_exit status])))
    w
    (Stop (if HAVE_NPTL cfg || HAVE__LWP_CREATE cfg then ThreadExit
           else ProcessExit status)).
Proof.
  intros H.
  unfold SYSDEPS_AbortThread, get_teb, close, pthread_exit, _lwp_exit, _exit.
  destruct (HAVE_NPTL cfg), (HAVE__LWP_CREATE cfg); unfold when;
    run H; reflexivity.
Qed.

Lemma stuck_abort cfg status : stuck (SYSDEPS_AbortThread cfg status).
Proof.
  unfold SYSDEPS_AbortThread.
  do 6 skip_stmt.
  destruct (HAVE_NPTL cfg).
  - apply stuck_bind_l. apply stuck_pthread_exit.
  - do 2 skip_stmt.
    destruct (HAVE__LWP_CREATE cfg).
    + apply stuck_bind_l. apply stuck__lwp_exit.
    + skip_stmt. apply stuck__exit.
Qed.

(** C7. For every status, SYSDEPS_AbortThread releases no stack region
    and does not enter the stack switcher; it leaves the control block
    and the rest of memory as they were; what it does is close the four
    channel handles, without looking at what [close] answers, and then
    end the unit with the lightest call the build has: [pthread_exit]
    with HAVE_NPTL, else [_lwp_exit] with HAVE__LWP_CREATE, else
    [_exit]. *)
Theorem abort_keeps_stack cfg status w teb :
  registrar cfg (w_regs w) = Some teb ->
  let r := SYSDEPS_AbortThread cfg status w in
  let t := w_tebs w teb in
  trace r
  = [Enter F_SYSDEPS_AbortThread; Ev_SIGNAL_Block;
     Ev_close (wait_fd0 t); Ev_close (wait_fd1 t);
     Ev_close (reply_fd t); Ev_close (request_fd t)]
    ++ (if HAVE_NPTL cfg then [Ev_pthread_exit status]
        else Ev_SIGNAL_Reset ::
             (if HAVE__LWP_CREATE cfg then [Ev_lwp_exit] else [Ev_exit status]))
  /\ final r = w
  /\ out r = Stop (if HAVE_NPTL cfg || HAVE__LWP_CREATE cfg then ThreadExit
                   else ProcessExit status)
  /\ (forall e, In e (trace r) ->
        releases_stack e = false
        /\ e <> Enter F_SYSDEPS_SwitchToThreadStack
        /\ e <> Enter F_cleanup_thread).
Proof.
  intros H r t. subst r t. rewrite (abort_run _ _ _ H). cbn [trace final out].
  repeat split; try reflexivity;
    destruct (HAVE_NPTL cfg), (HAVE__LWP_CREATE cfg); simpl in H0;
    intuition (subst; try reflexivity; try discriminate).
Qed.

Lemma abort_keeps_stack_witness :
  trace (SYSDEPS_AbortThread linux_nptl_build 42 example_world)
  = [Enter F_SYSDEPS_AbortThread; Ev_SIGNAL_Block;
     Ev_close 10; Ev_close 11; Ev_close 12; Ev_close 13; Ev_pthread_exit 42]
  /\ final (SYSDEPS_AbortThread linux_nptl_build 42 example_world) = example_world.
Proof.
  destruct (@abort_keeps_stack linux_nptl_build 42 example_world 196608 eq_refl)
    as (Ht & Hf & _).
  split; [exact Ht | exact Hf].
Defined.

(** C10, as the code has it. Without HAVE_NPTL and without
    HAVE__LWP_CREATE, [cleanup_thread] ends in [_exit( info.status )]
    after unmapping the stack, and SYSDEPS_AbortThread ends in
    [_exit( status )]: the unit that called ends as a process, with that
    status.  Where HAVE__LWP_CREATE is defined, both paths call
    [_lwp_exit] first, which ends the calling LWP alone, and neither
    reaches [_exit]. *)
Theorem unit_end_without_nptl cfg status ptr w teb :
  HAVE_NPTL cfg = false ->
  registrar cfg (w_regs w) = Some teb ->
  let rc := cleanup_thread cfg ptr w in
  let ra := SYSDEPS_AbortThread cfg status w in
  let info := w_infos w ptr in
  if HAVE__LWP_CREATE cfg then
    out rc = Stop ThreadExit /\ out ra = Stop ThreadExit
    /\ (exists pre, trace rc = pre ++ [Ev_lwp_exit])
    /\ (exists pre, trace ra = pre ++ [Ev_lwp_exit])
    /\ filter is_exit (trace rc) = [] /\ filter is_exit (trace ra) = []
  else
    out rc = Stop (ProcessExit (info_status info))
    /\ out ra = Stop (ProcessExit status)
    /\ (exists pre post,
          trace rc = pre ++ Ev_munmap (info_stack_base info)
                                      (wrap_unsigned (info_stack_size info))
                         :: post ++ [Ev_exit (info_status info)])
    /\ (exists pre, trace ra = pre ++ [Ev_exit status]).
Proof.
  intros Hn H rc ra info. subst rc ra info.
  rewrite cleanup_thread_run, (abort_run _ _ _ H), Hn. cbn [trace out orb].
  destruct (HAVE__LWP_CREATE cfg).
  - repeat split; try reflexivity.
    + eexists. rewrite app_nil_r || reflexivity.
    + exists [Enter F_SYSDEPS_AbortThread; Ev_SIGNAL_Block;
              Ev_close (wait_fd0 (w_tebs w teb)); Ev_close (wait_fd1 (w_tebs w teb));
              Ev_close (reply_fd (w_tebs w teb)); Ev_close (request_fd (w_tebs w teb));
              Ev_SIGNAL_Reset]. reflexivity.
  - repeat split; try reflexivity.
    + exists [Enter F_cleanup_thread; Ev_load_info ptr],
             [Ev_wine_get_fs; Ev_wine_ldt_free_fs (r_fs_sel (w_regs w))].
      reflexivity.
    + exists [Enter F_SYSDEPS_AbortThread; Ev_SIGNAL_Block;
              Ev_close (wait_fd0 (w_tebs w teb)); Ev_close (wait_fd1 (w_tebs w teb));
              Ev_close (reply_fd (w_tebs w teb)); Ev_close (request_fd (w_tebs w teb));
              Ev_SIGNAL_Reset]. reflexivity.
Qed.

Lemma unit_end_without_nptl_witness :
  out (cleanup_thread linux_clone_build 64 example_world) = Stop (ProcessExit 0)
  /\ out (SYSDEPS_AbortThread linux_clone_build 42 example_world)
     = Stop (ProcessExit 42).
Proof.
  pose proof (@unit_end_without_nptl linux_clone_build 42 64 example_world
                196608 eq_refl eq_refl) as H.
  cbv beta zeta in H. change (HAVE__LWP_CREATE linux_clone_build) with false in H.
  cbv iota in H. destruct H as (H1 & H2 & _). split; [exact H1 | exact H2].
Defined.

(** Against C10 as stated: on a build without HAVE_NPTL and with
    HAVE__LWP_CREATE, the last call of [cleanup_thread] and of
    SYSDEPS_AbortThread is [_lwp_exit]; neither calls [_exit], and what
    ends is the calling unit, not the process. *)
Lemma lwp_build_ends_the_unit_alone :
  HAVE_NPTL solaris_lwp_build = false
  /\ trace (cleanup_thread solaris_lwp_build 64 example_world)
     = [Enter F_cleanup_thread; Ev_load_info 64; Ev_munmap 0 0; Ev_wine_get_fs;
        Ev_wine_ldt_free_fs 7; Ev_lwp_exit]
  /\ out (cleanup_thread solaris_lwp_build 64 example_world) = Stop ThreadExit
  /\ out (cleanup_thread solaris_lwp_build 64 example_world)
     <> Stop (ProcessExit (info_status (w_infos example_world 64)))
  /\ trace (SYSDEPS_AbortThread solaris_lwp_build 42 example_world)
     = [Enter F_SYSDEPS_AbortThread; Ev_SIGNAL_Block; Ev_close 10; Ev_close 11;
        Ev_close 12; Ev_close 13; Ev_SIGNAL_Reset; Ev_lwp_exit]
  /\ out (SYSDEPS_AbortThread solaris_lwp_build 42 example_world) = Stop ThreadExit
  /\ out (SYSDEPS_AbortThread solaris_lwp_build 42 example_world)
     <> Stop (ProcessExit 42).
Proof. repeat split; try reflexivity; discriminate. Qed.

(** ** The stack switcher *)

Ltac unfold_sys :=
  unfold SYSDEPS_ExitThread, SYSDEPS_AbortThread, SYSDEPS_SwitchToThreadStack,
    SYSDEPS_SetCurThread, switch_body, cleanup_thread, get_temp_stack,
    interlocked_xchg_add_next_temp_stack, interlocked_xchg_ptr_teb_to_free,
    enter_on_stack, set_sp, set_teb, get_teb, set_regs, wine_get_fs,
    wine_ldt_init_fs, _lwp_setprivate, pthread_self, close, pthread_exit,
    _lwp_exit, _exit.

(** Every body but the two PowerPC ones keeps control whatever the
    function does: a trap or a loop follows the call. *)
Lemma switch_body_stuck cfg v f func arg :
  v <> sw_powerpc_apple -> v <> sw_powerpc_gnuc ->
  stuck (switch_body cfg v f func arg).
Proof.
  intros Ha Hg. destruct v; try contradiction; unfold switch_body;
    repeat skip_stmt; apply stuck_halt.
Qed.

(** The PowerPC bodies keep control only as long as the function does. *)
Lemma switch_body_stuck_func cfg v f func arg :
  stuck (func arg) -> stuck (switch_body cfg v f func arg).
Proof.
  intros Hf.
  destruct v;
    try (apply switch_body_stuck; discriminate);
    unfold switch_body; repeat skip_stmt; apply stuck_bind_l;
    apply stuck_tail_jump; exact Hf.
Qed.

Lemma stuck_switch cfg f func arg :
  stuck (func arg) -> stuck (SYSDEPS_SwitchToThreadStack cfg f func arg).
Proof.
  intros Hf. unfold SYSDEPS_SwitchToThreadStack. skip_stmt.
  destruct (select_switcher cfg).
  - now apply switch_body_stuck_func.
  - apply stuck_halt.
Qed.

Lemma switch_never_back cfg f func arg :
  select_switcher cfg <> Some sw_powerpc_apple ->
  select_switcher cfg <> Some sw_powerpc_gnuc ->
  stuck (SYSDEPS_SwitchToThreadStack cfg f func arg).
Proof.
  intros Ha Hg. unfold SYSDEPS_SwitchToThreadStack. skip_stmt.
  destruct (select_switcher cfg).
  - apply switch_body_stuck; congruence.
  - apply stuck_halt.
Qed.

(** The generic body calls the function on the stack it is on, and
    loops when the function returns. *)
Lemma generic_switcher_run cfg f func arg w :
  select_switcher cfg = Some sw_generic ->
  comes_back (out (func arg w)) = true ->
  SYSDEPS_SwitchToThreadStack cfg f func arg w
  = mkResult
      (Enter F_SYSDEPS_SwitchToThreadStack
       :: Ev_run_on_stack f (r_sp (w_regs w)) :: trace (func arg w))
      (final (func arg w)) (Stop SpinForever).
Proof.
  intros Hs Hb. unfold SYSDEPS_SwitchToThreadStack. rewrite Hs.
  unfold switch_body, enter_on_stack, bind, emit, read, call, halt.
  cbn [trace final out app].
  destruct (out (func arg w)); try discriminate; cbn [trace final out app];
    now rewrite app_nil_r.
Qed.

(** The PowerPC bodies store the stack pointer into the TEB that [r13]
    names and branch to the function: when the function returns,
    SYSDEPS_SwitchToThreadStack has returned. *)
Lemma powerpc_switcher_run cfg v f func arg w :
  select_switcher cfg = Some v ->
  v = sw_powerpc_apple \/ v = sw_powerpc_gnuc ->
  let r13 := r_r13 (w_regs w) in
  let w' := with_tebs (upd (w_tebs w) r13
                           (set_stack_top (r_sp (w_regs w)) (w_tebs w r13))) w in
  comes_back (out (func arg w')) = true ->
  SYSDEPS_SwitchToThreadStack cfg f func arg w
  = mkResult
      (Enter F_SYSDEPS_SwitchToThreadStack
       :: Ev_run_on_stack f (r_sp (w_regs w)) :: trace (func arg w'))
      (final (func arg w')) (Return tt).
Proof.
  intros Hs Hv r13 w' Hb. unfold SYSDEPS_SwitchToThreadStack. rewrite Hs.
  assert (E : switch_body cfg v f func arg = switch_body cfg sw_powerpc_apple f func arg)
    by (destruct Hv as [-> | ->]; reflexivity).
  rewrite E. unfold switch_body, enter_on_stack, set_teb.
  run I. fold r13. fold w'.
  unfold bind, tail_jump. cbn [cons_event trace final out].
  destruct (out (func arg w')); try discriminate; reflexivity.
Qed.

(** C9, where the code departs from it. With either PowerPC body the
    function is reached by [bctr], which leaves the return address of
    SYSDEPS_SwitchToThreadStack's caller in the link register: when the
    function returns, control is back in that caller.  Run here on the
    Linux and on the Darwin build with a function that returns at once. *)
Theorem powerpc_switcher_gives_control_back :
  select_switcher linux_powerpc_build = Some sw_powerpc_gnuc
  /\ out (SYSDEPS_SwitchToThreadStack linux_powerpc_build (F_outside 0)
            returns_at_once 0 example_world) = Return tt
  /\ comes_back (out (SYSDEPS_SwitchToThreadStack linux_powerpc_build
                        (F_outside 0) returns_at_once 0 example_world)) = true
  /\ select_switcher darwin_powerpc_build = Some sw_powerpc_apple
  /\ out (SYSDEPS_SwitchToThreadStack darwin_powerpc_build (F_outside 0)
            returns_at_once 0 example_world) = Return tt
  /\ trace (SYSDEPS_SwitchToThreadStack darwin_powerpc_build (F_outside 0)
              returns_at_once 0 example_world)
     = [Enter F_SYSDEPS_SwitchToThreadStack; Ev_run_on_stack (F_outside 0) 135000].
Proof. repeat split. Qed.


(** ** SYSDEPS_SpawnThread *)

Ltac finish_run :=
  unfold return_, ret, halt, emit; cbn [cons_event trace final out app filter].

(** The three backends whose creation call is checked, and the build
    with no backend. *)
Lemma spawn_checked_backends cfg hst teb w :
  HAVE_NPTL cfg = true \/ HAVE_CLONE cfg = true \/ HAVE_RFORK cfg = false ->
  let r := SYSDEPS_SpawnThread cfg hst teb w in
  let ok :=
    if HAVE_NPTL cfg then h_pthread_create hst =? 0
    else if HAVE_CLONE cfg then negb (h_clone hst <? 0)
    else if HAVE__LWP_CREATE cfg then h_lwp_create hst =? 0
    else false in
  out r = Return (if ok then 0 else -1)
  /\ final r = w
  /\ filter is_creation (trace r)
     = if HAVE_NPTL cfg then [Ev_pthread_create teb]
       else if HAVE_CLONE cfg
            then [Ev_clone (stack_top (w_tebs w teb)) teb
                           [CLONE_VM; CLONE_FS; CLONE_FILES; SIGCHLD]]
       else if HAVE__LWP_CREATE cfg then [Ev_lwp_create] else [].
Proof.
  intros H r ok. subst r ok. unfold SYSDEPS_SpawnThread, get_teb.
  destruct (HAVE_NPTL cfg) eqn:E1.
  - destruct (h_pthread_create hst =? 0); cbn [negb]; run I; finish_run;
      repeat split.
  - destruct (HAVE_CLONE cfg) eqn:E2.
    + destruct (h_clone hst <? 0); cbn [negb]; run I; finish_run; repeat split.
    + destruct (HAVE_RFORK cfg) eqn:E3; [intuition discriminate|].
      destruct (HAVE__LWP_CREATE cfg).
      * destruct (h_lwp_create hst =? 0); cbn [negb]; run I; finish_run;
          repeat split.
      * run I; finish_run; repeat split.
Qed.

(** With HAVE_RFORK the answer of the system call is not looked at
    beyond [%edx]: the function cannot return -1. *)
Lemma spawn_rfork_never_fails cfg hst teb w :
  HAVE_NPTL cfg = false -> HAVE_CLONE cfg = false -> HAVE_RFORK cfg = true ->
  out (SYSDEPS_SpawnThread cfg hst teb w) <> Return (-1).
Proof.
  intros E1 E2 E3. unfold SYSDEPS_SpawnThread. rewrite E1, E2, E3.
  destruct (rfork_edx (h_rfork hst) =? 0) eqn:Ee.
  - unfold get_teb. run I. finish_run. discriminate.
  - assert (Hs : comes_back (out (SYSDEPS_SpawnThread cfg hst teb w)) = false).
    { unfold SYSDEPS_SpawnThread. rewrite E1, E2, E3, Ee.
      revert w. change (stuck ?m) with (stuck m).
      skip_stmt. apply stuck_bind_l. do 2 skip_stmt. apply stuck_bind_l.
      repeat skip_stmt. apply stuck_halt. }
    unfold SYSDEPS_SpawnThread in Hs. rewrite E1, E2, E3, Ee in Hs.
    intros Heq. rewrite Heq in Hs. discriminate.
Qed.

(** C5, where the code departs from it. On the build that creates
    units with [rfork], run on a host whose [rfork] fails (no child, the
    caller's [%edx] is 0): SYSDEPS_SpawnThread makes the one system call
    and returns 0, the value for success. *)
Theorem rfork_spawn_reports_success_on_failure :
  HAVE_RFORK freebsd_rfork_build = true
  /\ rfork_created (h_rfork failing_host) = false
  /\ trace (SYSDEPS_SpawnThread freebsd_rfork_build failing_host 196608 example_world)
     = [Enter F_SYSDEPS_SpawnThread; Ev_rfork [RFPROC; RFMEM]]
  /\ out (SYSDEPS_SpawnThread freebsd_rfork_build failing_host 196608 example_world)
     = Return 0.
Proof. vm_compute. repeat split. Qed.

(** ** SYSDEPS_ExitThread *)

Lemma stuck_exit cfg hst status : stuck (SYSDEPS_ExitThread cfg hst status).
Proof.
  unfold SYSDEPS_ExitThread, get_temp_stack. do 2 skip_stmt.
  destruct (HAVE_NPTL cfg).
  - repeat skip_stmt. apply stuck_call, stuck_abort.
  - repeat skip_stmt. apply stuck_call, stuck_switch, stuck_cleanup_thread.
Qed.

Lemma quiet_exit cfg hst status :
  quiet is_startup_step (SYSDEPS_ExitThread cfg hst status).
Proof. unfold_sys. quiet_tac. Qed.

(** With HAVE_NPTL: the exchange, what is done with the TEB that came
    out of it, then the unit's own end. *)
Lemma exit_nptl_run cfg hst status w teb :
  HAVE_NPTL cfg = true ->
  registrar cfg (w_regs w) = Some teb ->
  SYSDEPS_ExitThread cfg hst status w
  = mkResult
      (Enter F_SYSDEPS_ExitThread
       :: Ev_interlocked_xchg_ptr teb (w_teb_to_free w)
       :: handoff_calls (w_teb_to_free w) (w_tebs w (w_teb_to_free w))
       ++ Ev_SIGNAL_Block :: abort_calls cfg (w_tebs w teb) status)
      (with_teb_to_free teb w)
      (Stop ThreadExit).
Proof.
  intros Hn H. unfold SYSDEPS_ExitThread, interlocked_xchg_ptr_teb_to_free,
    get_teb, handoff_calls, abort_calls.
  rewrite Hn. unfold when. run H.
  destruct (w_teb_to_free w =? 0); cbn [negb]; run H; unfold call;
    erewrite abort_run by exact H; rewrite Hn; reflexivity.
Qed.

Lemma select_i386_gnuc cfg :
  select_switcher cfg = Some sw_i386_gnuc ->
  def_i386 cfg = true /\ def_GNUC cfg = true.
Proof.
  unfold select_switcher.
  destruct (def_i386 cfg), (def_GNUC cfg), (def_MSC_VER cfg), (def_sparc cfg),
    (def_powerpc cfg), (def_APPLE cfg); simpl; intros; try discriminate; auto.
Qed.

Lemma bind_call_cleanup {R B} cfg ptr (k : unit -> M R B) w :
  bind (call (cleanup_thread cfg ptr)) k w
  = mkResult
      ([Enter F_cleanup_thread; Ev_load_info ptr;
        Ev_munmap (info_stack_base (w_infos w ptr)) (wrap_unsigned (info_stack_size (w_infos w ptr)));
        Ev_wine_get_fs; Ev_wine_ldt_free_fs (r_fs_sel (w_regs w))]
       ++ (if HAVE__LWP_CREATE cfg then [Ev_lwp_exit]
           else [Ev_exit (info_status (w_infos w ptr))]))
      w
      (Stop (if HAVE__LWP_CREATE cfg then ThreadExit
             else ProcessExit (info_status (w_infos w ptr)))).
Proof.
  unfold bind, call. rewrite cleanup_thread_run. reflexivity.
Qed.

(** The stack switcher handed [cleanup_thread], with one of the bodies
    that either load the stack pointer from the TEB or call on the
    current stack. *)
Lemma switch_cleanup_run cfg v ptr w teb :
  registrar cfg (w_regs w) = Some teb ->
  select_switcher cfg = Some v ->
  loads_stack_pointer v = true \/ v = sw_generic ->
  let r := SYSDEPS_SwitchToThreadStack cfg F_cleanup_thread (cleanup_thread cfg)
             ptr w in
  trace r
  = Enter F_SYSDEPS_SwitchToThreadStack
    :: cleanup_calls cfg (cleanup_sp v (stack_top (w_tebs w teb)) (r_sp (w_regs w)))
         ptr (w_infos w ptr) (r_fs_sel (w_regs w))
  /\ out r = Stop (if HAVE__LWP_CREATE cfg then ThreadExit
                   else ProcessExit (info_status (w_infos w ptr)))
  /\ w_tebs (final r) = w_tebs w
  /\ w_infos (final r) = w_infos w
  /\ w_next_temp_stack (final r) = w_next_temp_stack w.
Proof.
  intros H Hs Hv r. subst r. unfold SYSDEPS_SwitchToThreadStack. rewrite Hs.
  destruct v; cbn in Hv; try (destruct Hv; discriminate); clear Hv.
  - (* i386, gcc *)
    destruct (select_i386_gnuc _ Hs) as [Hi Hg].
    assert (Hfs : r_fs_base (w_regs w) = teb).
    { unfold registrar, NtCurrentTeb_reads in H. rewrite Hi, Hg in H. cbn in H. congruence. }
    unfold switch_body, enter_on_stack, set_sp, set_regs, get_teb.
    run H. rewrite bind_call_cleanup.
    unfold cleanup_calls, cleanup_sp.
    cbn [cons_event trace final out app]. world_simpl. rewrite Hfs.
    repeat split. repeat (f_equal; try lia).
  - (* sparc, gcc *)
    unfold switch_body, enter_on_stack, set_sp, set_regs, get_teb.
    run H. rewrite bind_call_cleanup.
    unfold cleanup_calls, cleanup_sp.
    cbn [cons_event trace final out app]. world_simpl.
    repeat split.
  - (* the generic body *)
    unfold switch_body, enter_on_stack.
    run H. rewrite bind_call_cleanup.
    unfold cleanup_calls, cleanup_sp.
    cbn [cons_event trace final out app]. world_simpl.
    repeat split.
Qed.

(** Without HAVE_NPTL, with one of those bodies: all calls of
    SYSDEPS_ExitThread, in their order. *)
Lemma exit_plain_run cfg hst status w teb v :
  HAVE_NPTL cfg = false ->
  registrar cfg (w_regs w) = Some teb ->
  select_switcher cfg = Some v ->
  loads_stack_pointer v = true \/ v = sw_generic ->
  let t := w_tebs w teb in
  let info_addr := r_sp (w_regs w) - h_info_offset hst in
  let slot := temp_stack_slot hst
                (wrap_unsigned (w_next_temp_stack w) mod NB_TEMP_STACKS) in
  let r := SYSDEPS_ExitThread cfg hst status w in
  trace r
  = detach_calls t info_addr (w_next_temp_stack w)
    ++ cleanup_calls cfg (cleanup_sp v (slot + TEMP_STACK_SIZE) (r_sp (w_regs w)))
         info_addr (built_info hst t status) (r_fs_sel (w_regs w))
  /\ out r = Stop (if HAVE__LWP_CREATE cfg then ThreadExit else ProcessExit status)
  /\ w_next_temp_stack (final r) = wrap_signed (w_next_temp_stack w + 1)
  /\ stack_low (w_tebs (final r) teb) = slot
  /\ stack_top (w_tebs (final r) teb) = slot + TEMP_STACK_SIZE
  /\ w_infos (final r) info_addr = built_info hst t status.
Proof.
  intros Hn H Hs Hv t info_addr slot r. subst t info_addr slot r.
  unfold SYSDEPS_ExitThread, get_temp_stack, interlocked_xchg_add_next_temp_stack,
    get_teb, set_teb, close.
  rewrite Hn. run H.
  match goal with
  | |- context [call ?m ?x] =>
      destruct (@switch_cleanup_run cfg v (r_sp (w_regs w) - h_info_offset hst)
                  x teb H Hs Hv) as (Ht & Ho & Hb & Hi & Hc);
      unfold call; cbn [cons_event trace final out];
      rewrite ?Ht, ?Ho, ?Hb, ?Hi, ?Hc
  end.
  unfold detach_calls, built_info, temp_stack_slot.
  cbn [trace final out app]. world_simpl.
  cbn [stack_top set_stack_top stack_low set_stack_low info_status].
  repeat split.
Qed.

Lemma bind_tail_jump_run {B} (m : M unit unit) (k : B -> M unit B) w :
  bind (tail_jump m) k w
  = mkResult (trace (m w)) (final (m w))
      (if comes_back (out (m w)) then Return tt
       else match out (m w) with Stop s => Stop s | _ => Stop Elsewhere end).
Proof.
  unfold bind, tail_jump. cbn [out trace final].
  destruct (out (m w)); reflexivity.
Qed.

Lemma switch_cleanup_powerpc cfg v ptr w :
  select_switcher cfg = Some v ->
  v = sw_powerpc_apple \/ v = sw_powerpc_gnuc ->
  SYSDEPS_SwitchToThreadStack cfg F_cleanup_thread (cleanup_thread cfg) ptr w
  = mkResult
      (Enter F_SYSDEPS_SwitchToThreadStack
       :: cleanup_calls cfg (r_sp (w_regs w)) ptr (w_infos w ptr)
            (r_fs_sel (w_regs w)))
      (with_tebs (upd (w_tebs w) (r_r13 (w_regs w))
                      (set_stack_top (r_sp (w_regs w))
                                     (w_tebs w (r_r13 (w_regs w))))) w)
      (Stop (if HAVE__LWP_CREATE cfg then ThreadExit
             else ProcessExit (info_status (w_infos w ptr)))).
Proof.
  intros Hs Hv. unfold SYSDEPS_SwitchToThreadStack. rewrite Hs.
  destruct Hv as [-> | ->];
    unfold switch_body, enter_on_stack, set_sp, set_regs, set_teb;
    run I; rewrite bind_tail_jump_run, cleanup_thread_run;
    cbn [cons_event trace final out]; world_simpl;
    unfold cleanup_calls; destruct (HAVE__LWP_CREATE cfg); reflexivity.
Qed.

(** Without HAVE_NPTL, with a PowerPC body of the switcher: the same
    calls, [cleanup_thread] entered on the stack the unit was on. *)
Lemma exit_plain_powerpc_run cfg hst status w teb v :
  HAVE_NPTL cfg = false ->
  registrar cfg (w_regs w) = Some teb ->
  select_switcher cfg = Some v ->
  v = sw_powerpc_apple \/ v = sw_powerpc_gnuc ->
  let t := w_tebs w teb in
  let info_addr := r_sp (w_regs w) - h_info_offset hst in
  let r := SYSDEPS_ExitThread cfg hst status w in
  trace r
  = detach_calls t info_addr (w_next_temp_stack w)
    ++ cleanup_calls cfg (r_sp (w_regs w)) info_addr (built_info hst t status)
         (r_fs_sel (w_regs w))
  /\ out r = Stop (if HAVE__LWP_CREATE cfg then ThreadExit else ProcessExit status)
  /\ w_infos (final r) info_addr = built_info hst t status.
Proof.
  intros Hn H Hs Hv t info_addr r. subst t info_addr r.
  unfold SYSDEPS_ExitThread, get_temp_stack, interlocked_xchg_add_next_temp_stack,
    get_teb, set_teb, close.
  rewrite Hn. run H.
  unfold call. rewrite (@switch_cleanup_powerpc cfg v _ _ Hs Hv).
  cbn [cons_event trace final out]. world_simpl.
  unfold detach_calls, built_info.
  cbn [app stack_top set_stack_top stack_base set_stack_base wait_fd0 wait_fd1
       reply_fd request_fd info_status].
  repeat split.
Qed.

(** Without HAVE_NPTL, with any body of the switcher that enters the
    function it is handed. *)
Lemma exit_plain_entered_run cfg hst status w teb v :
  HAVE_NPTL cfg = false ->
  registrar cfg (w_regs w) = Some teb ->
  select_switcher cfg = Some v ->
  v <> sw_i386_msvc ->
  let t := w_tebs w teb in
  let info_addr := r_sp (w_regs w) - h_info_offset hst in
  let slot := temp_stack_slot hst
                (wrap_unsigned (w_next_temp_stack w) mod NB_TEMP_STACKS) in
  let r := SYSDEPS_ExitThread cfg hst status w in
  trace r
  = detach_calls t info_addr (w_next_temp_stack w)
    ++ cleanup_calls cfg (cleanup_sp v (slot + TEMP_STACK_SIZE) (r_sp (w_regs w)))
         info_addr (built_info hst t status) (r_fs_sel (w_regs w))
  /\ out r = Stop (if HAVE__LWP_CREATE cfg then ThreadExit else ProcessExit status)
  /\ w_infos (final r) info_addr = built_info hst t status.
Proof.
  intros Hn H Hs Hv t info_addr slot r.
  assert (Hc : (loads_stack_pointer v = true \/ v = sw_generic)
               \/ (v = sw_powerpc_apple \/ v = sw_powerpc_gnuc)).
  { destruct v; cbn; auto; congruence. }
  destruct Hc as [Hc | Hc].
  - destruct (@exit_plain_run cfg hst status w teb v Hn H Hs Hc)
      as (Ht & Ho & _ & _ & _ & Hi).
    split; [exact Ht|]. split; [exact Ho | exact Hi].
  - destruct (@exit_plain_powerpc_run cfg hst status w teb v Hn H Hs Hc)
      as (Ht & Ho & Hi).
    split; [|split; [exact Ho | exact Hi]].
    fold t info_addr r in Ht. rewrite Ht.
    destruct Hc as [-> | ->]; reflexivity.
Qed.

(** With any of those bodies the TEB names the start of the temporary
    stack when the unit has ended. *)
Lemma exit_plain_entered_low cfg hst status w teb v :
  HAVE_NPTL cfg = false ->
  registrar cfg (w_regs w) = Some teb ->
  select_switcher cfg = Some v ->
  v <> sw_i386_msvc ->
  stack_low (w_tebs (final (SYSDEPS_ExitThread cfg hst status w)) teb)
  = temp_stack_slot hst (wrap_unsigned (w_next_temp_stack w) mod NB_TEMP_STACKS).
Proof.
  intros Hn H Hs Hv.
  assert (Hc : (loads_stack_pointer v = true \/ v = sw_generic)
               \/ (v = sw_powerpc_apple \/ v = sw_powerpc_gnuc)).
  { destruct v; cbn; auto; congruence. }
  destruct Hc as [Hc | Hc].
  - destruct (@exit_plain_run cfg hst status w teb v Hn H Hs Hc)
      as (_ & _ & _ & Hl & _).
    exact Hl.
  - unfold SYSDEPS_ExitThread, get_temp_stack, interlocked_xchg_add_next_temp_stack,
      get_teb, set_teb, close.
    rewrite Hn. run H.
    unfold call. rewrite (@switch_cleanup_powerpc cfg v _ _ Hs Hc).
    cbn [cons_event trace final out]. world_simpl.
    unfold upd at 1.
    destruct (teb =? r_r13 (w_regs w)) eqn:E.
    + apply Z.eqb_eq in E. rewrite <- E. rewrite !upd_same. reflexivity.
    + rewrite !upd_same. reflexivity.
Qed.

(** ** SYSDEPS_StartThread *)

Lemma set_cur_thread_run cfg hst teb w :
  let r := SYSDEPS_SetCurThread cfg hst teb w in
  out r = Next tt
  /\ hd_error (trace r) = Some (Enter F_SYSDEPS_SetCurThread)
  /\ filter is_startup_step (trace r) = [Enter F_SYSDEPS_SetCurThread].
Proof.
  unfold SYSDEPS_SetCurThread, wine_ldt_init_fs, _lwp_setprivate, pthread_self,
    get_teb, set_teb, set_regs, when.
  destruct (def_i386 cfg), (def_powerpc cfg), (def_APPLE cfg),
    (HAVE__LWP_CREATE cfg), (HAVE_NPTL cfg);
    cbv zeta; run I; finish_run; repeat split.
Qed.

Lemma bind_call_next {R B} (m : M unit unit) (k : unit -> M R B) w :
  out (m w) = Next tt ->
  bind (call m) k w
  = mkResult (trace (m w) ++ trace (k tt (final (m w))))
             (final (k tt (final (m w)))) (out (k tt (final (m w)))).
Proof. intros H. unfold bind, call. cbn [out trace final]. now rewrite H. Qed.

Lemma stuck_start cfg hst teb : stuck (SYSDEPS_StartThread cfg hst teb).
Proof.
  unfold SYSDEPS_StartThread. do 6 skip_stmt.
  apply stuck_bind_r.
  - intros w. match goal with
    | |- context [h_startup hst ?e w] => destruct (h_startup hst e w)
    end; exact I.
  - intro. apply stuck_call, stuck_exit.
Qed.

(** The order of the startup routine, on every build: it enters
    SYSDEPS_SetCurThread, then calls SIGNAL_Init, then CLIENT_InitThread,
    then the entry function [teb->startup], each once and in this order;
    when the entry function returns, SYSDEPS_ExitThread is entered with
    status 0; and in no case does the routine give control back. *)
Lemma start_thread_order cfg hst teb w :
  let r := SYSDEPS_StartThread cfg hst teb w in
  let r1 := SYSDEPS_SetCurThread cfg hst teb w in
  let entry := startup (w_tebs (final r1) teb) in
  trace r
  = Enter F_SYSDEPS_StartThread
    :: trace r1
    ++ Ev_SIGNAL_Init :: Ev_CLIENT_InitThread :: Ev_startup entry
    :: match h_startup hst entry (final r1) with
       | Some w' => trace (SYSDEPS_ExitThread cfg hst 0 w')
       | None => []
       end
  /\ hd_error (trace r1) = Some (Enter F_SYSDEPS_SetCurThread)
  /\ filter is_startup_step (trace r)
     = [Enter F_SYSDEPS_SetCurThread; Ev_SIGNAL_Init; Ev_CLIENT_InitThread;
        Ev_startup entry]
  /\ match h_startup hst entry (final r1) with
     | Some w' =>
         hd_error (trace (SYSDEPS_ExitThread cfg hst 0 w'))
         = Some (Enter F_SYSDEPS_ExitThread)
         /\ comes_back (out (SYSDEPS_ExitThread cfg hst 0 w')) = false
     | None => True
     end
  /\ comes_back (out r) = false.
Proof.
  intros r r1 entry.
  destruct (set_cur_thread_run cfg hst teb w) as (Ho & Hh & Hf).
  fold r1 in Ho, Hh, Hf.
  assert (Ht : trace r
    = Enter F_SYSDEPS_StartThread
      :: trace r1
      ++ Ev_SIGNAL_Init :: Ev_CLIENT_InitThread :: Ev_startup entry
      :: match h_startup hst entry (final r1) with
         | Some w' => trace (SYSDEPS_ExitThread cfg hst 0 w')
         | None => []
         end).
  { subst r. unfold SYSDEPS_StartThread, get_teb. rewrite bind_emit.
    rewrite (bind_call_next _ _ _ Ho). fold r1.
    do 4 run_step I. fold entry.
    unfold bind at 1. cbn [cons_event trace final out].
    destruct (h_startup hst entry (final r1)); cbn [trace final out app];
      reflexivity. }
  split; [exact Ht|]. split; [exact Hh|]. split; [|split].
  - rewrite Ht. cbn [filter is_startup_step]. rewrite filter_app, Hf.
    cbn [filter is_startup_step app].
    destruct (h_startup hst entry (final r1)); [|reflexivity].
    now rewrite quiet_exit.
  - destruct (h_startup hst entry (final r1)); [|exact I]. split.
    + unfold SYSDEPS_ExitThread. rewrite bind_emit. reflexivity.
    + apply stuck_exit.
  - apply stuck_start.
Qed.

(** What the first step of the startup routine is for: on a build
    whose two [#if] chains agree, and for a TEB that holds its own
    address in its self pointer, NtCurrentTeb reads the TEB that
    SYSDEPS_SetCurThread was given. *)
Lemma set_cur_thread_makes_current cfg hst teb w self :
  registrar_agrees cfg = true ->
  self teb = teb ->
  NtCurrentTeb_reads cfg self
    (w_regs (final (SYSDEPS_SetCurThread cfg hst teb w))) = Some teb.
Proof.
  intros Ha Hself.
  assert (Hr : w_regs (final (SYSDEPS_SetCurThread cfg hst teb w))
               = registered cfg teb (teb_sel (w_tebs w teb)) (w_regs w)).
  { unfold SYSDEPS_SetCurThread, wine_ldt_init_fs, _lwp_setprivate, pthread_self,
      get_teb, set_teb, set_regs, when, registered.
    destruct w as [r tebs infos e he n f p hp].
    destruct (def_i386 cfg), (def_powerpc cfg), (def_APPLE cfg),
      (HAVE__LWP_CREATE cfg), (HAVE_NPTL cfg);
      cbv zeta; run I; finish_run; unfold with_regs, with_tebs; world_simpl;
      reflexivity. }
  rewrite Hr. unfold registrar_agrees in Ha. unfold NtCurrentTeb_reads, registered.
  destruct (def_i386 cfg), (def_GNUC cfg), (def_MSC_VER cfg),
    (def_powerpc cfg), (HAVE__LWP_CREATE cfg), (def_APPLE cfg);
    cbn in Ha |- *; try discriminate; congruence.
Qed.

(** C1, where the code departs from it. On PowerPC with
    HAVE__LWP_CREATE, SYSDEPS_SetCurThread writes the TEB into the
    register [r2], and NtCurrentTeb reads the LWP private pointer, which
    nothing has set: after the first step of SYSDEPS_StartThread the TEB
    of the thread (at 0x30000) is not the current one.  The startup
    routine goes through its steps all the same; when the entry function
    returns, the graceful exit acts on the block NtCurrentTeb gives, the
    one at address 0 here: it asks about a stack top of 0, closes the
    handles 0 and releases the region at 0, and writes the temporary
    stack into that block, and the TEB of the thread is as it was. *)
Theorem start_thread_leaves_teb_unregistered :
  def_powerpc powerpc_lwp_build = true
  /\ HAVE__LWP_CREATE powerpc_lwp_build = true
  /\ r_r2 (w_regs (final (SYSDEPS_SetCurThread powerpc_lwp_build working_host
                            196608 lone_teb_world))) = 196608
  /\ (forall self,
        NtCurrentTeb_reads powerpc_lwp_build self
          (w_regs (final (SYSDEPS_SetCurThread powerpc_lwp_build working_host
                            196608 lone_teb_world))) = Some 0)
  /\ trace (SYSDEPS_StartThread powerpc_lwp_build working_host 196608
              lone_teb_world)
     = [Enter F_SYSDEPS_StartThread; Enter F_SYSDEPS_SetCurThread;
        Ev_SIGNAL_Init; Ev_CLIENT_InitThread; Ev_startup 4198400;
        Enter F_SYSDEPS_ExitThread; Ev_NtQueryVirtualMemory 0;
        Ev_store_info 134960; Ev_SIGNAL_Block;
        Ev_NtFreeVirtualMemory 0 [MEM_RELEASE; MEM_SYSTEM];
        Ev_close 0; Ev_close 0; Ev_close 0; Ev_close 0; Ev_SIGNAL_Reset;
        Enter F_get_temp_stack; Ev_interlocked_xchg_add 0;
        Enter F_SYSDEPS_SwitchToThreadStack;
        Ev_run_on_stack F_cleanup_thread 135000; Enter F_cleanup_thread;
        Ev_load_info 134960; Ev_munmap 131072 4294838272; Ev_wine_get_fs;
        Ev_wine_ldt_free_fs 0; Ev_lwp_exit]
  /\ w_tebs (final (SYSDEPS_StartThread powerpc_lwp_build working_host 196608
                      lone_teb_world)) 196608 = example_teb
  /\ stack_low (w_tebs (final (SYSDEPS_StartThread powerpc_lwp_build working_host
                                 196608 lone_teb_world)) 0) = 524288.
Proof. vm_compute. repeat split. Qed.

(** ** Graceful exit without HAVE_NPTL *)

(** C8, as the code has it. Without HAVE_NPTL, with every body of the
    stack switcher that enters the function it is handed (all but the
    one for the Microsoft compiler), SYSDEPS_ExitThread makes its calls
    in this order and never gives control back: the cleanup-info is
    built; the stack region is released through NtFreeVirtualMemory;
    after that the four channel handles are closed; the TEB is made to
    name a temporary stack slot and the stack switcher is invoked;
    [cleanup_thread] then unmaps the region of the cleanup-info, frees
    the [%fs] selector and ends the unit.  With the i386 and sparc bodies
    of the switcher for gcc, [cleanup_thread] runs with its stack pointer
    on that slot; with every other body, the generic one among them, it
    runs on the stack the unit was on. *)
Theorem exit_order_without_nptl cfg hst status w teb v :
  HAVE_NPTL cfg = false ->
  registrar cfg (w_regs w) = Some teb ->
  select_switcher cfg = Some v ->
  v <> sw_i386_msvc ->
  let t := w_tebs w teb in
  let info_addr := r_sp (w_regs w) - h_info_offset hst in
  let slot := temp_stack_slot hst
                (wrap_unsigned (w_next_temp_stack w) mod NB_TEMP_STACKS) in
  let sp := cleanup_sp v (slot + TEMP_STACK_SIZE) (r_sp (w_regs w)) in
  let r := SYSDEPS_ExitThread cfg hst status w in
  trace r
  = [Enter F_SYSDEPS_ExitThread; Ev_NtQueryVirtualMemory (stack_top t);
     Ev_store_info info_addr; Ev_SIGNAL_Block;
     Ev_NtFreeVirtualMemory (stack_base t) [MEM_RELEASE; MEM_SYSTEM];
     Ev_close (wait_fd0 t); Ev_close (wait_fd1 t);
     Ev_close (reply_fd t); Ev_close (request_fd t);
     Ev_SIGNAL_Reset;
     Enter F_get_temp_stack; Ev_interlocked_xchg_add (w_next_temp_stack w);
     Enter F_SYSDEPS_SwitchToThreadStack;
     Ev_run_on_stack F_cleanup_thread sp;
     Enter F_cleanup_thread; Ev_load_info info_addr;
     Ev_munmap (info_stack_base (built_info hst t status))
               (wrap_unsigned (info_stack_size (built_info hst t status)));
     Ev_wine_get_fs; Ev_wine_ldt_free_fs (r_fs_sel (w_regs w));
     if HAVE__LWP_CREATE cfg then Ev_lwp_exit else Ev_exit status]
  /\ comes_back (out r) = false
  /\ stack_low (w_tebs (final r) teb) = slot
  /\ (loads_stack_pointer v = true \/ v = sw_generic ->
      stack_top (w_tebs (final r) teb) = slot + TEMP_STACK_SIZE)
  /\ (if loads_stack_pointer v then slot < sp <= slot + TEMP_STACK_SIZE
      else sp = r_sp (w_regs w)).
Proof.
  intros Hn H Hs Hv t info_addr slot sp r.
  destruct (@exit_plain_entered_run cfg hst status w teb v Hn H Hs Hv)
    as (Ht & Ho & _).
  fold t info_addr slot sp r in Ht, Ho.
  split; [|split; [|split; [|split]]].
  - rewrite Ht. unfold detach_calls, cleanup_calls. cbn [app info_status built_info].
    destruct (HAVE__LWP_CREATE cfg); reflexivity.
  - rewrite Ho. reflexivity.
  - apply (@exit_plain_entered_low cfg hst status w teb v Hn H Hs Hv).
  - intros Hc.
    destruct (@exit_plain_run cfg hst status w teb v Hn H Hs Hc)
      as (_ & _ & _ & _ & Hp & _).
    exact Hp.
  - subst sp. unfold TEMP_STACK_SIZE.
    destruct v; cbn; try lia; congruence.
Qed.

Lemma exit_order_without_nptl_witness :
  trace (SYSDEPS_ExitThread linux_clone_build working_host 3 example_world)
  = [Enter F_SYSDEPS_ExitThread; Ev_NtQueryVirtualMemory 135168;
     Ev_store_info 134960; Ev_SIGNAL_Block;
     Ev_NtFreeVirtualMemory 131072 [MEM_RELEASE; MEM_SYSTEM];
     Ev_close 10; Ev_close 11; Ev_close 12; Ev_close 13; Ev_SIGNAL_Reset;
     Enter F_get_temp_stack; Ev_interlocked_xchg_add 0;
     Enter F_SYSDEPS_SwitchToThreadStack;
     Ev_run_on_stack F_cleanup_thread 525304;
     Enter F_cleanup_thread; Ev_load_info 134960; Ev_munmap 131072 6144;
     Ev_wine_get_fs; Ev_wine_ldt_free_fs 7; Ev_exit 3].
Proof.
  destruct (@exit_order_without_nptl linux_clone_build working_host 3
              example_world 196608 sw_i386_gnuc eq_refl eq_refl eq_refl)
    as (Ht & _); [discriminate|].
  exact Ht.
Defined.

(** Against C8 as stated: on a build without HAVE_NPTL whose stack
    switcher is the generic body (Solaris on sparc, not gcc),
    [cleanup_thread] is entered with the stack pointer the unit had,
    inside the stack that NtFreeVirtualMemory was just called on, and
    not on the temporary stack slot (0x80000 to 0x80400) that the TEB
    names. *)
Lemma generic_build_cleans_up_on_the_old_stack :
  HAVE_NPTL solaris_lwp_build = false
  /\ select_switcher solaris_lwp_build = Some sw_generic
  /\ trace (SYSDEPS_ExitThread solaris_lwp_build working_host 3 example_world)
     = [Enter F_SYSDEPS_ExitThread; Ev_NtQueryVirtualMemory 135168;
        Ev_store_info 134960; Ev_SIGNAL_Block;
        Ev_NtFreeVirtualMemory 131072 [MEM_RELEASE; MEM_SYSTEM];
        Ev_close 10; Ev_close 11; Ev_close 12; Ev_close 13; Ev_SIGNAL_Reset;
        Enter F_get_temp_stack; Ev_interlocked_xchg_add 0;
        Enter F_SYSDEPS_SwitchToThreadStack;
        Ev_run_on_stack F_cleanup_thread 135000;
        Enter F_cleanup_thread; Ev_load_info 134960; Ev_munmap 131072 6144;
        Ev_wine_get_fs; Ev_wine_ldt_free_fs 7; Ev_lwp_exit]
  /\ stack_low (w_tebs (final (SYSDEPS_ExitThread solaris_lwp_build working_host
                                 3 example_world)) 196608) = 524288
  /\ stack_top (w_tebs (final (SYSDEPS_ExitThread solaris_lwp_build working_host
                                 3 example_world)) 196608) = 525312
  /\ stack_base example_teb <= 135000 < stack_top example_teb
  /\ ~ (524288 <= 135000 <= 525312).
Proof. vm_compute. repeat split; try discriminate; intros [H _]; now apply H. Qed.

(** C4, as the code has it. The one invocation of the stack switcher
    in graceful exit is handed the address of [info], an automatic
    variable of SYSDEPS_ExitThread: a reference into the stack being
    left, whenever that frame lies in the unit's stack.  With every body
    of the switcher that enters the function it is handed (all but the
    one for the Microsoft compiler), [cleanup_thread] copies the value
    through that pointer first, before it unmaps anything, and does not
    read through the pointer again; the region it unmaps and the status
    it ends the process with are the fields SYSDEPS_ExitThread stored. *)
Theorem cleanup_info_by_reference cfg hst status w teb v :
  HAVE_NPTL cfg = false ->
  registrar cfg (w_regs w) = Some teb ->
  select_switcher cfg = Some v ->
  v <> sw_i386_msvc ->
  0 < h_info_offset hst ->
  stack_base (w_tebs w teb) + h_info_offset hst <= r_sp (w_regs w)
    < stack_top (w_tebs w teb) ->
  let t := w_tebs w teb in
  let info_addr := r_sp (w_regs w) - h_info_offset hst in
  let mi := h_query hst (stack_top t) in
  let stored :=
    mkInfo (AllocationBase mi)
           (wrap_signed (RegionSize mi + (stack_top t - AllocationBase mi)))
           status in
  let slot := temp_stack_slot hst
                (wrap_unsigned (w_next_temp_stack w) mod NB_TEMP_STACKS) in
  let r := SYSDEPS_ExitThread cfg hst status w in
  stack_base t <= info_addr < stack_top t
  /\ trace r
     = [Enter F_SYSDEPS_ExitThread; Ev_NtQueryVirtualMemory (stack_top t);
        Ev_store_info info_addr; Ev_SIGNAL_Block;
        Ev_NtFreeVirtualMemory (stack_base t) [MEM_RELEASE; MEM_SYSTEM];
        Ev_close (wait_fd0 t); Ev_close (wait_fd1 t);
        Ev_close (reply_fd t); Ev_close (request_fd t);
        Ev_SIGNAL_Reset;
        Enter F_get_temp_stack; Ev_interlocked_xchg_add (w_next_temp_stack w);
        Enter F_SYSDEPS_SwitchToThreadStack;
        Ev_run_on_stack F_cleanup_thread
          (cleanup_sp v (slot + TEMP_STACK_SIZE) (r_sp (w_regs w)));
        Enter F_cleanup_thread; Ev_load_info info_addr;
        Ev_munmap (info_stack_base stored)
                  (wrap_unsigned (info_stack_size stored));
        Ev_wine_get_fs; Ev_wine_ldt_free_fs (r_fs_sel (w_regs w));
        if HAVE__LWP_CREATE cfg then Ev_lwp_exit
        else Ev_exit (info_status stored)]
  /\ w_infos (final r) info_addr = stored.
Proof.
  intros Hn H Hs Hv Ho Hsp t info_addr mi stored slot r.
  destruct (@exit_plain_entered_run cfg hst status w teb v Hn H Hs Hv)
    as (Ht & _ & Hi).
  fold t info_addr slot r in Ht, Hi.
  split; [subst info_addr t; lia|]. split; [|exact Hi].
  rewrite Ht. unfold detach_calls, cleanup_calls. cbn [app].
  destruct (HAVE__LWP_CREATE cfg); reflexivity.
Qed.

Lemma cleanup_info_by_reference_witness :
  131072 <= 134960 < 135168
  /\ trace (SYSDEPS_ExitThread linux_clone_build working_host 3 example_world)
     = [Enter F_SYSDEPS_ExitThread; Ev_NtQueryVirtualMemory 135168;
        Ev_store_info 134960; Ev_SIGNAL_Block;
        Ev_NtFreeVirtualMemory 131072 [MEM_RELEASE; MEM_SYSTEM];
        Ev_close 10; Ev_close 11; Ev_close 12; Ev_close 13; Ev_SIGNAL_Reset;
        Enter F_get_temp_stack; Ev_interlocked_xchg_add 0;
        Enter F_SYSDEPS_SwitchToThreadStack;
        Ev_run_on_stack F_cleanup_thread 525304;
        Enter F_cleanup_thread; Ev_load_info 134960; Ev_munmap 131072 6144;
        Ev_wine_get_fs; Ev_wine_ldt_free_fs 7; Ev_exit 3]
  /\ w_infos (final (SYSDEPS_ExitThread linux_clone_build working_host 3
                       example_world)) 134960
     = mkInfo 131072 6144 3.
Proof.
  refine (@cleanup_info_by_reference linux_clone_build working_host 3
            example_world 196608 sw_i386_gnuc eq_refl eq_refl eq_refl _ _ _).
  - discriminate.
  - reflexivity.
  - simpl. lia.
Defined.

(** Against C4 as stated: on Linux with clone, once the stack switcher
    has moved the unit to the temporary stack (stack pointer 0x803f8),
    [cleanup_thread] reads the cleanup-info at 0x20f30, an address inside
    the stack that was left (0x20000 to 0x21000): the argument is a
    reference to the old stack, not a value. *)
Lemma cleanup_reads_the_old_stack :
  trace (SYSDEPS_ExitThread linux_clone_build working_host 3 example_world)
  = [Enter F_SYSDEPS_ExitThread; Ev_NtQueryVirtualMemory 135168;
     Ev_store_info 134960; Ev_SIGNAL_Block;
     Ev_NtFreeVirtualMemory 131072 [MEM_RELEASE; MEM_SYSTEM];
     Ev_close 10; Ev_close 11; Ev_close 12; Ev_close 13; Ev_SIGNAL_Reset;
     Enter F_get_temp_stack; Ev_interlocked_xchg_add 0;
     Enter F_SYSDEPS_SwitchToThreadStack;
     Ev_run_on_stack F_cleanup_thread 525304;
     Enter F_cleanup_thread; Ev_load_info 134960; Ev_munmap 131072 6144;
     Ev_wine_get_fs; Ev_wine_ldt_free_fs 7; Ev_exit 3]
  /\ stack_base example_teb <= 134960 < stack_top example_teb
  /\ 524288 < 525304 <= 524288 + TEMP_STACK_SIZE.
Proof. vm_compute. repeat split; discriminate. Qed.

(** The bodies of the stack switcher left out above. On PowerPC the
    first instruction stores the stack pointer into [teb->stack_top]
    where the others load it: [cleanup_thread] runs on the stack the unit
    was on, and the TEB no longer names the end of the temporary slot. *)
Remark powerpc_exit_stays_on_its_stack :
  trace (SYSDEPS_ExitThread darwin_powerpc_build working_host 3 example_world)
  = [Enter F_SYSDEPS_ExitThread; Ev_NtQueryVirtualMemory 135168;
     Ev_store_info 134960; Ev_SIGNAL_Block;
     Ev_NtFreeVirtualMemory 131072 [MEM_RELEASE; MEM_SYSTEM];
     Ev_close 10; Ev_close 11; Ev_close 12; Ev_close 13; Ev_SIGNAL_Reset;
     Enter F_get_temp_stack; Ev_interlocked_xchg_add 0;
     Enter F_SYSDEPS_SwitchToThreadStack;
     Ev_run_on_stack F_cleanup_thread 135000;
     Enter F_cleanup_thread; Ev_load_info 134960; Ev_munmap 131072 6144;
     Ev_wine_get_fs; Ev_wine_ldt_free_fs 7; Ev_exit 3]
  /\ stack_low (w_tebs (final (SYSDEPS_ExitThread darwin_powerpc_build
                                 working_host 3 example_world)) 196608) = 524288
  /\ stack_top (w_tebs (final (SYSDEPS_ExitThread darwin_powerpc_build
                                 working_host 3 example_world)) 196608) = 135000.
Proof. vm_compute. repeat split. Qed.

(** With the body for the Microsoft compiler, [call [ecx]] calls through
    the word stored at the function's address: [cleanup_thread] is not
    entered. *)
Remark msvc_exit_misses_cleanup :
  trace (SYSDEPS_ExitThread msvc_build working_host 3 example_world)
  = [Enter F_SYSDEPS_ExitThread; Ev_NtQueryVirtualMemory 135168;
     Ev_store_info 134960; Ev_SIGNAL_Block;
     Ev_NtFreeVirtualMemory 131072 [MEM_RELEASE; MEM_SYSTEM];
     Ev_close 10; Ev_close 11; Ev_close 12; Ev_close 13; Ev_SIGNAL_Reset;
     Enter F_get_temp_stack; Ev_interlocked_xchg_add 0;
     Enter F_SYSDEPS_SwitchToThreadStack]
  /\ out (SYSDEPS_ExitThread msvc_build working_host 3 example_world)
     = Stop Elsewhere.
Proof. vm_compute. repeat split. Qed.

(** ** The errno indirection *)

Lemma call_writejump {R} cfg hst s d w :
  exists tr o, @call R (writejump cfg hst s d) w = mkResult tr w o.
Proof.
  unfold call, writejump, store_code, when.
  destruct (h_dlsym hst s =? 0); [run I; finish_run; do 2 eexists; reflexivity|].
  run I.
  destruct (store_ok _ _ _ 1); [|run I; finish_run; do 2 eexists; reflexivity].
  run I.
  destruct (store_ok _ _ _ 4); [|run I; finish_run; do 2 eexists; reflexivity].
  destruct (HAVE_VALGRIND_MEMCHECK_H cfg);
    run I; finish_run; do 2 eexists; reflexivity.
Qed.

Lemma init_errno_final cfg hst w :
  HAVE_NPTL cfg = false ->
  final (SYSDEPS_InitErrno cfg hst w)
  = with_h_errno_location_ptr thread_h_errno_location_fn
      (with_errno_location_ptr thread_errno_location_fn w).
Proof.
  intros Hn. unfold SYSDEPS_InitErrno. rewrite Hn. cbn [negb]. unfold when.
  destruct (def_linux cfg && def_i386 cfg).
  - run I.
    match goal with
    | |- context [bind (call (writejump cfg hst ?s ?d)) ?k ?x] =>
        destruct (@call_writejump unit cfg hst s d x) as (tr1 & o1 & E1);
        unfold bind at 1; rewrite E1
    end.
    cbn [cons_event trace final out].
    destruct o1 as [[]|r|st]; [|reflexivity|reflexivity].
    match goal with
    | |- context [call (writejump cfg hst ?s ?d) ?x] =>
        destruct (@call_writejump unit cfg hst s d x) as (tr2 & o2 & E2); rewrite E2
    end.
    reflexivity.
  - run I. reflexivity.
Qed.

Lemma accessor_thread cfg w teb :
  registrar cfg (w_regs w) = Some teb ->
  returned (@run_errno_fn cfg int_ptr thread_errno_location_fn w)
  = Some (addr_thread_errno teb)
  /\ returned (@run_errno_fn cfg int_ptr thread_h_errno_location_fn w)
     = Some (addr_thread_h_errno teb).
Proof.
  intros H. unfold run_errno_fn, returned.
  split; erewrite bind_NtCurrentTeb by exact H; reflexivity.
Qed.

Lemma errno_accessor_run cfg acc w :
  In acc (errno_accessors cfg) ->
  acc w = @run_errno_fn cfg int_ptr (w_errno_location_ptr w) w.
Proof.
  unfold errno_accessors. cbn [In].
  intros [<- | [<- | [<- | [<- | [<- | []]]]]];
    unfold __errno_location, __error, __errno, ___errno, __thr_errno;
    now rewrite bind_read.
Qed.

Lemma h_errno_accessor_run cfg w :
  __h_errno_location cfg w = @run_errno_fn cfg int_ptr (w_h_errno_location_ptr w) w.
Proof. unfold __h_errno_location. now rewrite bind_read. Qed.

(** C6. Built without HAVE_NPTL: as long as SYSDEPS_InitErrno has not
    run, [__errno_location] and each of its aliases return the address
    of the one static cell of [default_errno_location], and
    [__h_errno_location] that of the one static cell of
    [default_h_errno_location], whatever unit calls, so a write of one
    unit is read by the others; once SYSDEPS_InitErrno has run, each
    accessor returns the address of the cell in the TEB that the
    registrar gives for the calling unit, and a write a unit makes
    through an accessor leaves what a unit with another TEB reads
    through any accessor as it was. *)
Theorem errno_cells cfg hst :
  HAVE_NPTL cfg = false ->
  (forall r tebs infos,
      w_errno_location_ptr (at_load r tebs infos) = default_errno_location_fn
      /\ w_h_errno_location_ptr (at_load r tebs infos)
         = default_h_errno_location_fn)
  /\ (forall w rA rB v,
         w_errno_location_ptr w = default_errno_location_fn ->
         w_h_errno_location_ptr w = default_h_errno_location_fn ->
         (forall acc, In acc (errno_accessors cfg) ->
            returned (acc (seen_by rA w)) = Some addr_static_errno
            /\ returned (acc (seen_by rB w)) = Some addr_static_errno)
         /\ returned (__h_errno_location cfg (seen_by rA w)) = Some addr_static_h_errno
         /\ returned (__h_errno_location cfg (seen_by rB w)) = Some addr_static_h_errno
         /\ load_int addr_static_errno (store_int addr_static_errno v w) = v
         /\ load_int addr_static_h_errno (store_int addr_static_h_errno v w) = v)
  /\ (forall w rA rB tebA tebB,
         registrar cfg rA = Some tebA ->
         registrar cfg rB = Some tebB ->
         tebA <> tebB ->
         let w1 := final (SYSDEPS_InitErrno cfg hst w) in
         (forall acc, In acc (errno_accessors cfg) ->
            returned (acc (seen_by rA w1)) = Some (addr_thread_errno tebA)
            /\ returned (acc (seen_by rB w1)) = Some (addr_thread_errno tebB))
         /\ returned (__h_errno_location cfg (seen_by rA w1))
            = Some (addr_thread_h_errno tebA)
         /\ returned (__h_errno_location cfg (seen_by rB w1))
            = Some (addr_thread_h_errno tebB)
         /\ (forall pA pB v,
               In pA [addr_thread_errno tebA; addr_thread_h_errno tebA] ->
               In pB [addr_thread_errno tebB; addr_thread_h_errno tebB] ->
               load_int pB (store_int pA v w1) = load_int pB w1)).
Proof.
  intros Hn. split; [|split].
  - intros. split; reflexivity.
  - intros w rA rB v He Hh.
    split; [|split; [|split; [|split]]]; try reflexivity.
    + intros acc Hacc.
      rewrite !(@errno_accessor_run cfg acc _ Hacc). unfold seen_by.
      cbn [w_errno_location_ptr with_regs]. rewrite He. split; reflexivity.
    + rewrite h_errno_accessor_run. unfold seen_by.
      cbn [w_h_errno_location_ptr with_regs]. rewrite Hh. reflexivity.
    + rewrite h_errno_accessor_run. unfold seen_by.
      cbn [w_h_errno_location_ptr with_regs]. rewrite Hh. reflexivity.
  - intros w rA rB tebA tebB HA HB Hne w1. subst w1.
    rewrite (@init_errno_final cfg hst w Hn).
    set (w1 := with_h_errno_location_ptr thread_h_errno_location_fn
                 (with_errno_location_ptr thread_errno_location_fn w)).
    destruct (@accessor_thread cfg (seen_by rA w1) tebA HA) as [HA1 HA2].
    destruct (@accessor_thread cfg (seen_by rB w1) tebB HB) as [HB1 HB2].
    split; [|split; [|split]].
    + intros acc Hacc. rewrite !(@errno_accessor_run cfg acc _ Hacc).
      split; [exact HA1 | exact HB1].
    + rewrite h_errno_accessor_run. exact HA2.
    + rewrite h_errno_accessor_run. exact HB2.
    + intros pA pB v HpA HpB. cbn [In] in HpA, HpB.
      destruct HpA as [<- | [<- | []]]; destruct HpB as [<- | [<- | []]];
        cbn [load_int store_int w_tebs with_tebs];
        rewrite upd_other by congruence; reflexivity.
Qed.

Lemma errno_cells_witness :
  returned (__errno_location linux_clone_build
              (seen_by example_regs
                 (final (SYSDEPS_InitErrno linux_clone_build working_host
                           example_world))))
  = Some (addr_thread_errno 196608)
  /\ returned (__errno_location linux_clone_build (seen_by example_regs example_world))
     = Some addr_static_errno.
Proof.
  destruct (@errno_cells linux_clone_build working_host eq_refl)
    as (_ & Hbefore & Hafter).
  destruct (Hafter example_world example_regs
              (mkRegs 0 8 200704 0 0 0) 196608 200704 eq_refl eq_refl)
    as (Hacc & _).
  - discriminate.
  - destruct (Hbefore example_world example_regs example_regs 5 eq_refl eq_refl)
      as (Hb & _).
    split.
    + apply (Hacc (__errno_location linux_clone_build)). left. reflexivity.
    + apply (Hb (__errno_location linux_clone_build)). left. reflexivity.
Defined.

(** ** The handoff through [teb_to_free] *)

Lemma nth_error_of_nth {A} (l : list A) n d :
  nth n l d <> d -> nth_error l n = Some (nth n l d).
Proof.
  revert n. induction l as [|x l IH]; intros [|n] H; simpl in *;
    try congruence; auto.
Qed.

Lemma nth_of_nth_error {A} (l : list A) n d x :
  nth_error l n = Some x -> nth n l d = x.
Proof.
  revert n. induction l as [|y l IH]; intros [|n] H; simpl in *;
    try congruence; auto.
Qed.

Lemma link_stable cfg us us' teb prev :
  u_phase (us' teb) = u_phase (us teb) ->
  (prev <> 0 -> flags_of (us' prev) = flags_of (us prev)) ->
  (prev <> 0 -> u_phase (us prev) = Exited true -> u_phase (us' prev) = Exited true) ->
  link cfg us teb prev -> link cfg us' teb prev.
Proof.
  intros Hp Hf He. unfold link. rewrite Hp.
  destruct (u_phase (us teb)) as [|free_teb rest|rest|[|]]; auto.
  - intros (-> & ft & t & st & k & Hr & Hn & Hk). split; [reflexivity|].
    exists ft, t, st, k. repeat split; auto.
    + rewrite Hf by assumption. now apply Hk.
    + intros Hk2. apply He; auto. now apply Hk.
  - intros H Hne. destruct (H Hne) as [H1 H2]. split.
    + now rewrite Hf.
    + now apply He.
Qed.

Lemma chain_member cfg us l teb :
  chain cfg us l -> In teb l ->
  teb <> 0 /\ (exists f r, u_phase (us teb) = Exiting f r) \/
  teb <> 0 /\ u_phase (us teb) = Exited true.
Proof.
  intros Hc Hin. apply In_nth_error in Hin. destruct Hin as [i Hi].
  destruct (Hc i teb Hi) as [Hz Hl]. unfold link in Hl.
  destruct (u_phase (us teb)) as [|f r|r|[|]]; try contradiction.
  - left. split; auto. eauto.
  - right. split; auto.
Qed.

Lemma chain_ext cfg us us' l :
  (forall teb, In teb l -> us' teb = us teb) ->
  chain cfg us l -> chain cfg us' l.
Proof.
  intros He Hc i teb Hi. destruct (Hc i teb Hi) as [Hz Hl]. split; auto.
  assert (Hin : In teb l) by (eapply nth_error_In; eauto).
  apply link_stable with (us := us); auto.
  - now rewrite He.
  - intros Hne. rewrite He; auto. apply nth_error_of_nth in Hne.
    eapply nth_error_In; eauto.
  - intros Hne. rewrite He; auto. apply nth_error_of_nth in Hne.
    eapply nth_error_In; eauto.
Qed.

Lemma flags_of_set_phase p u : flags_of (set_phase p u) = flags_of u.
Proof. reflexivity. Qed.

Section HandoffInvariant.
Variable cfg : config.
Variable hst : host.
Hypothesis Hnptl : HAVE_NPTL cfg = true.
Hypothesis Hreg : forall teb, registrar cfg (unit_regs teb) = Some teb.

Lemma exit_begin_run (w : world) teb status :
  let r := SYSDEPS_ExitThread cfg hst status (with_regs (unit_regs teb) w) in
  after_xchg (trace r)
  = calls_after_xchg cfg (w_teb_to_free w) (w_tebs w (w_teb_to_free w))
      (w_tebs w teb) status
  /\ w_teb_to_free (final r) = teb.
Proof.
  intros r. subst r.
  rewrite (@exit_nptl_run cfg hst status (with_regs (unit_regs teb) w) teb Hnptl (Hreg teb)).
  cbn [trace final after_xchg w_teb_to_free with_teb_to_free with_regs w_tebs].
  split; reflexivity.
Qed.

Lemma inv_initial s : initial s -> handoff_inv cfg s.
Proof.
  intros [H0 Hu]. exists [].
  split; [constructor|]. split; [exact H0|].
  split; [intros i teb Hi; destruct i; discriminate|].
  split; [simpl; now rewrite Hu|].
  intros teb _. rewrite Hu. split; [reflexivity | exact I].
Qed.

Lemma inv_exit_begin s teb status :
  teb <> 0 ->
  u_phase (sys_units s teb) = Running ->
  handoff_inv cfg s ->
  let r := SYSDEPS_ExitThread cfg hst status
             (with_regs (unit_regs teb) (sys_shared s)) in
  handoff_inv cfg
    (mkSystem (final r)
       (upd (sys_units s) teb
          (set_phase (Exiting (w_teb_to_free (sys_shared s)) (after_xchg (trace r)))
                     (sys_units s teb)))).
Proof.
  intros Hz Hrun (l & Hnd & Hslot & Hch & Hhd & Hout) r.
  destruct (exit_begin_run (sys_shared s) teb status) as [Htail Hfin].
  fold r in Htail, Hfin.
  assert (Hnin : ~ In teb l).
  { intros Hin. destruct (@chain_member cfg _ l teb Hch Hin)
      as [[_ (f & r0 & E)] | [_ E]]; congruence. }
  exists (teb :: l). cbn [sys_shared sys_units hd].
  split; [constructor; assumption|]. split; [exact Hfin|].
  split; [|split].
  - intros i t Hi. destruct i as [|i].
    + cbn in Hi. injection Hi as <-. split; [assumption|].
      cbn [nth]. unfold link. rewrite upd_same. cbn [u_phase set_phase].
      split; [rewrite Hslot; now destruct l|].
      exists (w_tebs (sys_shared s) (w_teb_to_free (sys_shared s))),
             (w_tebs (sys_shared s) teb), status, 0%nat.
      cbn [skipn]. rewrite Htail.
      assert (Hp : nth 0 l 0 = hd 0 l) by now destruct l.
      rewrite Hp, <- Hslot. repeat split.
      * unfold calls_after_xchg. destruct (handoff_calls _ _); discriminate.
      * rewrite Hslot in *. rewrite upd_other by (intros E; apply Hnin;
          destruct l; simpl in *; [congruence | left; congruence]).
        rewrite Hhd. reflexivity.
      * intros Hk. inversion Hk.
    + cbn in Hi. destruct (Hch i t Hi) as [Ht Hl]. split; [assumption|].
      cbn [nth].
      assert (Hin : In t l) by (eapply nth_error_In; eauto).
      apply link_stable with (us := sys_units s); auto.
      * rewrite upd_other; [reflexivity | congruence].
      * intros Hne. rewrite upd_other; [reflexivity|].
        intros E. apply Hnin. rewrite <- E.
        apply nth_error_of_nth in Hne. eapply nth_error_In; eauto.
      * intros Hne He. rewrite upd_other; [assumption|].
        intros E. apply Hnin. rewrite <- E.
        apply nth_error_of_nth in Hne. eapply nth_error_In; eauto.
  - rewrite upd_same, flags_of_set_phase. apply (Hout teb Hnin).
  - intros t Ht. rewrite upd_other.
    + apply Hout. intros Hin. apply Ht. now right.
    + intros E. apply Ht. now left.
Qed.

Lemma reclaim_flags us prev e :
  flags_of (reclaim us prev e prev) = new_flags e (flags_of (us prev)).
Proof.
  unfold reclaim, new_flags, flags_of.
  destruct e; try reflexivity; rewrite upd_same; reflexivity.
Qed.

Lemma reclaim_other us prev e t :
  t <> prev -> reclaim us prev e t = us t.
Proof.
  intros H. unfold reclaim. destruct e; try reflexivity; now rewrite upd_other.
Qed.

Lemma reclaim_phase us prev e t :
  u_phase (reclaim us prev e t) = u_phase (us t).
Proof.
  unfold reclaim. destruct e; try reflexivity; unfold upd;
    destruct (t =? prev) eqn:E; try reflexivity;
    apply Z.eqb_eq in E; subst; reflexivity.
Qed.

Lemma skipn_cons_S {A} k (l : list A) x tl :
  skipn k l = x :: tl -> skipn (S k) l = tl.
Proof.
  revert l. induction k as [|k IH]; intros l H.
  - cbn in H. subst l. reflexivity.
  - destruct l as [|y l]; [discriminate|].
    change (skipn (S (S k)) (y :: l)) with (skipn (S k) l).
    apply IH. exact H.
Qed.

Lemma advance_eq g c e :
  advance g c e = if is_pthread_exit e then Exited g else c.
Proof. destruct e; reflexivity. Qed.

Lemma call_cases prev ft t st k e rest f :
  skipn k (calls_after_xchg cfg prev ft t st) = e :: rest ->
  (prev <> 0 -> f = ((2 <=? k)%nat, (3 <=? k)%nat, (4 <=? k)%nat)) ->
  (prev = 0 -> forall us, reclaim us prev e = us)
  /\ if is_pthread_exit e then
       prev <> 0 -> f = (true, true, true) /\ (2 <= k)%nat
     else
       rest <> []
       /\ (prev <> 0 ->
           new_flags e f = ((2 <=? S k)%nat, (3 <=? S k)%nat, (4 <=? S k)%nat)
           /\ ((2 <= S k)%nat -> (2 <= k)%nat \/ is_join e = true)).
Proof.
  unfold calls_after_xchg, handoff_calls, abort_calls. rewrite Hnptl.
  destruct (prev =? 0) eqn:E.
  - apply Z.eqb_eq in E. intros H _.
    do 8 (destruct k as [|k];
          [cbn in H; injection H as <- <-; cbn;
           repeat split; try discriminate; try reflexivity; try congruence;
           try (intros; lia)|]).
    cbn in H. destruct k; discriminate.
  - apply Z.eqb_neq in E. intros H Hf. specialize (Hf E).
    do 12 (destruct k as [|k];
           [cbn in H; injection H as <- <-; cbn in Hf; subst f; cbn;
            repeat split; try discriminate; try reflexivity; try congruence;
            try (intros; lia); try (intros; right; reflexivity);
            try (intros; left; lia)|]).
    cbn in H. destruct k; discriminate.
Qed.

Lemma nth_error_unique (l : list Z) i j x :
  NoDup l -> nth_error l i = Some x -> nth_error l j = Some x -> i = j.
Proof.
  intros Hnd Hi Hj. apply (proj1 (NoDup_nth_error l) Hnd).
  - apply nth_error_Some. congruence.
  - congruence.
Qed.

Lemma inv_exit_call s teb free_teb e rest :
  u_phase (sys_units s teb) = Exiting free_teb (e :: rest) ->
  enabled (sys_units s) free_teb e = true ->
  handoff_inv cfg s ->
  let us := reclaim (sys_units s) free_teb e in
  handoff_inv cfg
    (mkSystem (sys_shared s)
       (upd us teb (set_phase (advance true (Exiting free_teb rest) e) (us teb)))).
Proof.
  intros Hph Hen (l & Hnd & Hslot & Hch & Hhd & Hout) us.
  destruct (In_dec Z.eq_dec teb l) as [Hin|Hnin];
    [|destruct (Hout teb Hnin) as [_ Ho]; rewrite Hph in Ho; contradiction].
  apply In_nth_error in Hin. destruct Hin as [i Hi].
  destruct (Hch i teb Hi) as [Hz Hl]. unfold link in Hl. rewrite Hph in Hl.
  destruct Hl as (Hprev & ft & t & st & k & Hrest & _ & Hfl).
  set (prev := nth (S i) l 0) in *. subst free_teb.
  destruct (@call_cases prev ft t st k e rest (flags_of (sys_units s prev))
              (eq_sym Hrest) (fun H => proj1 (Hfl H))) as [Hzero Hcase].
  set (us' := upd us teb (set_phase (advance true (Exiting prev rest) e) (us teb))).
  assert (Hpin : prev <> 0 -> nth_error l (S i) = Some prev).
  { intros Hne. apply nth_error_of_nth. exact Hne. }
  assert (Hpt : prev <> teb).
  { intros E. assert (Hne : prev <> 0) by congruence.
    specialize (Hpin Hne). rewrite E in Hpin.
    pose proof (@nth_error_unique l (S i) i teb Hnd Hpin Hi). lia. }
  assert (F0 : forall y, u_phase (sys_units s y) = Exited true ->
                         u_phase (us' y) = Exited true).
  { intros y Hy. subst us'. destruct (Z.eq_dec y teb) as [->|Hne].
    - congruence.
    - rewrite upd_other by assumption. subst us. now rewrite reclaim_phase. }
  assert (F1 : forall y, y <> prev \/ prev = 0 ->
                         flags_of (us' y) = flags_of (sys_units s y)).
  { intros y Hy. subst us'. destruct (Z.eq_dec y teb) as [->|Hne].
    - rewrite upd_same, flags_of_set_phase. subst us.
      now rewrite reclaim_other by congruence.
    - rewrite upd_other by assumption. subst us.
      destruct Hy as [Hy|Hy].
      + now rewrite reclaim_other.
      + now rewrite Hzero. }
  assert (F2 : forall y, y <> teb -> u_phase (us' y) = u_phase (sys_units s y)).
  { intros y Hy. subst us'. rewrite upd_other by assumption. subst us.
    apply reclaim_phase. }
  exists l. cbn [sys_shared sys_units]. fold us'.
  split; [assumption|]. split; [assumption|]. split; [|split].
  - intros j x Hj. destruct (Nat.eq_dec j i) as [->|Hji].
    + assert (x = teb) by congruence. subst x. split; [assumption|].
      fold prev. unfold link. unfold us' at 1. rewrite upd_same.
      cbn [u_phase set_phase]. rewrite advance_eq.
      destruct (is_pthread_exit e) eqn:Epe.
      * intros Hne. destruct (Hcase Hne) as [Hf Hk]. split.
        -- unfold us'. rewrite upd_other by assumption. unfold us.
           rewrite reclaim_flags. destruct e; try discriminate. exact Hf.
        -- apply F0. apply (proj2 (Hfl Hne) Hk).
      * destruct Hcase as [Hr Hnew]. split; [reflexivity|].
        exists ft, t, st, (S k). split; [|split; [assumption|]].
        -- symmetry. apply skipn_cons_S with (x := e). now symmetry.
        -- intros Hne. destruct (Hnew Hne) as [Hnf Hjn]. split.
           ++ unfold us'. rewrite upd_other by assumption. unfold us.
              rewrite reclaim_flags. exact Hnf.
           ++ intros Hk. apply F0. destruct (Hjn Hk) as [Hk2|Hjoin].
              ** apply (proj2 (Hfl Hne) Hk2).
              ** destruct e; try discriminate. cbn in Hen.
                 assert (Hin : In prev l)
                   by (eapply nth_error_In; apply (Hpin Hne)).
                 destruct (@chain_member cfg _ l prev Hch Hin)
                   as [[_ (f0 & r0 & E)] | [_ E]]; rewrite E in Hen;
                   [discriminate | exact E].
    + assert (Hx : x <> teb).
      { intros ->. apply Hji. apply (@nth_error_unique l j i teb Hnd Hj Hi). }
      destruct (Hch j x Hj) as [Hxz Hlx]. split; [assumption|].
      apply link_stable with (us := sys_units s); auto.
      intros Hne. apply F1. left. intros E.
      apply Hji. assert (S j = S i); [|lia].
      apply (@nth_error_unique l (S j) (S i) prev Hnd).
      * rewrite <- E. now apply nth_error_of_nth.
      * apply Hpin. congruence.
  - rewrite F1; [assumption|].
    destruct (Z.eq_dec prev 0) as [Hp0|Hp0]; [now right | left].
    intros E. specialize (Hpin Hp0).
    assert (H0 : nth_error l 0 = Some prev).
    { destruct l as [|y l']; [destruct i; discriminate|]. cbn in E |- *. congruence. }
    pose proof (@nth_error_unique l 0%nat (S i) prev Hnd H0 Hpin). lia.
  - intros y Hy. destruct (Hout y Hy) as [Hf Ho].
    assert (Hyt : y <> teb).
    { intros ->. apply Hy. eapply nth_error_In; eauto. }
    split.
    + rewrite F1; [assumption|].
      destruct (Z.eq_dec prev 0) as [Hp0|Hp0]; [now right | left].
      intros ->. apply Hy. eapply nth_error_In. apply (Hpin Hp0).
    + now rewrite F2.
Qed.

Lemma inv_abort s teb p :
  match u_phase (sys_units s teb) with
  | Running | Aborting _ => True
  | _ => False
  end ->
  match p with
  | Aborting _ | Exited false => True
  | _ => False
  end ->
  handoff_inv cfg s ->
  handoff_inv cfg
    (mkSystem (sys_shared s)
       (upd (sys_units s) teb (set_phase p (sys_units s teb)))).
Proof.
  intros Hph Hp (l & Hnd & Hslot & Hch & Hhd & Hout).
  assert (Hnin : ~ In teb l).
  { intros Hin. destruct (@chain_member cfg _ l teb Hch Hin)
      as [[_ (f & r0 & E)] | [_ E]]; rewrite E in Hph; exact Hph. }
  exists l. cbn [sys_shared sys_units].
  split; [assumption|]. split; [assumption|]. split; [|split].
  - apply chain_ext with (us := sys_units s); auto.
    intros y Hy. rewrite upd_other; [reflexivity|]. congruence.
  - destruct (Z.eq_dec (hd 0 l) teb) as [E|E].
    + rewrite E, upd_same, flags_of_set_phase. apply (Hout teb Hnin).
    + now rewrite upd_other.
  - intros y Hy. destruct (Z.eq_dec y teb) as [->|E].
    + rewrite upd_same. split.
      * rewrite flags_of_set_phase. apply (Hout teb Hnin).
      * cbn [u_phase set_phase]. destruct p as [| | |[|]]; auto.
    + rewrite upd_other by assumption. now apply Hout.
Qed.

Lemma inv_step s s' : step cfg hst s s' -> handoff_inv cfg s -> handoff_inv cfg s'.
Proof.
  intros Hs Hinv.
  destruct Hs as [s teb st Hz Hrun | s teb ft e rest Hph Hen
                 | s teb st Hz Hrun | s teb e rest Hph].
  - now apply inv_exit_begin.
  - now apply inv_exit_call.
  - apply inv_abort; [now rewrite Hrun | exact I | assumption].
  - apply inv_abort;
      [now rewrite Hph
      | rewrite advance_eq; destruct (is_pthread_exit e); exact I
      | assumption].
Qed.

Lemma inv_reachable s : reachable cfg hst s -> handoff_inv cfg s.
Proof.
  induction 1 as [s Hi | s s' Hr IH Hs].
  - now apply inv_initial.
  - now apply (inv_step Hs).
Qed.

End HandoffInvariant.

(** In a chain, whatever made the exchange before a unit that has ended
    is reclaimed. *)
Lemma exited_settles cfg us l i a :
  chain cfg us l ->
  nth_error l i = Some a ->
  u_phase (us a) = Exited true ->
  forall d b, nth_error l (i + S d) = Some b ->
              flags_of (us b) = (true, true, true)
              /\ u_phase (us b) = Exited true.
Proof.
  intros Hc Hi Ha d. induction d as [|d IH]; intros b Hb.
  - destruct (Hc i a Hi) as [_ Hl]. unfold link in Hl. rewrite Ha in Hl.
    replace (i + 1)%nat with (S i) in Hb by lia.
    rewrite (@nth_of_nth_error Z l (S i) 0 b Hb) in Hl.
    apply Hl. destruct (Hc (S i) b Hb) as [Hz _]. exact Hz.
  - assert (Hlen : (i + S d < length l)%nat).
    { assert (i + S (S d) < length l)%nat; [|lia].
      apply nth_error_Some. congruence. }
    destruct (nth_error l (i + S d)) as [c|] eqn:Hc';
      [|apply nth_error_None in Hc'; lia].
    destruct (IH c eq_refl) as [_ Hcx].
    destruct (Hc (i + S d)%nat c Hc') as [_ Hl]. unfold link in Hl.
    rewrite Hcx in Hl.
    replace (i + S (S d))%nat with (S (i + S d)) in Hb by lia.
    rewrite (@nth_of_nth_error Z l (S (i + S d)) 0 b Hb) in Hl.
    apply Hl. destruct (Hc (S (i + S d)) b Hb) as [Hz _]. exact Hz.
Qed.

Lemma inv_at_most_one cfg s a b :
  handoff_inv cfg s ->
  exited_unreclaimed s a -> exited_unreclaimed s b -> a = b.
Proof.
  intros (l & Hnd & _ & Hch & _ & Hout) [Ha Hfa] [Hb Hfb].
  assert (Hin : forall x, u_phase (sys_units s x) = Exited true -> In x l).
  { intros x Hx. destruct (In_dec Z.eq_dec x l) as [H|H]; [exact H|].
    destruct (Hout x H) as [_ Ho]. rewrite Hx in Ho. contradiction. }
  destruct (In_nth_error l a (Hin a Ha)) as [i Hi].
  destruct (In_nth_error l b (Hin b Hb)) as [j Hj].
  destruct (lt_eq_lt_dec i j) as [[Hlt|Heq]|Hgt].
  - destruct (@exited_settles cfg _ l i a Hch Hi Ha (j - i - 1)%nat b) as [Hf _].
    { replace (i + S (j - i - 1))%nat with j by lia. exact Hj. }
    unfold flags_of in Hf. injection Hf as E1 E2 E3.
    rewrite E1, E2, E3 in Hfb. discriminate.
  - subst j. congruence.
  - destruct (@exited_settles cfg _ l j b Hch Hj Hb (i - j - 1)%nat a) as [Hf _].
    { replace (j + S (i - j - 1))%nat with i by lia. exact Hi. }
    unfold flags_of in Hf. injection Hf as E1 E2 E3.
    rewrite E1, E2, E3 in Hfa. discriminate.
Qed.

Lemma inv_no_self_join cfg s teb free_teb rest :
  handoff_inv cfg s ->
  u_phase (sys_units s teb) = Exiting free_teb rest -> free_teb <> teb.
Proof.
  intros (l & Hnd & _ & Hch & _ & Hout) Hph E. subst free_teb.
  destruct (In_dec Z.eq_dec teb l) as [Hin|Hnin];
    [|destruct (Hout teb Hnin) as [_ Ho]; rewrite Hph in Ho; contradiction].
  destruct (In_nth_error l teb Hin) as [i Hi].
  destruct (Hch i teb Hi) as [Hz Hl]. unfold link in Hl. rewrite Hph in Hl.
  destruct Hl as [Hp _].
  assert (Hs : nth_error l (S i) = Some (nth (S i) l 0))
    by (apply nth_error_of_nth; congruence).
  rewrite <- Hp in Hs.
  pose proof (@nth_error_unique l (S i) i teb Hnd Hs Hi). lia.
Qed.

(** A unit that ended through SYSDEPS_AbortThread alone was never in
    [teb_to_free]: nothing of it is ever reclaimed. *)
Remark aborted_unit_stays cfg hst s teb :
  HAVE_NPTL cfg = true ->
  (forall teb, registrar cfg (unit_regs teb) = Some teb) ->
  reachable cfg hst s ->
  u_phase (sys_units s teb) = Exited false ->
  flags_of (sys_units s teb) = (false, false, false).
Proof.
  intros Hn Hreg Hr Hph.
  destruct (@inv_reachable cfg hst Hn Hreg s Hr) as (l & _ & _ & Hch & _ & Hout).
  destruct (In_dec Z.eq_dec teb l) as [Hin|Hnin].
  - destruct (@chain_member cfg _ l teb Hch Hin)
      as [[_ (f & r0 & E)] | [_ E]]; congruence.
  - apply (Hout teb Hnin).
Qed.

Lemma play1_step cfg hst m s s' :
  play1 cfg hst m s = Some s' -> step cfg hst s s'.
Proof.
  destruct m as [teb st | teb st | teb]; unfold play1.
  - destruct (teb =? 0) eqn:Ez; [discriminate|]. apply Z.eqb_neq in Ez.
    destruct (u_phase (sys_units s teb)) eqn:Ep; try discriminate.
    intros H. injection H as <-. now apply step_exit_begin.
  - destruct (teb =? 0) eqn:Ez; [discriminate|]. apply Z.eqb_neq in Ez.
    destruct (u_phase (sys_units s teb)) eqn:Ep; try discriminate.
    intros H. injection H as <-. now apply step_abort_begin.
  - destruct (u_phase (sys_units s teb)) as [|f [|e rest]|[|e rest]|g] eqn:Ep;
      try discriminate.
    + destruct (enabled (sys_units s) f e) eqn:Ee; [|discriminate].
      intros H. injection H as <-. now apply step_exit_call.
    + intros H. injection H as <-. now apply step_abort_call.
Qed.

Lemma play_reachable cfg hst ms s s' :
  reachable cfg hst s -> play cfg hst ms s = Some s' -> reachable cfg hst s'.
Proof.
  revert s. induction ms as [|m ms IH]; intros s Hr H; cbn in H.
  - now injection H as <-.
  - destruct (play1 cfg hst m s) as [s1|] eqn:E1; [|discriminate].
    apply (IH s1); [|exact H].
    apply reachable_step with (s := s); [exact Hr|].
    apply (@play1_step cfg hst m s s1 E1).
Qed.

(** The bound is met: after the schedule above the unit at 0x30000 has
    ended and waits to be reclaimed by the unit at 0x31000, which has
    joined it and not yet freed its selector and stack. *)
Lemma one_unit_waits_to_be_reclaimed :
  exists s, play linux_nptl_build working_host example_schedule example_system
            = Some s
            /\ reachable linux_nptl_build working_host s
            /\ exited_unreclaimed s 196608
            /\ u_joined (sys_units s 196608) = true
            /\ w_teb_to_free (sys_shared s) = 200704.
Proof.
  destruct (play linux_nptl_build working_host example_schedule example_system)
    as [s|] eqn:E; [|vm_compute in E; discriminate].
  exists s. split; [reflexivity|]. split.
  - apply (@play_reachable linux_nptl_build working_host example_schedule
             example_system s); [|exact E].
    apply reachable_initial. split; reflexivity.
  - vm_compute in E. injection E as <-. vm_compute. repeat split.
Qed.

(** C2. Built with HAVE_NPTL. Every SYSDEPS_ExitThread exchanges the
    unit's own TEB into [teb_to_free] in one atomic step; when a TEB came
    out, it joins that unit's handle, frees its [%fs] selector and
    releases its stack, and only then goes on to its own end (the signal
    block, the four closes, [pthread_exit]).  In every state that units
    exiting and aborting side by side can reach, at most one unit that
    ended through SYSDEPS_ExitThread is not yet reclaimed, and no unit
    holds its own TEB as the one to join. *)
Theorem handoff_one_generation cfg hst :
  HAVE_NPTL cfg = true ->
  (forall teb, registrar cfg (unit_regs teb) = Some teb) ->
  (forall w teb status,
      registrar cfg (w_regs w) = Some teb ->
      let r := SYSDEPS_ExitThread cfg hst status w in
      let free_teb := w_teb_to_free w in
      let ft := w_tebs w free_teb in
      let t := w_tebs w teb in
      trace r
      = [Enter F_SYSDEPS_ExitThread; Ev_interlocked_xchg_ptr teb free_teb]
        ++ (if free_teb =? 0 then []
            else [Ev_TRACE; Ev_pthread_join (pthread_data ft);
                  Ev_wine_ldt_free_fs (teb_sel ft);
                  Ev_NtFreeVirtualMemory (stack_base ft) [MEM_RELEASE]])
        ++ [Ev_SIGNAL_Block; Enter F_SYSDEPS_AbortThread; Ev_SIGNAL_Block;
            Ev_close (wait_fd0 t); Ev_close (wait_fd1 t);
            Ev_close (reply_fd t); Ev_close (request_fd t);
            Ev_pthread_exit status]
      /\ w_teb_to_free (final r) = teb
      /\ out r = Stop ThreadExit)
  /\ (forall s, reachable cfg hst s ->
        (forall a b, exited_unreclaimed s a -> exited_unreclaimed s b -> a = b)
        /\ (forall teb free_teb rest,
              u_phase (sys_units s teb) = Exiting free_teb rest ->
              free_teb <> teb)).
Proof.
  intros Hn Hreg. split.
  - intros w teb status H r free_teb ft t. subst r free_teb ft t.
    rewrite (@exit_nptl_run cfg hst status w teb Hn H).
    cbn [trace final out w_teb_to_free with_teb_to_free].
    unfold handoff_calls, abort_calls. rewrite Hn.
    destruct (w_teb_to_free w =? 0); repeat split.
  - intros s Hr. pose proof (@inv_reachable cfg hst Hn Hreg s Hr) as Hinv.
    split.
    + intros a b. now apply inv_at_most_one with (cfg := cfg).
    + intros teb free_teb rest. now apply inv_no_self_join with (cfg := cfg).
Qed.

Lemma example_system_2_reachable :
  reachable linux_nptl_build working_host example_system_2.
Proof.
  apply reachable_step with (s := example_system_1).
  - apply reachable_step with (s := example_system).
    + apply reachable_initial. split; reflexivity.
    + apply (@step_exit_begin linux_nptl_build working_host example_system
               196608 0); [discriminate | reflexivity].
  - apply (@step_exit_begin linux_nptl_build working_host example_system_1
             200704 0); [discriminate | reflexivity].
Defined.

Lemma handoff_one_generation_witness :
  trace (SYSDEPS_ExitThread linux_nptl_build working_host 0
           (with_regs (unit_regs 200704) (sys_shared example_system_1)))
  = [Enter F_SYSDEPS_ExitThread; Ev_interlocked_xchg_ptr 200704 196608;
     Ev_TRACE; Ev_pthread_join 0; Ev_wine_ldt_free_fs 7;
     Ev_NtFreeVirtualMemory 131072 [MEM_RELEASE];
     Ev_SIGNAL_Block; Enter F_SYSDEPS_AbortThread; Ev_SIGNAL_Block;
     Ev_close 10; Ev_close 11; Ev_close 12; Ev_close 13; Ev_pthread_exit 0]
  /\ (forall a b, exited_unreclaimed example_system_2 a ->
                  exited_unreclaimed example_system_2 b -> a = b).
Proof.
  destruct (@handoff_one_generation linux_nptl_build working_host eq_refl
              (fun teb => eq_refl)) as [Hseq Hsys].
  split.
  - destruct (Hseq (with_regs (unit_regs 200704) (sys_shared example_system_1))
                200704 0 eq_refl) as (Ht & _).
    exact Ht.
  - apply (Hsys example_system_2 example_system_2_reachable).
Defined.

(* ================================================================== *)
(** * Further properties of the file *)

(** ** The temporary stack pool, for every value of the counter *)

(** X1. Whatever the shared counter holds, a negative value after the
    wrap-around of the LONG included, [get_temp_stack] falls through with
    the start of one of the NB_TEMP_STACKS rows of [temp_stacks]: the
    TEMP_STACK_SIZE bytes from the address it returns lie inside the
    array, and the counter it leaves is a LONG again. *)
Theorem get_temp_stack_in_array (hst : host) (w : world) :
  exists i a,
    out (@get_temp_stack hst unit w) = Next a
    /\ 0 <= i < NB_TEMP_STACKS
    /\ a = temp_stack_slot hst i
    /\ h_temp_stacks hst <= a
    /\ a + TEMP_STACK_SIZE
       <= h_temp_stacks hst + NB_TEMP_STACKS * TEMP_STACK_SIZE
    /\ - 2 ^ 31 <= w_next_temp_stack (final (@get_temp_stack hst unit w)) < 2 ^ 31.
Proof.
  rewrite get_temp_stack_run. cbn [out final w_next_temp_stack with_next_temp_stack].
  exists (wrap_unsigned (w_next_temp_stack w) mod NB_TEMP_STACKS).
  eexists. split; [reflexivity|].
  unfold temp_stack_slot, NB_TEMP_STACKS, TEMP_STACK_SIZE, wrap_signed.
  pose proof (Z.mod_pos_bound (wrap_unsigned (w_next_temp_stack w)) 8 ltac:(lia)).
  pose proof (Z.mod_pos_bound (w_next_temp_stack w + 1 + 2 ^ 31) (2 ^ 32) ltac:(lia)).
  repeat split; lia.
Qed.

(** X2. Two calls of [get_temp_stack], number [i] and number [j] in the
    order of their fetch-and-add, get the same stack when [i] and [j]
    are congruent modulo NB_TEMP_STACKS, and otherwise two stacks whose
    TEMP_STACK_SIZE bytes do not overlap. *)
Theorem temp_stacks_shared_or_apart (hst : host) (i j : nat) (w : world) a b :
  nth_temp_stack hst i w = Some a ->
  nth_temp_stack hst j w = Some b ->
  (Z.of_nat i mod NB_TEMP_STACKS = Z.of_nat j mod NB_TEMP_STACKS -> a = b)
  /\ (Z.of_nat i mod NB_TEMP_STACKS <> Z.of_nat j mod NB_TEMP_STACKS ->
      a + TEMP_STACK_SIZE <= b \/ b + TEMP_STACK_SIZE <= a).
Proof.
  rewrite !nth_temp_stack_eq. intros Ha Hb.
  injection Ha as <-. injection Hb as <-.
  unfold temp_stack_slot, NB_TEMP_STACKS, TEMP_STACK_SIZE.
  split; intros H.
  - f_equal. f_equal.
    rewrite (Z.add_mod (w_next_temp_stack w) (Z.of_nat i)) by lia.
    rewrite (Z.add_mod (w_next_temp_stack w) (Z.of_nat j)) by lia.
    now rewrite H.
  - assert (Hd : (w_next_temp_stack w + Z.of_nat i) mod 8
                 <> (w_next_temp_stack w + Z.of_nat j) mod 8).
    { intros E. apply H.
      assert (E' : (w_next_temp_stack w + Z.of_nat i - w_next_temp_stack w) mod 8
                   = (w_next_temp_stack w + Z.of_nat j - w_next_temp_stack w) mod 8).
      { rewrite (Zminus_mod (w_next_temp_stack w + Z.of_nat i)).
        rewrite (Zminus_mod (w_next_temp_stack w + Z.of_nat j)).
        now rewrite E. }
      replace (w_next_temp_stack w + Z.of_nat i - w_next_temp_stack w)
        with (Z.of_nat i) in E' by lia.
      replace (w_next_temp_stack w + Z.of_nat j - w_next_temp_stack w)
        with (Z.of_nat j) in E' by lia.
      exact E'. }
    pose proof (Z.mod_pos_bound (w_next_temp_stack w + Z.of_nat i) 8 ltac:(lia)).
    pose proof (Z.mod_pos_bound (w_next_temp_stack w + Z.of_nat j) 8 ltac:(lia)).
    lia.
Qed.

Lemma temp_stacks_shared_or_apart_witness :
  (524288 + 3 * 1024 = 524288 + 3 * 1024)
  /\ (524288 + 3 * 1024 + TEMP_STACK_SIZE <= 524288 + 5 * 1024
      \/ 524288 + 5 * 1024 + TEMP_STACK_SIZE <= 524288 + 3 * 1024).
Proof.
  split.
  - apply (@temp_stacks_shared_or_apart working_host 3 19 example_world
             (524288 + 3 * 1024) (524288 + 3 * 1024) eq_refl eq_refl).
    reflexivity.
  - apply (@temp_stacks_shared_or_apart working_host 3 5 example_world
             (524288 + 3 * 1024) (524288 + 5 * 1024) eq_refl eq_refl).
    discriminate.
Defined.

(** ** SYSDEPS_SetCurThread and NtCurrentTeb *)

(** All that SYSDEPS_SetCurThread leaves behind. *)
Lemma set_cur_thread_final cfg hst teb w :
  final (SYSDEPS_SetCurThread cfg hst teb w)
  = mkWorld (registered cfg teb (teb_sel (w_tebs w teb)) (w_regs w))
            (if HAVE_NPTL cfg
             then upd (w_tebs w) teb
                      (set_pthread_data (h_pthread_self hst) (w_tebs w teb))
             else w_tebs w)
            (w_infos w) (w_static_errno w) (w_static_h_errno w)
            (w_next_temp_stack w) (w_teb_to_free w) (w_errno_location_ptr w)
            (w_h_errno_location_ptr w).
Proof.
  unfold SYSDEPS_SetCurThread, wine_ldt_init_fs, _lwp_setprivate, pthread_self,
    get_teb, set_teb, set_regs, when, registered.
  destruct w as [r tebs infos e he n f p hp].
  destruct (def_i386 cfg), (def_powerpc cfg), (def_APPLE cfg),
    (HAVE__LWP_CREATE cfg), (HAVE_NPTL cfg);
    cbv zeta; run I; finish_run; unfold with_regs, with_tebs; world_simpl;
    try reflexivity; destruct r; reflexivity.
Qed.

(** X3. NtCurrentTeb, called after SYSDEPS_SetCurThread( teb ), reads
    [teb] for every TEB that holds its own address in its self pointer
    exactly on the builds where the two [#if] chains choose the same
    place: i386 with gcc or the Microsoft compiler, PowerPC without
    HAVE__LWP_CREATE, and the other architectures with HAVE__LWP_CREATE.
    On every other build some such TEB is not read back (PowerPC with
    HAVE__LWP_CREATE reads the LWP private pointer, which was not
    written), or NtCurrentTeb does not exist.  On i386 what is read is
    the word at [%fs:0x18] of the segment that was installed, the self
    pointer of the TEB, which SYSDEPS_SetCurThread does not write:
    NtCurrentTeb gives whatever the TEB holds there. *)
Theorem registrar_round_trip cfg hst :
  (registrar_agrees cfg = true
   <-> (forall teb w self,
          self teb = teb ->
          NtCurrentTeb_reads cfg self
            (w_regs (final (SYSDEPS_SetCurThread cfg hst teb w))) = Some teb))
  /\ (def_i386 cfg && (def_GNUC cfg || def_MSC_VER cfg) = true ->
      forall teb w self,
        NtCurrentTeb_reads cfg self
          (w_regs (final (SYSDEPS_SetCurThread cfg hst teb w)))
        = Some (self teb)).
Proof.
  split; [split|].
  - intros Ha teb w self Hself.
    now apply set_cur_thread_makes_current.
  - intros H. specialize (H 1 blank_world (fun a => a) eq_refl).
    rewrite set_cur_thread_final in H. cbn [w_regs] in H.
    unfold registrar_agrees. unfold NtCurrentTeb_reads, registered in H.
    destruct (def_i386 cfg), (def_GNUC cfg), (def_MSC_VER cfg),
      (def_powerpc cfg), (HAVE__LWP_CREATE cfg), (def_APPLE cfg);
      cbn in H |- *; try discriminate; reflexivity.
  - intros Hi teb w self. rewrite set_cur_thread_final. cbn [w_regs].
    unfold NtCurrentTeb_reads, registered.
    destruct (def_i386 cfg), (def_GNUC cfg), (def_MSC_VER cfg);
      cbn in Hi |- *; try discriminate; reflexivity.
Qed.

Lemma registrar_round_trip_witness :
  NtCurrentTeb_reads linux_clone_build (fun a => a)
    (w_regs (final (SYSDEPS_SetCurThread linux_clone_build working_host 196608
                      blank_world))) = Some 196608
  /\ NtCurrentTeb_reads linux_clone_build (fun _ => 0)
       (w_regs (final (SYSDEPS_SetCurThread linux_clone_build working_host 196608
                         blank_world))) = Some 0.
Proof.
  destruct (@registrar_round_trip linux_clone_build working_host) as ([H1 _] & H2).
  split.
  - apply (H1 eq_refl 196608 blank_world (fun a => a) eq_refl).
  - apply (H2 eq_refl 196608 blank_world (fun _ => 0)).
Defined.

(** X4. SYSDEPS_SetCurThread returns to its caller and touches nothing
    but the place of the registrar and, with HAVE_NPTL, the field
    [pthread_data] of the TEB it is given, which gets the answer of
    [pthread_self]: the stack pointer, every other TEB, the other fields
    of this TEB, the cleanup-infos and the statics of the file are as
    before. *)
Theorem set_cur_thread_frame cfg hst teb w :
  let r := SYSDEPS_SetCurThread cfg hst teb w in
  let w' := final r in
  out r = Next tt
  /\ r_sp (w_regs w') = r_sp (w_regs w)
  /\ w_tebs w' teb
     = (if HAVE_NPTL cfg
        then set_pthread_data (h_pthread_self hst) (w_tebs w teb)
        else w_tebs w teb)
  /\ (forall other, other <> teb -> w_tebs w' other = w_tebs w other)
  /\ w_infos w' = w_infos w
  /\ w_static_errno w' = w_static_errno w
  /\ w_static_h_errno w' = w_static_h_errno w
  /\ w_next_temp_stack w' = w_next_temp_stack w
  /\ w_teb_to_free w' = w_teb_to_free w
  /\ w_errno_location_ptr w' = w_errno_location_ptr w
  /\ w_h_errno_location_ptr w' = w_h_errno_location_ptr w.
Proof.
  intros r w'. subst r w'.
  destruct (@set_cur_thread_run cfg hst teb w) as (Ho & _).
  rewrite set_cur_thread_final. world_simpl.
  split; [exact Ho|]. split.
  - unfold registered.
    destruct (def_i386 cfg), (def_powerpc cfg), (def_APPLE cfg),
      (HAVE__LWP_CREATE cfg); reflexivity.
  - split.
    + destruct (HAVE_NPTL cfg); [apply upd_same | reflexivity].
    + split; [|repeat split].
      intros other Hne. destruct (HAVE_NPTL cfg); [|reflexivity].
      now apply upd_other.
Qed.

(** ** SYSDEPS_SpawnThread *)


(** X5. Of the creation calls the build has, SYSDEPS_SpawnThread makes
    one: [pthread_create] with HAVE_NPTL, else [clone] with HAVE_CLONE,
    else (no HAVE_RFORK) [_lwp_create] with HAVE__LWP_CREATE.  The new
    unit gets the region from [stack_base] to [stack_top] of the TEB as
    its stack ([clone] is given the top), and the TEB as its argument.
    The function returns 0 when the call succeeded and -1 when it
    failed; with no backend it logs the stub message and returns -1.
    Nothing of the caller's registers or of the memory changes. *)
Theorem spawn_thread_backend cfg hst teb w :
  HAVE_NPTL cfg || HAVE_CLONE cfg || negb (HAVE_RFORK cfg) = true ->
  let r := SYSDEPS_SpawnThread cfg hst teb w in
  let t := w_tebs w teb in
  trace r
  = Enter F_SYSDEPS_SpawnThread
    :: (if HAVE_NPTL cfg then
          [Ev_pthread_attr_init;
           Ev_pthread_attr_setstack (stack_base t) (stack_top t - stack_base t);
           Ev_pthread_create teb]
        else if HAVE_CLONE cfg then
          [Ev_clone (stack_top t) teb [CLONE_VM; CLONE_FS; CLONE_FILES; SIGCHLD]]
        else if HAVE__LWP_CREATE cfg then
          [Ev_lwp_makecontext teb (stack_base t) (stack_top t - stack_base t);
           Ev_lwp_create]
        else [Ev_FIXME])
  /\ out r
     = Return (if HAVE_NPTL cfg then
                 if h_pthread_create hst =? 0 then 0 else -1
               else if HAVE_CLONE cfg then
                 if h_clone hst <? 0 then -1 else 0
               else if HAVE__LWP_CREATE cfg then
                 if h_lwp_create hst =? 0 then 0 else -1
               else -1)
  /\ final r = w.
Proof.
  intros H r t. subst r t. unfold SYSDEPS_SpawnThread, get_teb.
  destruct (HAVE_NPTL cfg) eqn:E1.
  - destruct (h_pthread_create hst =? 0); cbn [negb]; run I; finish_run;
      repeat split.
  - destruct (HAVE_CLONE cfg) eqn:E2.
    + destruct (h_clone hst <? 0); cbn [negb]; run I; finish_run; repeat split.
    + destruct (HAVE_RFORK cfg) eqn:E3; [discriminate H|].
      destruct (HAVE__LWP_CREATE cfg).
      * destruct (h_lwp_create hst =? 0); cbn [negb]; run I; finish_run;
          repeat split.
      * run I; finish_run; repeat split.
Qed.

Lemma spawn_thread_backend_witness :
  trace (SYSDEPS_SpawnThread linux_nptl_build failing_host 196608 example_world)
  = [Enter F_SYSDEPS_SpawnThread; Ev_pthread_attr_init;
     Ev_pthread_attr_setstack 131072 4096; Ev_pthread_create 196608]
  /\ out (SYSDEPS_SpawnThread linux_nptl_build failing_host 196608 example_world)
     = Return (-1)
  /\ final (SYSDEPS_SpawnThread linux_nptl_build failing_host 196608 example_world)
     = example_world.
Proof.
  exact (@spawn_thread_backend linux_nptl_build failing_host 196608 example_world
           eq_refl).
Defined.



(** ** SYSDEPS_SwitchToThreadStack *)

Lemma bind_call_run {R B} (m : M unit unit) (k : unit -> M R B) w :
  bind (call m) k w
  = if comes_back (out (m w)) then
      mkResult (trace (m w) ++ trace (k tt (final (m w))))
               (final (k tt (final (m w)))) (out (k tt (final (m w))))
    else
      mkResult (trace (m w)) (final (m w))
               match out (m w) with Stop s => Stop s | _ => Stop Elsewhere end.
Proof.
  unfold bind, call. cbn [out trace final].
  destruct (out (m w)); reflexivity.
Qed.

Lemma with_regs_twice r r' w : with_regs r (with_regs r' w) = with_regs r w.
Proof. reflexivity. Qed.

(** X7. The two bodies that switch, i386 with gcc and sparc with gcc,
    for any function handed over: the stack pointer is loaded from
    [stack_top] of the current TEB, the function is entered on that stack
    (on i386 8 below the top, after the push of the argument and of the
    return address) with memory as the caller left it, and when the
    function returns the unit runs into the trap instruction; the TEB is
    not written by the switch. *)
Theorem switcher_loads_stack cfg v f func arg w teb :
  registrar cfg (w_regs w) = Some teb ->
  select_switcher cfg = Some v ->
  loads_stack_pointer v = true ->
  let sp := cleanup_sp v (stack_top (w_tebs w teb)) (r_sp (w_regs w)) in
  let rg := w_regs w in
  let w1 := with_regs (mkRegs sp (r_fs_sel rg) (r_fs_base rg) (r_r2 rg)
                              (r_r13 rg) (r_lwp_private rg)) w in
  let r := SYSDEPS_SwitchToThreadStack cfg f func arg w in
  trace r
  = Enter F_SYSDEPS_SwitchToThreadStack :: Ev_run_on_stack f sp
    :: trace (func arg w1)
    ++ (if comes_back (out (func arg w1))
        then [match v with sw_sparc_gnuc => Ev_ta1 | _ => Ev_int3 end]
        else [])
  /\ out r = (if comes_back (out (func arg w1)) then Stop Breakpoint
              else out (func arg w1))
  /\ w_tebs (final r) = w_tebs (final (func arg w1)).
Proof.
  intros H Hs Hv sp rg w1 r. subst sp rg w1 r.
  unfold SYSDEPS_SwitchToThreadStack. rewrite Hs.
  destruct v; try discriminate Hv; clear Hv.
  - destruct (select_i386_gnuc _ Hs) as [Hi Hg].
    assert (Hfs : r_fs_base (w_regs w) = teb).
    { unfold registrar, NtCurrentTeb_reads in H. rewrite Hi, Hg in H. cbn in H. congruence. }
    subst teb.
    unfold switch_body, enter_on_stack, set_sp, set_regs, get_teb.
    run H. rewrite bind_call_run. unfold cleanup_sp.
    rewrite !with_regs_twice.
    replace (stack_top (w_tebs w (r_fs_base (w_regs w))) - 4 - 4)
      with (stack_top (w_tebs w (r_fs_base (w_regs w))) - 8) by lia.
    destruct (comes_back (out (func arg _))) eqn:Ec.
    + run H. finish_run. repeat split.
    + cbn [cons_event trace final out]. rewrite app_nil_r.
      repeat split.
      destruct (out (func arg _)); try discriminate Ec. reflexivity.
  - unfold switch_body, enter_on_stack, set_sp, set_regs, get_teb.
    run H. rewrite bind_call_run. unfold cleanup_sp.
    destruct (comes_back (out (func arg _))) eqn:Ec.
    + run H. finish_run. repeat split.
    + cbn [cons_event trace final out]. rewrite app_nil_r.
      repeat split.
      destruct (out (func arg _)); try discriminate Ec. reflexivity.
Qed.

Lemma switcher_loads_stack_witness :
  trace (SYSDEPS_SwitchToThreadStack linux_clone_build (F_outside 0)
           returns_at_once 0 example_world)
  = [Enter F_SYSDEPS_SwitchToThreadStack; Ev_run_on_stack (F_outside 0) 135160;
     Ev_int3]
  /\ out (SYSDEPS_SwitchToThreadStack linux_clone_build (F_outside 0)
            returns_at_once 0 example_world) = Stop Breakpoint.
Proof.
  destruct (@switcher_loads_stack linux_clone_build sw_i386_gnuc (F_outside 0)
              returns_at_once 0 example_world 196608 eq_refl eq_refl eq_refl)
    as (Ht & Ho & _).
  split; [exact Ht | exact Ho].
Defined.

(** X8. The three bodies written in assembly that do not switch, the
    two for PowerPC and the one for the Microsoft compiler: each stores
    the stack pointer it was entered with into the word at offset 4 of
    the block its base register points to ([r13], [%fs]), the place of
    [stack_top], instead of loading the stack pointer from there.  On
    PowerPC the function is then entered on the caller's stack, and what
    the function leaves is what the switcher leaves: it returns to the
    switcher's caller when the function returns.  With the Microsoft
    compiler the function is not entered. *)
Theorem switcher_stores_stack cfg v f func arg w :
  select_switcher cfg = Some v ->
  loads_stack_pointer v = false ->
  v <> sw_generic ->
  let base := match v with
              | sw_i386_msvc => r_fs_base (w_regs w)
              | _ => r_r13 (w_regs w)
              end in
  let w1 := with_tebs (upd (w_tebs w) base
                           (set_stack_top (r_sp (w_regs w)) (w_tebs w base))) w in
  let r := SYSDEPS_SwitchToThreadStack cfg f func arg w in
  stack_top (w_tebs w1 base) = r_sp (w_regs w)
  /\ match v with
     | sw_i386_msvc =>
         trace r = [Enter F_SYSDEPS_SwitchToThreadStack]
         /\ out r = Stop Elsewhere
         /\ w_tebs (final r) = w_tebs w1
     | _ =>
         trace r
         = Enter F_SYSDEPS_SwitchToThreadStack
           :: Ev_run_on_stack f (r_sp (w_regs w)) :: trace (func arg w1)
         /\ out r = (if comes_back (out (func arg w1)) then Return tt
                     else out (func arg w1))
         /\ final r = final (func arg w1)
     end.
Proof.
  intros Hs Hv Hg base w1 r. subst base w1 r.
  unfold SYSDEPS_SwitchToThreadStack. rewrite Hs.
  split; [cbn [w_tebs with_tebs]; now rewrite upd_same|].
  destruct v; try discriminate Hv; try congruence; clear Hv Hg.
  - unfold switch_body, enter_on_stack, set_sp, set_regs, set_teb.
    run I. finish_run. world_simpl. repeat split.
  - unfold switch_body, enter_on_stack, set_sp, set_regs, set_teb.
    run I. rewrite bind_tail_jump_run. cbn [cons_event trace final out].
    repeat split.
    destruct (out (func arg _)); reflexivity.
  - unfold switch_body, enter_on_stack, set_sp, set_regs, set_teb.
    run I. rewrite bind_tail_jump_run. cbn [cons_event trace final out].
    repeat split.
    destruct (out (func arg _)); reflexivity.
Qed.

Lemma switcher_stores_stack_witness :
  stack_top (w_tebs (final (SYSDEPS_SwitchToThreadStack darwin_powerpc_build
                              (F_outside 0) returns_at_once 0 example_world))
                    196608) = 135000
  /\ out (SYSDEPS_SwitchToThreadStack darwin_powerpc_build (F_outside 0)
            returns_at_once 0 example_world) = Return tt.
Proof.
  destruct (@switcher_stores_stack darwin_powerpc_build sw_powerpc_apple
              (F_outside 0) returns_at_once 0 example_world eq_refl eq_refl
              ltac:(discriminate))
    as (Hst & _ & Ho & Hf).
  split; [rewrite Hf; exact Hst | exact Ho].
Defined.

(** ** Graceful exit, put together with what comes before it *)

Lemma set_cur_thread_trace cfg hst teb w :
  trace (SYSDEPS_SetCurThread cfg hst teb w)
  = Enter F_SYSDEPS_SetCurThread
    :: (if def_i386 cfg then
          [Ev_wine_ldt_init_fs (teb_sel (w_tebs w teb)) teb 4095
             [WINE_LDT_FLAGS_DATA; WINE_LDT_FLAGS_32BIT]]
        else if def_powerpc cfg then []
        else if HAVE__LWP_CREATE cfg then [Ev_lwp_setprivate teb]
        else [])
    ++ (if HAVE_NPTL cfg then [Ev_pthread_self] else []).
Proof.
  unfold SYSDEPS_SetCurThread, wine_ldt_init_fs, _lwp_setprivate, pthread_self,
    get_teb, set_teb, set_regs, when.
  destruct (def_i386 cfg), (def_powerpc cfg), (def_APPLE cfg),
    (HAVE__LWP_CREATE cfg), (HAVE_NPTL cfg);
    cbv zeta; run I; finish_run; reflexivity.
Qed.

(** X9. Without HAVE_NPTL, with a body of the switcher that enters
    [cleanup_thread] (every body but the one for the Microsoft
    compiler), a graceful exit gives memory back twice, in this order:
    NtFreeVirtualMemory on [stack_base] of the TEB, then [munmap] from
    the allocation base that NtQueryVirtualMemory reported for
    [stack_top].  The length is the distance from that base to the end
    of the region of [stack_top], kept in an [int] and converted to
    [size_t] for the call, that is, taken modulo 2^32: [munmap] never
    gets a negative length, and for every distance below 2^32 the
    unmapped range ends where the region of [stack_top] ends. *)
Theorem exit_unmaps_the_allocation cfg hst status w teb v :
  HAVE_NPTL cfg = false ->
  registrar cfg (w_regs w) = Some teb ->
  select_switcher cfg = Some v ->
  v <> sw_i386_msvc ->
  let t := w_tebs w teb in
  let mi := h_query hst (stack_top t) in
  let len := RegionSize mi + (stack_top t - AllocationBase mi) in
  filter releases_stack (trace (SYSDEPS_ExitThread cfg hst status w))
  = [Ev_NtFreeVirtualMemory (stack_base t) [MEM_RELEASE; MEM_SYSTEM];
     Ev_munmap (AllocationBase mi) (len mod 2 ^ 32)]
  /\ 0 <= len mod 2 ^ 32 < 2 ^ 32
  /\ (0 <= len < 2 ^ 32 ->
      AllocationBase mi + len mod 2 ^ 32 = stack_top t + RegionSize mi).
Proof.
  intros Hn H Hs Hv t mi len.
  destruct (@exit_plain_entered_run cfg hst status w teb v Hn H Hs Hv) as (Ht & _).
  rewrite Ht. split; [|split].
  - unfold detach_calls, cleanup_calls, built_info.
    cbn [filter releases_stack app info_stack_base info_stack_size].
    fold t mi len. rewrite wrap_unsigned_signed. unfold wrap_unsigned.
    destruct (HAVE__LWP_CREATE cfg); reflexivity.
  - apply Z.mod_pos_bound. lia.
  - intros Hl. rewrite Z.mod_small by lia. subst len. lia.
Qed.

Lemma exit_unmaps_the_allocation_witness :
  filter releases_stack
    (trace (SYSDEPS_ExitThread linux_clone_build working_host 3 example_world))
  = [Ev_NtFreeVirtualMemory 131072 [MEM_RELEASE; MEM_SYSTEM];
     Ev_munmap 131072 6144].
Proof.
  destruct (@exit_unmaps_the_allocation linux_clone_build working_host 3
              example_world 196608 sw_i386_gnuc eq_refl eq_refl eq_refl)
    as (Ht & _); [discriminate|].
  exact Ht.
Defined.

(** X10. On i386 with gcc and without HAVE_NPTL, a unit that made
    itself current with SYSDEPS_SetCurThread and then exits gracefully
    frees the selector that SYSDEPS_SetCurThread installed, the
    [teb_sel] of its TEB: [cleanup_thread] asks [%fs] for it and not the
    TEB.  These are all the calls on [%fs] the unit makes in the two
    functions. *)
Theorem exit_frees_installed_selector cfg hst teb status w :
  HAVE_NPTL cfg = false -> def_i386 cfg = true -> def_GNUC cfg = true ->
  let r1 := SYSDEPS_SetCurThread cfg hst teb w in
  let r2 := SYSDEPS_ExitThread cfg hst status (final r1) in
  let sel := teb_sel (w_tebs w teb) in
  filter is_fs_call (trace r1 ++ trace r2)
  = [Ev_wine_ldt_init_fs sel teb 4095 [WINE_LDT_FLAGS_DATA; WINE_LDT_FLAGS_32BIT];
     Ev_wine_get_fs; Ev_wine_ldt_free_fs sel].
Proof.
  intros Hn Hi Hg r1 r2 sel. subst r1 r2 sel.
  assert (Hr : registrar cfg (w_regs (final (SYSDEPS_SetCurThread cfg hst teb w)))
               = Some teb).
  { rewrite set_cur_thread_final. cbn [w_regs]. unfold registrar, NtCurrentTeb_reads, registered.
    now rewrite Hi, Hg. }
  assert (Hs : select_switcher cfg = Some sw_i386_gnuc).
  { unfold select_switcher. now rewrite Hi, Hg. }
  destruct (@exit_plain_run cfg hst status _ teb sw_i386_gnuc Hn Hr Hs
              (or_introl eq_refl)) as (Ht & _).
  rewrite Ht, set_cur_thread_trace, Hi, Hn. rewrite set_cur_thread_final.
  cbn [w_regs]. unfold registered. rewrite Hi. cbn [r_fs_sel].
  unfold detach_calls, cleanup_calls.
  cbn [filter is_fs_call app].
  destruct (HAVE__LWP_CREATE cfg); reflexivity.
Qed.

Lemma exit_frees_installed_selector_witness :
  filter is_fs_call
    (trace (SYSDEPS_SetCurThread linux_clone_build working_host 196608 blank_world)
     ++ trace (SYSDEPS_ExitThread linux_clone_build working_host 3
                 (final (SYSDEPS_SetCurThread linux_clone_build working_host
                           196608 blank_world))))
  = [Ev_wine_ldt_init_fs 7 196608 4095 [WINE_LDT_FLAGS_DATA; WINE_LDT_FLAGS_32BIT];
     Ev_wine_get_fs; Ev_wine_ldt_free_fs 7].
Proof.
  exact (@exit_frees_installed_selector linux_clone_build working_host 196608 3
           blank_world eq_refl eq_refl eq_refl).
Defined.

Lemma registrar_after_set_cur_thread cfg hst teb w :
  registrar_agrees cfg = true ->
  registrar cfg (w_regs (final (SYSDEPS_SetCurThread cfg hst teb w))) = Some teb.
Proof.
  intros Ha. rewrite set_cur_thread_final. cbn [w_regs].
  unfold registrar_agrees in Ha. unfold registrar, NtCurrentTeb_reads, registered.
  destruct (def_i386 cfg), (def_GNUC cfg), (def_MSC_VER cfg),
    (def_powerpc cfg), (HAVE__LWP_CREATE cfg), (def_APPLE cfg);
    cbn in Ha |- *; try discriminate; reflexivity.
Qed.

(** X11. With HAVE_NPTL, on a build whose registrar reads what it
    wrote: a unit makes itself current on the TEB [a] and exits
    gracefully; the next unit to exit gracefully, from whatever TEB [b],
    gets [a] out of [teb_to_free], joins the handle that [pthread_self]
    gave to the first unit in SYSDEPS_SetCurThread, frees the selector
    [teb_sel] of [a] and releases [stack_base] of [a], and leaves [b]
    in [teb_to_free]. *)
Theorem next_exit_reclaims_previous cfg hst a b sa sb w rb :
  HAVE_NPTL cfg = true ->
  registrar_agrees cfg = true ->
  a <> 0 ->
  registrar cfg rb = Some b ->
  let w1 := final (SYSDEPS_SetCurThread cfg hst a w) in
  let w2 := final (SYSDEPS_ExitThread cfg hst sa w1) in
  let r := SYSDEPS_ExitThread cfg hst sb (seen_by rb w2) in
  trace r
  = [Enter F_SYSDEPS_ExitThread; Ev_interlocked_xchg_ptr b a; Ev_TRACE;
     Ev_pthread_join (h_pthread_self hst);
     Ev_wine_ldt_free_fs (teb_sel (w_tebs w a));
     Ev_NtFreeVirtualMemory (stack_base (w_tebs w a)) [MEM_RELEASE];
     Ev_SIGNAL_Block]
    ++ abort_calls cfg (w_tebs w2 b) sb
  /\ w_teb_to_free (final r) = b.
Proof.
  intros Hn Ha Hnz Hb w1 w2 r. subst r w2 w1.
  pose proof (@registrar_after_set_cur_thread cfg hst a w Ha) as Hra.
  rewrite (@exit_nptl_run cfg hst sa _ a Hn Hra). cbn [final].
  unfold seen_by.
  rewrite (@exit_nptl_run cfg hst sb
             (with_regs rb (with_teb_to_free a
                (final (SYSDEPS_SetCurThread cfg hst a w)))) b Hn Hb).
  cbn [trace final]. world_simpl.
  rewrite set_cur_thread_final. cbn [w_tebs]. rewrite Hn, upd_same.
  unfold handoff_calls. apply Z.eqb_neq in Hnz. rewrite Hnz.
  cbn [app pthread_data teb_sel stack_base set_pthread_data].
  split; reflexivity.
Qed.

Lemma next_exit_reclaims_previous_witness :
  trace (SYSDEPS_ExitThread linux_nptl_build working_host 0
           (seen_by (unit_regs 200704)
              (final (SYSDEPS_ExitThread linux_nptl_build working_host 0
                        (final (SYSDEPS_SetCurThread linux_nptl_build
                                  working_host 196608 blank_world))))))
  = [Enter F_SYSDEPS_ExitThread; Ev_interlocked_xchg_ptr 200704 196608; Ev_TRACE;
     Ev_pthread_join 99; Ev_wine_ldt_free_fs 7;
     Ev_NtFreeVirtualMemory 131072 [MEM_RELEASE];
     Ev_SIGNAL_Block; Enter F_SYSDEPS_AbortThread; Ev_SIGNAL_Block;
     Ev_close 10; Ev_close 11; Ev_close 12; Ev_close 13; Ev_pthread_exit 0].
Proof.
  exact (proj1 (@next_exit_reclaims_previous linux_nptl_build working_host
                  196608 200704 0 0 blank_world (unit_regs 200704)
                  eq_refl eq_refl ltac:(discriminate) eq_refl)).
Defined.

Lemma start_thread_returns cfg hst teb w w' :
  let r1 := SYSDEPS_SetCurThread cfg hst teb w in
  h_startup hst (startup (w_tebs w teb)) (final r1) = Some w' ->
  let r := SYSDEPS_StartThread cfg hst teb w in
  let re := SYSDEPS_ExitThread cfg hst 0 w' in
  trace r
  = Enter F_SYSDEPS_StartThread
    :: trace r1
    ++ Ev_SIGNAL_Init :: Ev_CLIENT_InitThread
    :: Ev_startup (startup (w_tebs w teb)) :: trace re
  /\ final r = final re
  /\ out r = out re.
Proof.
  intros r1 Hst r re.
  destruct (set_cur_thread_run cfg hst teb w) as (Ho & _). fold r1 in Ho.
  assert (He : startup (w_tebs (final r1) teb) = startup (w_tebs w teb)).
  { subst r1. rewrite set_cur_thread_final. cbn [w_tebs].
    destruct (HAVE_NPTL cfg); [rewrite upd_same|]; reflexivity. }
  subst r. unfold SYSDEPS_StartThread, get_teb. rewrite bind_emit.
  rewrite (bind_call_next _ _ _ Ho). fold r1.
  do 4 run_step I. rewrite He.
  unfold bind. cbn [cons_event trace final out]. rewrite Hst.
  cbn [trace final out app]. unfold call. cbn [trace final out]. fold re.
  pose proof (@stuck_exit cfg hst 0 w') as Hs. fold re in Hs.
  destruct (out re); try discriminate Hs. repeat split.
Qed.

(** X12. With HAVE_NPTL: when the entry function of a thread returns,
    leaving the registrar as SYSDEPS_SetCurThread had set it, then
    SYSDEPS_StartThread has called the function that [startup] of the TEB
    named when the thread was spawned, and the unit ends in
    [pthread_exit] with status 0 after having put its own TEB into
    [teb_to_free]; nothing else of the memory the entry function left
    is changed. *)
Theorem start_thread_hands_over cfg hst teb w w' :
  HAVE_NPTL cfg = true ->
  h_startup hst (startup (w_tebs w teb))
            (final (SYSDEPS_SetCurThread cfg hst teb w)) = Some w' ->
  registrar cfg (w_regs w') = Some teb ->
  let r := SYSDEPS_StartThread cfg hst teb w in
  In (Ev_startup (startup (w_tebs w teb))) (trace r)
  /\ (exists pre, trace r = pre ++ [Ev_pthread_exit 0])
  /\ final r = with_teb_to_free teb w'
  /\ out r = Stop ThreadExit.
Proof.
  intros Hn Hst Hr r. subst r.
  destruct (@start_thread_returns cfg hst teb w w' Hst) as (Ht & Hf & Ho).
  rewrite Ht, Hf, Ho. rewrite (@exit_nptl_run cfg hst 0 w' teb Hn Hr).
  cbn [trace final out]. split; [|split; [|split; reflexivity]].
  - right. apply in_or_app. right. right. right. left. reflexivity.
  - unfold abort_calls. rewrite Hn.
    eexists. rewrite !app_comm_cons, !app_assoc.
    repeat rewrite app_comm_cons.
    match goal with |- ?l ++ [_] = _ => instantiate (1 := l) end.
    reflexivity.
Qed.

Lemma start_thread_hands_over_witness :
  w_teb_to_free (final (SYSDEPS_StartThread linux_nptl_build working_host 196608
                          blank_world)) = 196608
  /\ out (SYSDEPS_StartThread linux_nptl_build working_host 196608 blank_world)
     = Stop ThreadExit.
Proof.
  destruct (@start_thread_hands_over linux_nptl_build working_host 196608
              blank_world
              (final (SYSDEPS_SetCurThread linux_nptl_build working_host 196608
                        blank_world))
              eq_refl eq_refl eq_refl)
    as (_ & _ & Hf & Ho).
  split; [rewrite Hf; reflexivity | exact Ho].
Defined.

(** ** The errno indirection within one unit *)

(** X13. Built without HAVE_NPTL, for one unit, before SYSDEPS_InitErrno
    and after it: the cell that [__errno_location] (or any of its
    aliases) returns and the cell that [__h_errno_location] returns are
    two cells.  What is written through one is read back through it, the
    other keeps its value, and a write moves neither: the accessors
    return the same two cells afterwards. *)
Theorem errno_and_h_errno_apart cfg hst w0 teb :
  HAVE_NPTL cfg = false ->
  registrar cfg (w_regs w0) = Some teb ->
  w_errno_location_ptr w0 = default_errno_location_fn ->
  w_h_errno_location_ptr w0 = default_h_errno_location_fn ->
  forall w acc v,
    w = w0 \/ w = final (SYSDEPS_InitErrno cfg hst w0) ->
    In acc (errno_accessors cfg) ->
    exists p q,
      returned (acc w) = Some p
      /\ returned (__h_errno_location cfg w) = Some q
      /\ p <> q
      /\ load_int p (store_int p v w) = v
      /\ load_int q (store_int p v w) = load_int q w
      /\ load_int q (store_int q v w) = v
      /\ load_int p (store_int q v w) = load_int p w
      /\ returned (acc (store_int p v w)) = Some p
      /\ returned (__h_errno_location cfg (store_int p v w)) = Some q.
Proof.
  intros Hn H He Hh w acc v [-> | ->] Hacc.
  - exists addr_static_errno, addr_static_h_errno.
    rewrite !(@errno_accessor_run cfg acc _ Hacc), !h_errno_accessor_run.
    cbn [store_int w_errno_location_ptr w_h_errno_location_ptr
         with_static_errno with_static_h_errno].
    rewrite He, Hh. cbn. repeat split. discriminate.
  - exists (addr_thread_errno teb), (addr_thread_h_errno teb).
    rewrite (@init_errno_final cfg hst w0 Hn).
    rewrite !(@errno_accessor_run cfg acc _ Hacc), !h_errno_accessor_run.
    cbn [store_int]. world_simpl.
    destruct (@accessor_thread cfg
                (with_h_errno_location_ptr thread_h_errno_location_fn
                   (with_errno_location_ptr thread_errno_location_fn w0)) teb H)
      as (A1 & A2).
    split; [exact A1|]. split; [exact A2|]. split; [discriminate|].
    cbn [load_int]. world_simpl.
    cbn [thread_errno thread_h_errno set_thread_errno set_thread_h_errno].
    repeat split.
    + match goal with
      | |- returned (run_errno_fn _ _ ?x) = _ =>
          exact (proj1 (@accessor_thread cfg x teb H))
      end.
    + match goal with
      | |- returned (run_errno_fn _ _ ?x) = _ =>
          exact (proj2 (@accessor_thread cfg x teb H))
      end.
Qed.

Lemma errno_and_h_errno_apart_witness :
  exists p q,
    returned (__errno_location linux_clone_build
                (final (SYSDEPS_InitErrno linux_clone_build working_host
                          example_world))) = Some p
    /\ returned (__h_errno_location linux_clone_build
                   (final (SYSDEPS_InitErrno linux_clone_build working_host
                             example_world))) = Some q
    /\ p <> q.
Proof.
  destruct (@errno_and_h_errno_apart linux_clone_build working_host
              example_world 196608 eq_refl eq_refl eq_refl eq_refl
              (final (SYSDEPS_InitErrno linux_clone_build working_host
                        example_world))
              (__errno_location linux_clone_build) 5
              (or_intror eq_refl) (or_introl eq_refl))
    as (p & q & Hp & Hq & Hne & _).
  exists p, q. split; [exact Hp|]. split; [exact Hq | exact Hne].
Defined.

(** ** SYSDEPS_InitErrno and [writejump] *)

Lemma writejump_run cfg hst s dest w :
  writejump cfg hst s dest w
  = mkResult (patch_calls cfg hst s dest) w
             (if h_dlsym hst s =? 0 then Return tt
              else if patch_done hst s then Next tt else Stop Elsewhere).
Proof.
  unfold writejump, patch_calls, patch_done, page_of, store_code, when.
  cbv zeta.
  destruct (h_dlsym hst s =? 0); [run I; finish_run; reflexivity|].
  cbn [orb]. run I.
  destruct (store_ok _ _ _ 1); cbn [negb andb];
    [|run I; finish_run; reflexivity].
  run I.
  destruct (store_ok _ _ _ 4); cbn [negb];
    [|run I; finish_run; reflexivity].
  destruct (HAVE_VALGRIND_MEMCHECK_H cfg); run I; finish_run; reflexivity.
Qed.

Lemma writejump_comes_back cfg hst s dest w :
  comes_back (out (writejump cfg hst s dest w)) = patch_done hst s.
Proof.
  rewrite writejump_run. cbn [out]. unfold patch_done.
  destruct (h_dlsym hst s =? 0); cbn [orb]; [reflexivity|].
  destruct (_ && _); reflexivity.
Qed.

Lemma bind_call_writejump {R B} cfg hst s dest (k : unit -> M R B) w :
  bind (call (writejump cfg hst s dest)) k w
  = if patch_done hst s then
      mkResult (patch_calls cfg hst s dest ++ trace (k tt w))
               (final (k tt w)) (out (k tt w))
    else mkResult (patch_calls cfg hst s dest) w (Stop Elsewhere).
Proof.
  unfold bind, call. rewrite writejump_run. cbn [trace final out].
  unfold patch_done.
  destruct (h_dlsym hst s =? 0); cbn [orb]; [reflexivity|].
  destruct (store_ok _ _ _ 1 && store_ok _ _ _ 4); reflexivity.
Qed.

Lemma init_errno_run cfg hst w :
  SYSDEPS_InitErrno cfg hst w
  = mkResult
      (Enter F_SYSDEPS_InitErrno
       :: (if HAVE_NPTL cfg then []
           else if def_linux cfg && def_i386 cfg then
             patch_calls cfg hst sym___errno_location thread_errno_location_fn
             ++ (if patch_done hst sym___errno_location
                 then patch_calls cfg hst sym___h_errno_location
                        thread_h_errno_location_fn
                 else [])
           else []))
      (if HAVE_NPTL cfg then w
       else with_h_errno_location_ptr thread_h_errno_location_fn
              (with_errno_location_ptr thread_errno_location_fn w))
      (if negb (HAVE_NPTL cfg) && (def_linux cfg && def_i386 cfg)
          && negb (patch_done hst sym___errno_location
                   && patch_done hst sym___h_errno_location)
       then Stop Elsewhere else Next tt).
Proof.
  unfold SYSDEPS_InitErrno, when.
  destruct (HAVE_NPTL cfg); cbn [negb andb].
  - run I. finish_run. reflexivity.
  - destruct (def_linux cfg && def_i386 cfg); cbn [andb].
    + run I. rewrite bind_call_writejump.
      destruct (patch_done hst sym___errno_location); cbn [andb].
      * unfold call. rewrite writejump_run.
        cbn [cons_event trace final out negb].
        assert (P : (h_dlsym hst sym___h_errno_location =? 0) = true ->
                    patch_done hst sym___h_errno_location = true).
        { intros E. unfold patch_done. now rewrite E. }
        destruct (h_dlsym hst sym___h_errno_location =? 0);
          [rewrite (P eq_refl); reflexivity|].
        destruct (patch_done hst sym___h_errno_location); reflexivity.
      * cbn [cons_event trace final out negb app]. rewrite app_nil_r.
        reflexivity.
    + run I. finish_run. reflexivity.
Qed.

(** X14. SYSDEPS_InitErrno changes nothing but the two function
    pointers: registers, TEBs, the two static cells and the other
    statics of the file are as before, and running it a second time
    changes nothing.  Built with HAVE_NPTL it changes nothing at all and
    makes no call.  It gives control back on every build that does not
    patch the C library; where it patches (Linux on i386), it either
    gives control back or ends in the fault of a store that the page
    protection refuses, the two pointers being switched already. *)
Theorem init_errno_frame cfg hst w :
  let r := SYSDEPS_InitErrno cfg hst w in
  let w' := final r in
  w_regs w' = w_regs w /\ w_tebs w' = w_tebs w /\ w_infos w' = w_infos w
  /\ w_static_errno w' = w_static_errno w
  /\ w_static_h_errno w' = w_static_h_errno w
  /\ w_next_temp_stack w' = w_next_temp_stack w
  /\ w_teb_to_free w' = w_teb_to_free w
  /\ (if HAVE_NPTL cfg then
        w' = w /\ trace r = [Enter F_SYSDEPS_InitErrno] /\ out r = Next tt
      else
        w_errno_location_ptr w' = thread_errno_location_fn
        /\ w_h_errno_location_ptr w' = thread_h_errno_location_fn)
  /\ final (SYSDEPS_InitErrno cfg hst w') = w'
  /\ (out r = Next tt \/ out r = Stop Elsewhere)
  /\ (def_linux cfg && def_i386 cfg = false -> out r = Next tt).
Proof.
  intros r w'. subst r w'. rewrite !init_errno_run. cbn [trace final out].
  destruct (HAVE_NPTL cfg); cbn [negb andb].
  - repeat split; auto.
  - repeat split.
    + destruct (_ && _); auto.
    + intros E. rewrite E. reflexivity.
Qed.

(** X15. Built without HAVE_NPTL: a value stored in [errno] before
    SYSDEPS_InitErrno ran is not what the unit reads after it.  The
    value stays in the static cell; the accessor now returns the cell of
    the TEB, which holds what the TEB held. *)
Theorem errno_not_carried_over cfg hst w teb acc v :
  HAVE_NPTL cfg = false ->
  registrar cfg (w_regs w) = Some teb ->
  w_errno_location_ptr w = default_errno_location_fn ->
  In acc (errno_accessors cfg) ->
  exists p0 p1,
    returned (acc w) = Some p0
    /\ let w1 := final (SYSDEPS_InitErrno cfg hst (store_int p0 v w)) in
       returned (acc w1) = Some p1
       /\ load_int p1 w1 = thread_errno (w_tebs w teb)
       /\ load_int p0 w1 = v.
Proof.
  intros Hn H He Hacc.
  exists addr_static_errno, (addr_thread_errno teb).
  rewrite (@errno_accessor_run cfg acc _ Hacc), He. split; [reflexivity|].
  intros w1. subst w1. rewrite init_errno_run, Hn. cbn [final].
  rewrite (@errno_accessor_run cfg acc _ Hacc). world_simpl.
  split; [|split; reflexivity].
  match goal with
  | |- returned (run_errno_fn _ _ ?x) = _ =>
      exact (proj1 (@accessor_thread cfg x teb H))
  end.
Qed.

Lemma errno_not_carried_over_witness :
  exists p0 p1,
    returned (__errno_location linux_clone_build example_world) = Some p0
    /\ let w1 := final (SYSDEPS_InitErrno linux_clone_build working_host
                          (store_int p0 34 example_world)) in
       returned (__errno_location linux_clone_build w1) = Some p1
       /\ load_int p1 w1 = thread_errno (w_tebs example_world 196608)
       /\ load_int p0 w1 = 34.
Proof.
  exact (@errno_not_carried_over linux_clone_build working_host example_world
           196608 (__errno_location linux_clone_build) 34
           eq_refl eq_refl eq_refl (or_introl eq_refl)).
Defined.

(** X16. The calls of SYSDEPS_InitErrno.  Only without HAVE_NPTL and
    on Linux on i386 does it patch the C library: it runs [writejump]
    for [__errno_location] towards [thread_errno_location] and, when
    that call has come back, for [__h_errno_location] towards
    [thread_h_errno_location].  A symbol that [wine_dlsym] does not find
    is passed over: [writejump] returns after the lookup, with no
    [mprotect] and nothing written, and the other symbol is still dealt
    with. *)
Theorem init_errno_patches cfg hst w :
  trace (SYSDEPS_InitErrno cfg hst w)
  = Enter F_SYSDEPS_InitErrno
    :: (if negb (HAVE_NPTL cfg) && (def_linux cfg && def_i386 cfg) then
          trace (writejump cfg hst sym___errno_location
                           thread_errno_location_fn w)
          ++ (if comes_back (out (writejump cfg hst sym___errno_location
                                            thread_errno_location_fn w))
              then trace (writejump cfg hst sym___h_errno_location
                                    thread_h_errno_location_fn w)
              else [])
        else [])
  /\ (forall s dest w1,
        h_dlsym hst s = 0 ->
        writejump cfg hst s dest w1
        = mkResult [Enter F_writejump; Ev_wine_dlsym s] w1 (Return tt)).
Proof.
  split.
  - rewrite writejump_comes_back, init_errno_run, !writejump_run. cbn [trace].
    destruct (HAVE_NPTL cfg), (def_linux cfg && def_i386 cfg); reflexivity.
  - intros s dest w1 E. rewrite writejump_run. unfold patch_calls.
    cbv zeta. now rewrite E.
Qed.

Lemma page_of_aligned hst addr k :
  0 <= k < 31 ->
  h_pagesize hst = 2 ^ k ->
  0 <= addr < 2 ^ 32 ->
  page_of hst addr = 2 ^ k * (addr / 2 ^ k).
Proof.
  intros Hk Hp Ha. unfold page_of, wrap_unsigned. rewrite Hp.
  rewrite (Z.mod_small addr) by lia.
  replace (2 ^ k - 1) with (Z.ones k) by (rewrite Z.ones_equiv; lia).
  rewrite <- (Z.land_ones (Z.lnot (Z.ones k)) 32) by lia.
  rewrite (Z.land_comm (Z.lnot (Z.ones k))), Z.land_assoc.
  rewrite (Z.land_ones addr 32) by lia.
  rewrite (Z.mod_small addr) by lia.
  rewrite <- Z.ldiff_land, Z.ldiff_ones_r by lia.
  rewrite Z.shiftr_div_pow2, Z.shiftl_mul_pow2 by lia. lia.
Qed.

(** A store that stays inside the page the first [mprotect] opened goes
    through. *)
Lemma store_ok_inside hst page a n :
  h_mprotect hst = 0 ->
  page <= a ->
  a + Z.of_nat n <= page + h_pagesize hst ->
  store_ok hst page a n = true.
Proof.
  intros Hm Hl Hu. unfold store_ok. apply forallb_forall. intros b Hin.
  apply in_map_iff in Hin. destruct Hin as (i & <- & Hi).
  apply in_seq in Hi. apply orb_true_iff. left.
  rewrite !andb_true_iff, Z.eqb_eq, Z.leb_le, Z.ltb_lt. lia.
Qed.

(** A store that reaches a byte outside that page which cannot be
    written is refused. *)
Lemma store_ok_outside hst page a n b :
  a <= b < a + Z.of_nat n ->
  page + h_pagesize hst <= b ->
  h_writable hst b = false ->
  store_ok hst page a n = false.
Proof.
  intros Hb Hout Hw. destruct (store_ok hst page a n) eqn:E; [|reflexivity].
  unfold store_ok in E. rewrite forallb_forall in E.
  assert (Hin : In b (map (fun i => a + Z.of_nat i) (seq 0 n))).
  { apply in_map_iff. exists (Z.to_nat (b - a)). split; [lia|].
    apply in_seq. lia. }
  specialize (E b Hin). rewrite Hw, orb_false_r in E.
  rewrite !andb_true_iff, Z.ltb_lt in E. lia.
Qed.

(** X17. [writejump] at a symbol that is found, on a host whose page
    size is a power of two and whose addresses have 32 bits.  The
    address given to [mprotect] is the start of the page the symbol lies
    in, and no TEB and no static of the file is touched.  When that
    [mprotect] succeeds and the five bytes of the jump lie in this one
    page, the opcode and the distance are stored and the page is made
    read-and-execute again, in this order.  When the five bytes reach
    into the next page and that page cannot be written, the opcode is
    stored, the store of the distance is refused, and [writejump] does
    not come back: the second [mprotect] is not made. *)
Theorem writejump_page cfg hst s dest w k :
  0 <= k < 31 ->
  h_pagesize hst = 2 ^ k ->
  0 < h_dlsym hst s < 2 ^ 32 ->
  let addr := h_dlsym hst s in
  let ps := h_pagesize hst in
  let page := ps * (addr / ps) in
  page <= addr < page + ps
  /\ page mod ps = 0
  /\ (exists rest,
        trace (writejump cfg hst s dest w)
        = [Enter F_writejump; Ev_wine_dlsym s;
           Ev_mprotect page [PROT_READ; PROT_EXEC; PROT_WRITE]] ++ rest)
  /\ final (writejump cfg hst s dest w) = w
  /\ (h_mprotect hst = 0 ->
      addr + 5 <= page + ps ->
      writejump cfg hst s dest w
      = mkResult
          ([Enter F_writejump; Ev_wine_dlsym s;
            Ev_mprotect page [PROT_READ; PROT_EXEC; PROT_WRITE];
            Ev_write_opcode addr; Ev_write_jump addr dest;
            Ev_mprotect page [PROT_READ; PROT_EXEC]]
           ++ (if HAVE_VALGRIND_MEMCHECK_H cfg
               then [Ev_VALGRIND_DISCARD_TRANSLATIONS addr] else []))
          w (Next tt))
  /\ (h_mprotect hst = 0 ->
      page + ps < addr + 5 ->
      h_writable hst (page + ps) = false ->
      writejump cfg hst s dest w
      = mkResult
          [Enter F_writejump; Ev_wine_dlsym s;
           Ev_mprotect page [PROT_READ; PROT_EXEC; PROT_WRITE];
           Ev_write_opcode addr; Ev_SIGSEGV (addr + 1)]
          w (Stop Elsewhere)).
Proof.
  intros Hk Hp Ha addr ps page. subst addr ps page.
  assert (H2 : 0 < 2 ^ k) by (apply Z.pow_pos_nonneg; lia).
  assert (E : (h_dlsym hst s =? 0) = false) by (apply Z.eqb_neq; lia).
  assert (Hpg : page_of hst (h_dlsym hst s)
                = h_pagesize hst * (h_dlsym hst s / h_pagesize hst)).
  { rewrite (@page_of_aligned hst (h_dlsym hst s) k Hk Hp) by lia.
    now rewrite Hp. }
  assert (Hin : h_pagesize hst * (h_dlsym hst s / h_pagesize hst)
                <= h_dlsym hst s
                < h_pagesize hst * (h_dlsym hst s / h_pagesize hst)
                  + h_pagesize hst).
  { rewrite Hp.
    pose proof (Z.div_mod (h_dlsym hst s) (2 ^ k) ltac:(lia)).
    pose proof (Z.mod_pos_bound (h_dlsym hst s) (2 ^ k) H2). lia. }
  split; [exact Hin|]. split; [rewrite Z.mul_comm; apply Z_mod_mult|].
  rewrite writejump_run. cbn [trace final]. unfold patch_calls, patch_done.
  cbv zeta. rewrite E, Hpg. cbn [orb].
  split; [eexists; reflexivity|]. split; [reflexivity|]. split.
  - intros Hm H5.
    rewrite (@store_ok_inside hst _ (h_dlsym hst s) 1 Hm) by (cbn; lia).
    rewrite (@store_ok_inside hst _ (h_dlsym hst s + 1) 4 Hm) by (cbn; lia).
    reflexivity.
  - intros Hm H5 Hw.
    rewrite (@store_ok_inside hst _ (h_dlsym hst s) 1 Hm) by (cbn; lia).
    rewrite (@store_ok_outside hst _ (h_dlsym hst s + 1) 4
               (h_pagesize hst * (h_dlsym hst s / h_pagesize hst)
                + h_pagesize hst)) by (cbn; lia || exact Hw).
    reflexivity.
Qed.

Lemma writejump_page_witness :
  writejump linux_clone_build patching_host sym___errno_location
            thread_errno_location_fn example_world
  = mkResult
      [Enter F_writejump; Ev_wine_dlsym sym___errno_location;
       Ev_mprotect 134516736 [PROT_READ; PROT_EXEC; PROT_WRITE];
       Ev_write_opcode 134520830; Ev_SIGSEGV 134520831]
      example_world (Stop Elsewhere)
  /\ 134516736 <= 134520830 < 134516736 + 4096.
Proof.
  destruct (@writejump_page linux_clone_build patching_host sym___errno_location
              thread_errno_location_fn example_world 12
              ltac:(lia) eq_refl ltac:(cbn; lia))
    as (Hb & _ & _ & _ & _ & Hf).
  split; [|exact Hb].
  apply Hf; [reflexivity | cbn; lia | reflexivity].
Defined.

(** ** SYSDEPS_GetUnixTid *)

(** X18. Where the build has no [_lwp_self], SYSDEPS_GetUnixTid answers
    -1 or a thread id that is not negative.  Only on Linux on i386 does
    it ask the kernel: an id the kernel gives is passed on, and every
    error the kernel reports, a negative value in [%eax], comes out as
    -1.  On the other builds the answer is -1 whatever the kernel
    would say. *)
Theorem get_unix_tid_result cfg th :
  HAVE__LWP_SELF th = false ->
  let r := SYSDEPS_GetUnixTid cfg th in
  -1 <= r < 2 ^ 31
  /\ (def_linux cfg && def_i386 cfg = false -> r = -1)
  /\ (def_linux cfg && def_i386 cfg = true ->
      (0 <= h_gettid_eax th < 2 ^ 31 -> r = h_gettid_eax th)
      /\ (- 2 ^ 31 <= h_gettid_eax th < 0 -> r = -1)
      /\ (2 ^ 31 <= h_gettid_eax th < 2 ^ 32 -> r = -1)).
Proof.
  intros Hl r. subst r. unfold SYSDEPS_GetUnixTid. rewrite Hl.
  destruct (def_linux cfg && def_i386 cfg); cbv zeta.
  - unfold wrap_signed.
    pose proof (Z.mod_pos_bound (h_gettid_eax th + 2 ^ 31) (2 ^ 32) ltac:(lia)) as Hb.
    split; [|split; [discriminate|]].
    + destruct (_ <? 0) eqn:E; [lia|]. apply Z.ltb_ge in E. lia.
    + intros _. split; [|split]; intros Hr.
      * rewrite Z.mod_small by lia.
        replace (h_gettid_eax th + 2 ^ 31 - 2 ^ 31) with (h_gettid_eax th) by lia.
        destruct (_ <? 0) eqn:E; [apply Z.ltb_lt in E; lia | reflexivity].
      * rewrite Z.mod_small by lia.
        replace (h_gettid_eax th + 2 ^ 31 - 2 ^ 31) with (h_gettid_eax th) by lia.
        destruct (_ <? 0) eqn:E; [reflexivity | apply Z.ltb_ge in E; lia].
      * replace (h_gettid_eax th + 2 ^ 31)
          with (h_gettid_eax th - 2 ^ 31 + 1 * 2 ^ 32) by lia.
        rewrite Z_mod_plus_full, Z.mod_small by lia.
        destruct (_ <? 0) eqn:E; [reflexivity | apply Z.ltb_ge in E; lia].
  - split; [lia|]. split; [reflexivity | discriminate].
Qed.

Lemma get_unix_tid_result_witness :
  SYSDEPS_GetUnixTid linux_clone_build (mkTidHost false 0 4711) = 4711
  /\ SYSDEPS_GetUnixTid linux_clone_build (mkTidHost false 0 4294967258) = -1.
Proof.
  split.
  - destruct (@get_unix_tid_result linux_clone_build (mkTidHost false 0 4711)
                eq_refl) as (_ & _ & H).
    destruct (H eq_refl) as (H1 & _). apply H1. cbn. lia.
  - destruct (@get_unix_tid_result linux_clone_build
                (mkTidHost false 0 4294967258) eq_refl) as (_ & _ & H).
    destruct (H eq_refl) as (_ & _ & H3). apply H3. cbn. lia.
Defined.

(** ** Units exiting side by side: what the order of reclaiming gives *)

Lemma exiting_is_linked cfg s l teb f r :
  chain cfg (sys_units s) l ->
  (forall t, ~ In t l -> outside (sys_units s t)) ->
  u_phase (sys_units s teb) = Exiting f r ->
  exists i, nth_error l i = Some teb /\ f = nth (S i) l 0.
Proof.
  intros Hc Hout Hp.
  assert (Hin : In teb l).
  { destruct (in_dec Z.eq_dec teb l) as [Hin | Hnin]; [exact Hin|].
    destruct (Hout teb Hnin) as [_ Ho]. rewrite Hp in Ho. destruct Ho. }
  destruct (In_nth_error l teb Hin) as [i Hi]. exists i. split; [exact Hi|].
  destruct (Hc i teb Hi) as [_ Hl]. unfold link in Hl. rewrite Hp in Hl.
  destruct Hl as [E _]. exact E.
Qed.

(** X19. With HAVE_NPTL, in every state that units exiting and aborting
    side by side can reach: the TEB a unit got out of [teb_to_free], if
    any, is that of a unit which itself went into SYSDEPS_ExitThread (it
    is still in it, or has ended through it; it is not a running unit and
    not one that aborted), and no other unit in SYSDEPS_ExitThread holds
    the same TEB: no handle is joined twice, no selector and no stack
    freed twice. *)
Theorem no_double_reclaim cfg hst s teb f r :
  HAVE_NPTL cfg = true ->
  (forall teb, registrar cfg (unit_regs teb) = Some teb) ->
  reachable cfg hst s ->
  u_phase (sys_units s teb) = Exiting f r ->
  f <> 0 ->
  (u_phase (sys_units s f) = Exited true
   \/ exists f' r', u_phase (sys_units s f) = Exiting f' r')
  /\ (forall teb2 r2, u_phase (sys_units s teb2) = Exiting f r2 -> teb2 = teb).
Proof.
  intros Hn Hreg Hr Hp Hf.
  destruct (@inv_reachable cfg hst Hn Hreg s Hr) as (l & Hnd & Hhd & Hc & Hfl & Hout).
  destruct (@exiting_is_linked cfg s l teb f r Hc Hout Hp) as (i & Hi & Ei).
  assert (Hfi : nth_error l (S i) = Some f).
  { rewrite Ei. apply nth_error_of_nth. now rewrite <- Ei. }
  split.
  - destruct (@chain_member cfg (sys_units s) l f Hc (nth_error_In l (S i) Hfi))
      as [[_ He] | [_ He]]; [right; exact He | left; exact He].
  - intros teb2 r2 Hp2.
    destruct (@exiting_is_linked cfg s l teb2 f r2 Hc Hout Hp2) as (j & Hj & Ej).
    assert (Hfj : nth_error l (S j) = Some f).
    { rewrite Ej. apply nth_error_of_nth. now rewrite <- Ej. }
    pose proof (@nth_error_unique l (S i) (S j) f Hnd Hfi Hfj) as E.
    injection E as E. subst j. congruence.
Qed.

Lemma no_double_reclaim_witness :
  (u_phase (sys_units example_system_2 196608) = Exited true
   \/ exists f' r', u_phase (sys_units example_system_2 196608) = Exiting f' r')
  /\ (forall teb2 r2,
        u_phase (sys_units example_system_2 teb2) = Exiting 196608 r2 ->
        teb2 = 200704).
Proof.
  exact (@no_double_reclaim linux_nptl_build working_host example_system_2
           200704 196608 _ eq_refl (fun teb => eq_refl)
           example_system_2_reachable eq_refl ltac:(discriminate)).
Defined.

(** X20. With HAVE_NPTL, in every reachable state and for every unit:
    its stack is released only after its selector was freed, its
    selector is freed only after its handle was joined, and its handle
    is joined only after the unit has ended through SYSDEPS_ExitThread.
    So nothing of a unit is taken away while the unit still runs, and
    nothing at all of a unit that aborted. *)
Theorem reclaimed_after_end cfg hst s teb :
  HAVE_NPTL cfg = true ->
  (forall teb, registrar cfg (unit_regs teb) = Some teb) ->
  reachable cfg hst s ->
  (u_stack_freed (sys_units s teb) = true -> u_fs_freed (sys_units s teb) = true)
  /\ (u_fs_freed (sys_units s teb) = true -> u_joined (sys_units s teb) = true)
  /\ (u_joined (sys_units s teb) = true ->
      u_phase (sys_units s teb) = Exited true).
Proof.
  intros Hn Hreg Hr.
  destruct (@inv_reachable cfg hst Hn Hreg s Hr) as (l & Hnd & Hhd & Hc & Hfl & Hout).
  assert (Hnone : flags_of (sys_units s teb) = (false, false, false) ->
    (u_stack_freed (sys_units s teb) = true -> u_fs_freed (sys_units s teb) = true)
    /\ (u_fs_freed (sys_units s teb) = true -> u_joined (sys_units s teb) = true)
    /\ (u_joined (sys_units s teb) = true ->
        u_phase (sys_units s teb) = Exited true)).
  { unfold flags_of. intros E. injection E as -> -> ->.
    repeat split; discriminate. }
  destruct (in_dec Z.eq_dec teb l) as [Hin | Hnin];
    [|apply Hnone; exact (proj1 (Hout teb Hnin))].
  destruct (In_nth_error l teb Hin) as [[|j] Hi].
  - apply Hnone. destruct l as [|a l']; [discriminate|].
    cbn in Hi. injection Hi as ->. exact Hfl.
  - assert (Hj : exists t', nth_error l j = Some t').
    { destruct (nth_error l j) as [t'|] eqn:E; [now exists t'|].
      apply nth_error_None in E.
      assert (nth_error l (S j) <> None) by congruence.
      apply nth_error_Some in H. lia. }
    destruct Hj as [t' Hj].
    destruct (Hc (S j) teb Hi) as [Hnz _].
    destruct (Hc j t' Hj) as [_ Hl].
    rewrite (@nth_of_nth_error Z l (S j) 0 teb Hi) in Hl.
    unfold link in Hl.
    destruct (u_phase (sys_units s t')) as [|f rest|rest|[|]].
    + destruct Hl.
    + destruct Hl as (_ & ft & t & st & k & _ & _ & Hk).
      destruct (Hk Hnz) as [Ef Hex]. unfold flags_of in Ef.
      destruct k as [|[|[|[|k]]]]; cbn in Ef; injection Ef as -> -> ->;
        repeat split; intros E; try discriminate E; try reflexivity;
        apply Hex; lia.
    + destruct Hl.
    + destruct (Hl Hnz) as [Ef Hex]. unfold flags_of in Ef.
      injection Ef as -> -> ->. repeat split; auto.
    + destruct Hl.
Qed.

Lemma example_system_3_reachable :
  reachable linux_nptl_build working_host example_system_3.
Proof.
  apply (@play_reachable linux_nptl_build working_host example_schedule
           example_system example_system_3).
  - apply reachable_initial. split; reflexivity.
  - vm_compute. reflexivity.
Qed.

Lemma reclaimed_after_end_witness :
  u_phase (sys_units example_system_3 196608) = Exited true.
Proof.
  apply (@reclaimed_after_end linux_nptl_build working_host example_system_3
           196608 eq_refl (fun teb => eq_refl) example_system_3_reachable).
  vm_compute. reflexivity.
Defined.

Lemma no_join_without_predecessor cfg ft t st k e rest :
  skipn k (calls_after_xchg cfg 0 ft t st) = e :: rest -> is_join e = false.
Proof.
  intros H.
  assert (Hin : In e (calls_after_xchg cfg 0 ft t st)).
  { rewrite <- (firstn_skipn k). apply in_or_app. right. rewrite H. now left. }
  unfold calls_after_xchg, handoff_calls, abort_calls in Hin. cbn in Hin.
  destruct (HAVE_NPTL cfg), (HAVE__LWP_CREATE cfg); cbn in Hin;
    repeat (destruct Hin as [<- | Hin]; [reflexivity|]); destruct Hin.
Qed.

Lemma enabled_unless_join us f e : is_join e = false -> enabled us f e = true.
Proof. destruct e; cbn; intros; try reflexivity; discriminate. Qed.

Lemma chain_progress cfg hst s l :
  chain cfg (sys_units s) l ->
  forall n i teb f r,
    (length l - i <= n)%nat ->
    nth_error l i = Some teb ->
    u_phase (sys_units s teb) = Exiting f r ->
    exists teb' s',
      in_graceful_exit (sys_units s teb')
      /\ play1 cfg hst (Next_call teb') s = Some s'.
Proof.
  intros Hc. induction n as [|n IH]; intros i teb f r Hlen Hi Hp.
  - assert (nth_error l i <> None) by congruence.
    apply nth_error_Some in H. lia.
  - destruct (Hc i teb Hi) as [_ Hl]. unfold link in Hl. rewrite Hp in Hl.
    destruct Hl as (Ef & ft & t & st & k & Hrest & Hne & Hk).
    destruct r as [|e rest]; [congruence|].
    destruct (enabled (sys_units s) f e) eqn:Een.
    + exists teb. eexists. split.
      * unfold in_graceful_exit. now rewrite Hp.
      * unfold play1. rewrite Hp, Een. reflexivity.
    + assert (Hj : is_join e = true).
      { destruct (is_join e) eqn:Ej; [reflexivity|].
        rewrite (@enabled_unless_join (sys_units s) f e Ej) in Een.
        discriminate. }
      assert (Hf : f <> 0).
      { intros E0. rewrite <- Ef, E0 in Hrest. symmetry in Hrest.
        rewrite (@no_join_without_predecessor cfg ft t st k e rest Hrest) in Hj.
        discriminate. }
      assert (Hfi : nth_error l (S i) = Some f).
      { rewrite Ef. apply nth_error_of_nth. now rewrite <- Ef. }
      destruct (@chain_member cfg (sys_units s) l f Hc (nth_error_In l (S i) Hfi))
        as [[_ (f' & r' & He)] | [_ He]].
      * apply (IH (S i) f f' r'); [lia | exact Hfi | exact He].
      * destruct e; try discriminate Hj. cbn in Een. rewrite He in Een.
        discriminate.
Qed.

(** X21. With HAVE_NPTL the handing over cannot come to a standstill:
    in every reachable state in which some unit is inside
    SYSDEPS_ExitThread, some unit inside it can make its next call.  A
    unit waits only in [pthread_join], for the unit that made the
    exchange just before it, and the first in that row waits for
    nobody. *)
Theorem handoff_progress cfg hst s teb f r :
  HAVE_NPTL cfg = true ->
  (forall teb, registrar cfg (unit_regs teb) = Some teb) ->
  reachable cfg hst s ->
  u_phase (sys_units s teb) = Exiting f r ->
  exists teb' s',
    in_graceful_exit (sys_units s teb')
    /\ play1 cfg hst (Next_call teb') s = Some s'
    /\ reachable cfg hst s'.
Proof.
  intros Hn Hreg Hr Hp.
  destruct (@inv_reachable cfg hst Hn Hreg s Hr) as (l & Hnd & Hhd & Hc & Hfl & Hout).
  destruct (@exiting_is_linked cfg s l teb f r Hc Hout Hp) as (i & Hi & _).
  destruct (@chain_progress cfg hst s l Hc (length l) i teb f r ltac:(lia) Hi Hp)
    as (teb' & s' & Hg & Hs).
  exists teb', s'. split; [exact Hg|]. split; [exact Hs|].
  apply reachable_step with (s := s); [exact Hr|].
  apply (@play1_step cfg hst (Next_call teb') s s' Hs).
Qed.

Lemma handoff_progress_witness :
  exists teb' s',
    in_graceful_exit (sys_units example_system_2 teb')
    /\ play1 linux_nptl_build working_host (Next_call teb') example_system_2
       = Some s'
    /\ reachable linux_nptl_build working_host s'.
Proof.
  exact (@handoff_progress linux_nptl_build working_host example_system_2
           200704 196608 _ eq_refl (fun teb => eq_refl)
           example_system_2_reachable eq_refl).
Defined.

(** X22. With HAVE_NPTL, in every reachable state: [teb_to_free] is
    NULL exactly as long as no unit went into SYSDEPS_ExitThread; from
    then on it holds the TEB of the unit that made the exchange last,
    and of that unit nothing is reclaimed: neither joined, nor its
    selector freed, nor its stack released, until another unit exits. *)
Theorem teb_to_free_names_last_exiter cfg hst s :
  HAVE_NPTL cfg = true ->
  (forall teb, registrar cfg (unit_regs teb) = Some teb) ->
  reachable cfg hst s ->
  let f := w_teb_to_free (sys_shared s) in
  (f = 0 <-> (forall teb, ~ in_graceful_exit (sys_units s teb)))
  /\ (f <> 0 ->
      in_graceful_exit (sys_units s f)
      /\ flags_of (sys_units s f) = (false, false, false)).
Proof.
  intros Hn Hreg Hr f. subst f.
  destruct (@inv_reachable cfg hst Hn Hreg s Hr) as (l & Hnd & Hhd & Hc & Hfl & Hout).
  rewrite Hhd.
  assert (Hmem : forall t, In t l -> t <> 0 /\ in_graceful_exit (sys_units s t)).
  { intros t Hin. unfold in_graceful_exit.
    destruct (@chain_member cfg (sys_units s) l t Hc Hin)
      as [[Hz (f' & r' & He)] | [Hz He]]; rewrite He; split; auto. }
  split; [split|].
  - intros E0 teb Hg. destruct l as [|a l'].
    + destruct (Hout teb (fun H => H)) as [_ Ho].
      unfold in_graceful_exit in Hg.
      destruct (u_phase (sys_units s teb)) as [| | |[|]]; auto.
    + cbn in E0. destruct (Hmem a (or_introl eq_refl)) as [Hz _]. congruence.
  - intros Hall. destruct l as [|a l']; [reflexivity|].
    destruct (Hmem a (or_introl eq_refl)) as [_ Hg]. destruct (Hall a Hg).
  - intros Hf. destruct l as [|a l']; [now cbn in Hf|]. cbn in Hfl |- *.
    split; [|exact Hfl]. apply Hmem. now left.
Qed.

Lemma teb_to_free_names_last_exiter_witness :
  w_teb_to_free (sys_shared example_system_3) = 200704
  /\ in_graceful_exit (sys_units example_system_3 200704)
  /\ flags_of (sys_units example_system_3 200704) = (false, false, false).
Proof.
  split; [vm_compute; reflexivity|].
  apply (proj2 (@teb_to_free_names_last_exiter linux_nptl_build working_host
                  example_system_3 eq_refl (fun teb => eq_refl)
                  example_system_3_reachable)).
  vm_compute. discriminate.
Defined.

(** ** What a graceful exit leaves untouched *)

Lemma with_regs_eta w :
  with_regs (mkRegs (r_sp (w_regs w)) (r_fs_sel (w_regs w)) (r_fs_base (w_regs w))
                    (r_r2 (w_regs w)) (r_r13 (w_regs w))
                    (r_lwp_private (w_regs w))) w = w.
Proof. destruct w as [[] ? ? ? ? ? ? ? ?]. reflexivity. Qed.

Lemma switch_cleanup_final cfg v ptr w teb :
  registrar cfg (w_regs w) = Some teb ->
  select_switcher cfg = Some v ->
  loads_stack_pointer v = true \/ v = sw_generic ->
  final (SYSDEPS_SwitchToThreadStack cfg F_cleanup_thread (cleanup_thread cfg)
           ptr w)
  = with_regs (mkRegs (cleanup_sp v (stack_top (w_tebs w teb)) (r_sp (w_regs w)))
                      (r_fs_sel (w_regs w)) (r_fs_base (w_regs w))
                      (r_r2 (w_regs w)) (r_r13 (w_regs w))
                      (r_lwp_private (w_regs w))) w.
Proof.
  intros H Hs Hv. unfold SYSDEPS_SwitchToThreadStack. rewrite Hs.
  destruct v; cbn in Hv; try (destruct Hv; discriminate); clear Hv.
  - destruct (select_i386_gnuc _ Hs) as [Hi Hg].
    assert (Hfs : r_fs_base (w_regs w) = teb).
    { unfold registrar, NtCurrentTeb_reads in H. rewrite Hi, Hg in H. cbn in H. congruence. }
    subst teb.
    unfold switch_body, enter_on_stack, set_sp, set_regs, get_teb.
    run H. rewrite bind_call_cleanup. cbn [cons_event final].
    rewrite !with_regs_twice. unfold cleanup_sp.
    replace (stack_top (w_tebs w (r_fs_base (w_regs w))) - 4 - 4)
      with (stack_top (w_tebs w (r_fs_base (w_regs w))) - 8) by lia.
    reflexivity.
  - unfold switch_body, enter_on_stack, set_sp, set_regs, get_teb.
    run H. rewrite bind_call_cleanup. cbn [cons_event final]. reflexivity.
  - unfold switch_body, enter_on_stack.
    run H. rewrite bind_call_cleanup. cbn [cons_event final].
    unfold cleanup_sp. now rewrite with_regs_eta.
Qed.

Lemma exit_plain_final cfg hst status w teb v :
  HAVE_NPTL cfg = false ->
  registrar cfg (w_regs w) = Some teb ->
  select_switcher cfg = Some v ->
  loads_stack_pointer v = true \/ v = sw_generic ->
  let t := w_tebs w teb in
  let rg := w_regs w in
  let slot := temp_stack_slot hst
                (wrap_unsigned (w_next_temp_stack w) mod NB_TEMP_STACKS) in
  let t1 := set_stack_base (h_free hst (stack_base t)) t in
  final (SYSDEPS_ExitThread cfg hst status w)
  = mkWorld
      (mkRegs (cleanup_sp v (slot + TEMP_STACK_SIZE) (r_sp rg))
              (r_fs_sel rg) (r_fs_base rg) (r_r2 rg) (r_r13 rg) (r_lwp_private rg))
      (upd (upd (upd (w_tebs w) teb t1) teb (set_stack_low slot t1)) teb
           (set_stack_top (slot + TEMP_STACK_SIZE) (set_stack_low slot t1)))
      (upd (w_infos w) (r_sp rg - h_info_offset hst) (built_info hst t status))
      (w_static_errno w) (w_static_h_errno w)
      (wrap_signed (w_next_temp_stack w + 1)) (w_teb_to_free w)
      (w_errno_location_ptr w) (w_h_errno_location_ptr w).
Proof.
  intros Hn H Hs Hv t rg slot t1. subst t rg slot t1.
  unfold SYSDEPS_ExitThread, get_temp_stack, interlocked_xchg_add_next_temp_stack,
    get_teb, set_teb, close.
  rewrite Hn. run H.
  match goal with
  | |- context [call ?m ?x] =>
      pose proof (@switch_cleanup_final cfg v (r_sp (w_regs w) - h_info_offset hst)
                    x teb H Hs Hv) as Hf;
      unfold call; cbn [cons_event trace final out]; rewrite Hf
  end.
  unfold with_regs. world_simpl.
  cbn [stack_top set_stack_top stack_low set_stack_low].
  unfold temp_stack_slot, built_info. reflexivity.
Qed.



(** X24. Without HAVE_NPTL, on a build whose stack switcher is the
    i386 or the sparc body for gcc or the generic body, two graceful
    exits that follow one another, of whatever two units, are given two
    different temporary stacks:
    the regions the two TEBs name as [stack_low] to [stack_top] after the
    exits have TEMP_STACK_SIZE bytes each and do not overlap. *)
Theorem consecutive_exits_use_different_stacks cfg hst sa sb w a b rb v :
  HAVE_NPTL cfg = false ->
  registrar cfg (w_regs w) = Some a ->
  registrar cfg rb = Some b ->
  select_switcher cfg = Some v ->
  loads_stack_pointer v = true \/ v = sw_generic ->
  let wa := final (SYSDEPS_ExitThread cfg hst sa w) in
  let wb := final (SYSDEPS_ExitThread cfg hst sb (seen_by rb wa)) in
  let la := stack_low (w_tebs wa a) in
  let lb := stack_low (w_tebs wb b) in
  stack_top (w_tebs wa a) = la + TEMP_STACK_SIZE
  /\ stack_top (w_tebs wb b) = lb + TEMP_STACK_SIZE
  /\ (la + TEMP_STACK_SIZE <= lb \/ lb + TEMP_STACK_SIZE <= la).
Proof.
  intros Hn Ha Hb Hs Hv wa wb la lb. subst la lb wb wa.
  unfold seen_by.
  rewrite (@exit_plain_final cfg hst sb
             (with_regs rb (final (SYSDEPS_ExitThread cfg hst sa w))) b v Hn Hb Hs Hv).
  rewrite (@exit_plain_final cfg hst sa w a v Hn Ha Hs Hv).
  cbn [w_tebs w_next_temp_stack with_regs]. rewrite !upd_same.
  cbn [stack_top set_stack_top stack_low set_stack_low].
  split; [reflexivity|]. split; [reflexivity|].
  rewrite wrap_unsigned_signed.
  unfold temp_stack_slot, wrap_unsigned, NB_TEMP_STACKS, TEMP_STACK_SIZE.
  rewrite !(Z.mod_mod_divide _ (2 ^ 32) 8)
    by (exists (2 ^ 29); reflexivity).
  pose proof (Z.mod_pos_bound (w_next_temp_stack w) 8 ltac:(lia)).
  pose proof (Z.mod_pos_bound (w_next_temp_stack w + 1) 8 ltac:(lia)).
  assert ((w_next_temp_stack w + 1) mod 8 <> w_next_temp_stack w mod 8).
  { rewrite Z.add_mod by lia.
    intros E.
    pose proof (Z.div_mod (w_next_temp_stack w mod 8 + 1 mod 8) 8 ltac:(lia)).
    change (1 mod 8) with 1 in *.
    assert ((w_next_temp_stack w mod 8 + 1) / 8 = 0
            \/ (w_next_temp_stack w mod 8 + 1) / 8 = 1).
    { assert (0 <= (w_next_temp_stack w mod 8 + 1) / 8 < 2); [|lia].
      split; [apply Z.div_pos; lia | apply Z.div_lt_upper_bound; lia]. }
    lia. }
  lia.
Qed.

Lemma consecutive_exits_use_different_stacks_witness :
  stack_low (w_tebs (final (SYSDEPS_ExitThread linux_clone_build working_host 3
                              example_world)) 196608) + TEMP_STACK_SIZE
  <= stack_low
       (w_tebs (final (SYSDEPS_ExitThread linux_clone_build working_host 4
                         (seen_by (unit_regs 200704)
                            (final (SYSDEPS_ExitThread linux_clone_build
                                      working_host 3 example_world)))))
               200704)
  \/ stack_low
       (w_tebs (final (SYSDEPS_ExitThread linux_clone_build working_host 4
                         (seen_by (unit_regs 200704)
                            (final (SYSDEPS_ExitThread linux_clone_build
                                      working_host 3 example_world)))))
               200704) + TEMP_STACK_SIZE
     <= stack_low (w_tebs (final (SYSDEPS_ExitThread linux_clone_build working_host
                                    3 example_world)) 196608).
Proof.
  exact (proj2 (proj2 (@consecutive_exits_use_different_stacks linux_clone_build
                         working_host 3 4 example_world 196608 200704
                         (unit_regs 200704) sw_i386_gnuc
                         eq_refl eq_refl eq_refl eq_refl (or_introl eq_refl)))).
Defined.

(** ** Graceful exit on PowerPC *)

(** X25. On PowerPC, with either body of the switcher and without
    HAVE_NPTL, a graceful exit makes the calls of the other builds in
    the same order and ends in [cleanup_thread], but without leaving its
    stack: [cleanup_thread] is entered with the stack pointer that
    SYSDEPS_ExitThread was running on, not with one on the temporary
    stack that was taken, and the stack pointer stays where it was; the
    switcher has stored it over the [stack_top] of the block [r13]
    points to. *)
Theorem powerpc_exit_on_released_stack cfg hst status w teb v :
  HAVE_NPTL cfg = false ->
  registrar cfg (w_regs w) = Some teb ->
  select_switcher cfg = Some v ->
  v = sw_powerpc_apple \/ v = sw_powerpc_gnuc ->
  let t := w_tebs w teb in
  let info_addr := r_sp (w_regs w) - h_info_offset hst in
  let r := SYSDEPS_ExitThread cfg hst status w in
  trace r
  = detach_calls t info_addr (w_next_temp_stack w)
    ++ cleanup_calls cfg (r_sp (w_regs w)) info_addr (built_info hst t status)
         (r_fs_sel (w_regs w))
  /\ out r = Stop (if HAVE__LWP_CREATE cfg then ThreadExit else ProcessExit status)
  /\ stack_top (w_tebs (final r) (r_r13 (w_regs w))) = r_sp (w_regs w)
  /\ r_sp (w_regs (final r)) = r_sp (w_regs w).
Proof.
  intros Hn H Hs Hv t info_addr r. subst t info_addr r.
  unfold SYSDEPS_ExitThread, get_temp_stack, interlocked_xchg_add_next_temp_stack,
    get_teb, set_teb, close.
  rewrite Hn. run H.
  unfold call. rewrite (@switch_cleanup_powerpc cfg v _ _ Hs Hv).
  cbn [cons_event trace final out]. world_simpl.
  unfold detach_calls, built_info.
  cbn [app stack_top set_stack_top info_status].
  repeat split.
Qed.

Lemma powerpc_exit_on_released_stack_witness :
  stack_top (w_tebs (final (SYSDEPS_ExitThread darwin_powerpc_build working_host 3
                              example_world)) 196608) = 135000
  /\ stack_base example_teb <= 135000 < stack_top example_teb.
Proof.
  split; [|cbn; lia].
  exact (proj1 (proj2 (proj2
    (@powerpc_exit_on_released_stack darwin_powerpc_build working_host 3
       example_world 196608 sw_powerpc_apple eq_refl eq_refl eq_refl
       (or_introl eq_refl))))).
Defined.

(** ** The body of the switcher written in C *)

(** X26. On the builds that get the body written in C (not i386, not
    sparc with gcc, not PowerPC with gcc or on Darwin),
    SYSDEPS_SwitchToThreadStack
    switches nothing: the function is called on the stack the caller
    was using, with registers and memory as they were, and what the
    function leaves is left.  When the function returns, the switcher
    stays in its endless loop; it never returns to its caller. *)
Theorem switcher_generic_body cfg f func arg w :
  select_switcher cfg = Some sw_generic ->
  let r := SYSDEPS_SwitchToThreadStack cfg f func arg w in
  trace r
  = Enter F_SYSDEPS_SwitchToThreadStack
    :: Ev_run_on_stack f (r_sp (w_regs w)) :: trace (func arg w)
  /\ final r = final (func arg w)
  /\ out r = (if comes_back (out (func arg w)) then Stop SpinForever
              else out (func arg w))
  /\ comes_back (out r) = false.
Proof.
  intros Hs r. subst r. unfold SYSDEPS_SwitchToThreadStack. rewrite Hs.
  unfold switch_body, enter_on_stack. run I. rewrite bind_call_run.
  destruct (comes_back (out (func arg w))) eqn:Ec.
  - run I. finish_run. rewrite app_nil_r. repeat split.
  - cbn [cons_event trace final out].
    destruct (out (func arg w)); try discriminate Ec. repeat split.
Qed.

Lemma switcher_generic_body_witness :
  trace (SYSDEPS_SwitchToThreadStack solaris_lwp_build (F_outside 0)
           returns_at_once 0 example_world)
  = [Enter F_SYSDEPS_SwitchToThreadStack; Ev_run_on_stack (F_outside 0) 135000]
  /\ out (SYSDEPS_SwitchToThreadStack solaris_lwp_build (F_outside 0)
            returns_at_once 0 example_world) = Stop SpinForever.
Proof.
  destruct (@switcher_generic_body solaris_lwp_build (F_outside 0)
              returns_at_once 0 example_world eq_refl) as (Ht & _ & Ho & _).
  split; [exact Ht | exact Ho].
Defined.
